(** * Syllabus Scanner API: a shallow embedding of [backend/main.py]

    The service downloads a syllabus PDF, extracts its text, asks a language
    model for a course name and a list of events, normalises the dates and
    stores one row per event.  This development embeds the request handlers
    and their helpers as Rocq functions and proves the properties the
    specification states about them, then further properties read off the
    code itself.

    Everything the handlers do not implement themselves (the HTTP fetch, the
    PDF library, the language model, the clock, the hosted table) is gathered
    in a record [World] of oracles; the handlers run in a small state and
    exception monad that records every call that leaves the process. *)

From Stdlib Require Import List Bool Arith NArith ZArith Lia String Ascii.
Import ListNotations.

Set Warnings "-register-all".

(* ================================================================== *)
(** * Python text *)
(* ================================================================== *)

(** A Python [str] is a sequence of Unicode code points. *)
Definition char := N.
Definition str := list char.

Definition chr (a : ascii) : char := N_of_ascii a.
Arguments chr a%_char.

(** [py "abc"] is the [str] written ["abc"] in the source. *)
Definition py (s : string) : str := map N_of_ascii (list_ascii_of_string s).
Arguments py s%_string.

(** The double quote. *)
Definition dquote : char := 34%N.

Definition char_eqb (a b : char) : bool := N.eqb a b.
Arguments char_eqb (a b)%_N.

Fixpoint str_eqb (a b : str) : bool :=
  match a, b with
  | [], [] => true
  | x :: a', y :: b' => char_eqb x y && str_eqb a' b'
  | _, _ => false
  end.

Definition in_range (lo hi c : char) : bool := (N.leb lo c && N.leb c hi)%bool.
Arguments in_range (lo hi c)%_N.

(** [str.isspace] on one code point, which is also the class [\s] of [re] on
    [str] patterns (Unicode 14, the database of CPython 3.11). *)
Definition is_space (c : char) : bool :=
  in_range 9 13 c || in_range 28 32 c || char_eqb c 133 || char_eqb c 160
  || char_eqb c 5760 || in_range 8192 8202 c || char_eqb c 8232
  || char_eqb c 8233 || char_eqb c 8239 || char_eqb c 8287
  || char_eqb c 12288.

(** First code point of every run of decimal digits (category Nd); every run
    is ten code points long and holds the digits 0 to 9 in order, apart from
    the run of mathematical digits at U+1D7CE, which holds five such decades. *)
Definition decimal_runs : list (N * N) :=
  [ (48, 10); (1632, 10); (1776, 10); (1984, 10); (2406, 10); (2534, 10);
    (2662, 10); (2790, 10); (2918, 10); (3046, 10); (3174, 10); (3302, 10);
    (3430, 10); (3558, 10); (3664, 10); (3792, 10); (3872, 10); (4160, 10);
    (4240, 10); (6112, 10); (6160, 10); (6470, 10); (6608, 10); (6784, 10);
    (6800, 10); (6992, 10); (7088, 10); (7232, 10); (7248, 10); (42528, 10);
    (43216, 10); (43264, 10); (43472, 10); (43504, 10); (43600, 10);
    (44016, 10); (65296, 10); (66720, 10); (68912, 10); (69734, 10);
    (69872, 10); (69942, 10); (70096, 10); (70384, 10); (70736, 10);
    (70864, 10); (71248, 10); (71360, 10); (71472, 10); (71904, 10);
    (72016, 10); (72784, 10); (73040, 10); (73120, 10); (92768, 10);
    (92864, 10); (93008, 10); (120782, 50); (123200, 10); (123632, 10);
    (125264, 10); (130032, 10) ]%N.

Fixpoint decimal_in (runs : list (N * N)) (c : char) : option N :=
  match runs with
  | [] => None
  | (lo, len) :: runs' =>
      if (N.leb lo c && N.ltb c (lo + len))%bool
      then Some (N.modulo (c - lo) 10)
      else decimal_in runs' c
  end.

(** The value of a decimal digit, [None] for any other code point. *)
Definition decimal_value (c : char) : option N := decimal_in decimal_runs c.

(** The class [\d] of [re] on [str] patterns. *)
Definition is_digit (c : char) : bool :=
  match decimal_value c with Some _ => true | None => false end.

(** ASCII digits, as in a character set [[0-9]]. *)
Definition is_ascii_digit (c : char) : bool := in_range 48 57 c.

Fixpoint lstrip (s : str) : str :=
  match s with
  | [] => []
  | c :: t => if is_space c then lstrip t else s
  end.

Definition rstrip (s : str) : str := rev (lstrip (rev s)).

(** [s.strip()] *)
Definition strip (s : str) : str := rstrip (lstrip s).

(** [s.startswith(p)] *)
Fixpoint startswith (p s : str) : bool :=
  match p, s with
  | [], _ => true
  | a :: p', b :: s' => char_eqb a b && startswith p' s'
  | _ :: _, [] => false
  end.

(** [s.lower()] restricted to what the month lookup of [strptime] needs: the
    ASCII capitals are folded, any other code point is left alone. *)
Definition ascii_lower (c : char) : char :=
  if in_range 65 90 c then (c + 32)%N else c.

Definition lower (s : str) : str := map ascii_lower s.

(** Decimal rendering of a natural number, as [%d] prints it. *)
Fixpoint digits_of (fuel n : nat) (acc : str) : str :=
  match fuel with
  | O => acc
  | S fuel' =>
      let acc' := (48 + N.of_nat (n mod 10))%N :: acc in
      if n <? 10 then acc' else digits_of fuel' (n / 10) acc'
  end.

Definition str_of_nat (n : nat) : str := digits_of (S n) n [].

(** [n] printed in exactly [w] digit positions (leading zeros, and only the
    last [w] digits of a longer number: the callers stay within range). *)
Fixpoint zero_pad (w : nat) (n : N) : str :=
  match w with
  | O => []
  | S w' => zero_pad w' (n / 10)%N ++ [(48 + n mod 10)%N]
  end.

(* ================================================================== *)
(** * Regular expressions: the fragment of [re] the program uses *)
(* ================================================================== *)

(** Patterns are matched the way [re] matches them, by backtracking:
    [rx r st] lists every way [r] can match from the state [st], in the order
    in which the backtracking engine would try them, so that the head of the
    list is the match [re] reports. *)
Inductive regex : Type :=
| RChar (c : char)              (* a literal character *)
| RCharI (c : char)             (* a literal character under IGNORECASE *)
| RSet (p : char -> bool)       (* a class: \s, \d, [0-2], ... *)
| RSeq (a b : regex)
| RAlt (a b : regex)            (* a|b *)
| ROpt (a : regex)              (* a?, greedy *)
| RStar (p : char -> bool)      (* p*, greedy, of a class *)
| RBol                          (* ^ without MULTILINE *)
| REol                          (* $ without MULTILINE *)
| RGroup (name : char) (a : regex)  (* (?P<name>a) *)
| REmpty.

Record mstate : Type := MState {
  m_pos : nat;                       (* index reached in the subject *)
  m_rest : str;                      (* the subject from that index on *)
  m_groups : list (char * str)       (* named groups closed so far *)
}.

(** Which subject characters a literal letter matches under IGNORECASE: both
    cases of the letter and the code points [re] treats as equivalent to [i],
    [k] and [s] (dotted and dotless i, the Kelvin sign, the long s). *)
Definition ci_eqb (p c : char) : bool :=
  let p' := ascii_lower p in
  char_eqb c p'
  || (in_range 97 122 p' && char_eqb c (p' - 32))
  || (char_eqb p' 105 && (char_eqb c 304 || char_eqb c 305))
  || (char_eqb p' 107 && char_eqb c 8490)
  || (char_eqb p' 115 && char_eqb c 383).

Definition rx_one (p : char -> bool) (st : mstate) : list mstate :=
  match m_rest st with
  | c :: t => if p c then [MState (S (m_pos st)) t (m_groups st)] else []
  | [] => []
  end.

Fixpoint rx_star (p : char -> bool) (pos : nat) (rest : str)
    (gs : list (char * str)) : list mstate :=
  match rest with
  | c :: t =>
      if p c then rx_star p (S pos) t gs ++ [MState pos rest gs]
      else [MState pos rest gs]
  | [] => [MState pos [] gs]
  end.

Fixpoint rx (r : regex) (st : mstate) : list mstate :=
  match r with
  | RChar c => rx_one (char_eqb c) st
  | RCharI c => rx_one (ci_eqb c) st
  | RSet p => rx_one p st
  | RSeq a b => flat_map (rx b) (rx a st)
  | RAlt a b => rx a st ++ rx b st
  | ROpt a => rx a st ++ [st]
  | RStar p => rx_star p (m_pos st) (m_rest st) (m_groups st)
  | RBol => if Nat.eqb (m_pos st) 0 then [st] else []
  | REol =>
      match m_rest st with
      | [] => [st]
      | [c] => if char_eqb c 10 then [st] else []
      | _ => []
      end
  | RGroup name a =>
      map (fun st' =>
             MState (m_pos st') (m_rest st')
               (m_groups st' ++
                  [(name, firstn (m_pos st' - m_pos st) (m_rest st))]))
          (rx a st)
  | REmpty => [st]
  end.

(** The literal string [s] as a pattern. *)
Fixpoint rx_lit (s : str) : regex :=
  match s with
  | [] => REmpty
  | c :: t => RSeq (RChar c) (rx_lit t)
  end.

(** [re.match(r, s)]: the first match of [r] at the start of [s]. *)
Definition re_match (r : regex) (s : str) : option mstate :=
  match rx r (MState 0 s []) with
  | st :: _ => Some st
  | [] => None
  end.

(** [re.sub(r, '', s)]: every non-overlapping match of [r], scanning from the
    left, is deleted.  [skip] counts the characters of the current match still
    to be dropped.  A match of the empty string deletes nothing and the scan
    moves on by one character; neither pattern of the program matches the
    empty string. *)
Fixpoint sub_scan (r : regex) (skip pos : nat) (s : str) : str :=
  match s with
  | [] => []
  | c :: t =>
      match skip with
      | S k => sub_scan r k (S pos) t
      | O =>
          match rx r (MState pos s []) with
          | st :: _ =>
              match m_pos st - pos with
              | O => c :: sub_scan r 0 (S pos) t
              | S k => sub_scan r k (S pos) t
              end
          | [] => c :: sub_scan r 0 (S pos) t
          end
      end
  end.

Definition re_sub_delete (r : regex) (s : str) : str := sub_scan r 0 0 s.

(** [r"^```(?:json)?\s*"] *)
Definition fence_open_re : regex :=
  RSeq RBol (RSeq (rx_lit (py "```"))
    (RSeq (ROpt (rx_lit (py "json"))) (RStar is_space))).

(** [r"\s*```\s*$"] *)
Definition fence_close_re : regex :=
  RSeq (RStar is_space) (RSeq (rx_lit (py "```"))
    (RSeq (RStar is_space) REol)).

(** [r"^\d{4}-\d{2}-\d{2}$"] *)
Definition canonical_date_re : regex :=
  let d := RSet is_digit in
  RSeq RBol (RSeq d (RSeq d (RSeq d (RSeq d (RSeq (RChar (chr "-"))
    (RSeq d (RSeq d (RSeq (RChar (chr "-")) (RSeq d (RSeq d REol)))))))))).

(** Lines 107-109 of [extract_course_and_events_with_gemini]: the fence
    delimiters are removed only from a reply that starts with a fence. *)
Definition strip_fences (raw : str) : str :=
  if startswith (py "```") raw
  then re_sub_delete fence_close_re (re_sub_delete fence_open_re raw)
  else raw.

(* ================================================================== *)
(** * Python objects and [json.loads] *)
(* ================================================================== *)

(** A [float] read from a decimal literal is kept as that literal,
    [(-1)^neg * mant * 10^exp10], and the binary value it rounds to is not
    computed; the only thing the program asks of a float is whether it is
    zero. *)
Inductive pyfloat : Type :=
| FNan
| FInf (neg : bool)
| FDec (neg : bool) (mant : N) (exp10 : Z).

(** The objects [json.loads] can return. A [dict] keeps its keys in insertion
    order. *)
Inductive value : Type :=
| VNone
| VBool (b : bool)
| VInt (z : Z)
| VFloat (f : pyfloat)
| VStr (s : str)
| VList (l : list value)
| VDict (d : list (str * value)).

(** [d[k] = v] *)
Fixpoint dict_set (d : list (str * value)) (k : str) (v : value)
    : list (str * value) :=
  match d with
  | [] => [(k, v)]
  | (k', v') :: d' =>
      if str_eqb k' k then (k', v) :: d' else (k', v') :: dict_set d' k v
  end.

(** [d.get(k)] *)
Fixpoint dict_get (d : list (str * value)) (k : str) : option value :=
  match d with
  | [] => None
  | (k', v) :: d' => if str_eqb k' k then Some v else dict_get d' k
  end.

(** A decimal literal denotes the float zero when its mantissa is zero or
    when it is at most half the smallest subnormal, 2^-1075 (the conversion
    rounds to nearest, ties to even). *)
Definition float_is_zero (f : pyfloat) : bool :=
  match f with
  | FNan | FInf _ => false
  | FDec _ mant e =>
      N.eqb mant 0
      || (Z.ltb e 0
          && Z.leb (Z.of_N mant * 2 ^ 1075) (10 ^ (- e)))%Z
  end.

(** [bool(v)] *)
Definition truthy (v : value) : bool :=
  match v with
  | VNone => false
  | VBool b => b
  | VInt z => negb (Z.eqb z 0)
  | VFloat f => negb (float_is_zero f)
  | VStr s => match s with [] => false | _ => true end
  | VList l => match l with [] => false | _ => true end
  | VDict d => match d with [] => false | _ => true end
  end.

(** [type(v).__name__] *)
Definition type_name (v : value) : str :=
  match v with
  | VNone => py "NoneType"
  | VBool _ => py "bool"
  | VInt _ => py "int"
  | VFloat _ => py "float"
  | VStr _ => py "str"
  | VList _ => py "list"
  | VDict _ => py "dict"
  end.

(** [json.JSONDecodeError]: the message, the document and the index at which
    decoding failed. *)
Record JSONDecodeError : Type := MkJSONDecodeError {
  jde_msg : str;
  jde_doc : str;
  jde_pos : nat
}.

Fixpoint count_newlines (n : nat) (s : str) : nat :=
  match n, s with
  | S n', c :: t => (if char_eqb c 10 then 1 else 0) + count_newlines n' t
  | _, _ => 0
  end.

(** Number of characters after the last newline of [s[:n]], all of [s[:n]]
    when it has none. *)
Fixpoint tail_after_newline (n : nat) (s : str) (len : nat) : nat :=
  match n, s with
  | S n', c :: t =>
      tail_after_newline n' t (if char_eqb c 10 then 0 else S len)
  | _, _ => len
  end.

(** [str(e)] for a [JSONDecodeError]:
    ['%s: line %d column %d (char %d)' % (msg, lineno, colno, pos)] with
    [lineno = doc.count('\n', 0, pos) + 1] and
    [colno = pos - doc.rfind('\n', 0, pos)]. *)
Definition JSONDecodeError_str (e : JSONDecodeError) : str :=
  let lineno := count_newlines (jde_pos e) (jde_doc e) + 1 in
  let colno := tail_after_newline (jde_pos e) (jde_doc e) 0 + 1 in
  jde_msg e ++ py ": line " ++ str_of_nat lineno ++ py " column "
  ++ str_of_nat colno ++ py " (char " ++ str_of_nat (jde_pos e) ++ py ")".

(** ** Tokens *)

Definition is_json_ws (c : char) : bool :=
  char_eqb c 32 || char_eqb c 9 || char_eqb c 10 || char_eqb c 13.

Definition is_punct (c : char) : bool :=
  char_eqb c (chr "{") || char_eqb c (chr "}") || char_eqb c (chr "[")
  || char_eqb c (chr "]") || char_eqb c (chr ",") || char_eqb c (chr ":").

Definition hex_value (c : char) : option N :=
  if in_range 48 57 c then Some (c - 48)%N
  else if in_range 97 102 c then Some (c - 87)%N
  else if in_range 65 70 c then Some (c - 55)%N
  else None.

Definition hex4 (a b c d : char) : option N :=
  match hex_value a, hex_value b, hex_value c, hex_value d with
  | Some x, Some y, Some z, Some w => Some (((x * 16 + y) * 16 + z) * 16 + w)%N
  | _, _, _, _ => None
  end.

(** The one-letter escapes of a JSON string. *)
Definition unescape (c : char) : option char :=
  if char_eqb c dquote then Some dquote
  else if char_eqb c (chr "\") then Some (chr "\")
  else if char_eqb c (chr "/") then Some (chr "/")
  else if char_eqb c (chr "b") then Some 8%N
  else if char_eqb c (chr "f") then Some 12%N
  else if char_eqb c (chr "n") then Some 10%N
  else if char_eqb c (chr "r") then Some 13%N
  else if char_eqb c (chr "t") then Some 9%N
  else None.

Definition is_high_surrogate (u : N) : bool := in_range 55296 56319 u.
Definition is_low_surrogate (u : N) : bool := in_range 56320 57343 u.
Definition join_surrogates (hi lo : N) : N :=
  (65536 + ((hi - 55296) * 1024 + (lo - 56320)))%N.

Definition msg_unterminated : str := py "Unterminated string starting at".
Definition msg_control : str := py "Invalid control character at".
Definition msg_escape : str := py "Invalid \escape".
Definition msg_uXXXX : str := py "Invalid \uXXXX escape".

(** The string scanner of the decoder. [begin] is the index of the opening
    quote, [pos] the index of the head of [s], [acc] the characters decoded so
    far, last first.  The result is the decoded string and the index after
    the closing quote, or a message and the index it is reported at.  A
    [\uXXXX] escape needs one more character after its four digits, and a
    surrogate pair one more after its second escape, as in the decoder. *)
Fixpoint scanstring (begin pos : nat) (s acc : str)
    : (str * nat) + (str * nat) :=
  match s with
  | [] => inl (msg_unterminated, begin)
  | c :: t =>
      if char_eqb c dquote then inr (rev acc, S pos)
      else if char_eqb c (chr "\") then
        match t with
        | [] => inl (msg_unterminated, begin)
        | e :: t1 =>
            if char_eqb e (chr "u") then
              match t1 with
              | h1 :: h2 :: h3 :: h4 :: ((_ :: _) as t2) =>
                  match hex4 h1 h2 h3 h4 with
                  | None => inl (msg_uXXXX, S pos)
                  | Some u =>
                      match t2 with
                      | b :: u' :: l1 :: l2 :: l3 :: l4 :: ((_ :: _) as t3) =>
                          if is_high_surrogate u && char_eqb b (chr "\")
                             && char_eqb u' (chr "u")
                          then
                            match hex4 l1 l2 l3 l4 with
                            | None => inl (msg_uXXXX, pos + 7)
                            | Some u2 =>
                                if is_low_surrogate u2
                                then scanstring begin (pos + 12) t3
                                       (join_surrogates u u2 :: acc)
                                else scanstring begin (pos + 6) t2 (u :: acc)
                            end
                          else scanstring begin (pos + 6) t2 (u :: acc)
                      | _ => scanstring begin (pos + 6) t2 (u :: acc)
                      end
                  end
              | _ => inl (msg_uXXXX, S pos)
              end
            else
              match unescape e with
              | Some c' => scanstring begin (pos + 2) t1 (c' :: acc)
              | None => inl (msg_escape, pos)
              end
        end
      else if N.leb c 31 then inl (msg_control, pos)
      else scanstring begin (S pos) t (c :: acc)
  end.

(** The longest prefix of ASCII digits and what follows it. *)
Fixpoint take_digits (s : str) : str * str :=
  match s with
  | c :: t =>
      if is_ascii_digit c
      then let (ds, r) := take_digits t in (c :: ds, r)
      else ([], s)
  | [] => ([], [])
  end.

Definition decimal_of (ds : str) : N :=
  fold_left (fun a c => (10 * a + (c - 48))%N) ds 0%N.

(** The integer part [0|[1-9]\d*] of a number. *)
Definition take_int (s : str) : option (str * str) :=
  match s with
  | c :: t =>
      if char_eqb c 48 then Some ([c], t)
      else if in_range 49 57 c
      then let (ds, r) := take_digits t in Some (c :: ds, r)
      else None
  | [] => None
  end.

(** The fraction [\.\d+], empty when there is none. *)
Definition take_frac (s : str) : str * str :=
  match s with
  | c :: t =>
      if char_eqb c (chr ".")
      then match take_digits t with
           | ([], _) => ([], s)
           | (ds, r) => (ds, r)
           end
      else ([], s)
  | [] => ([], s)
  end.

(** The exponent [[eE][-+]?\d+]: its value and the characters it spans. *)
Definition take_exp (s : str) : option (Z * nat) :=
  match s with
  | c :: t =>
      if char_eqb c (chr "e") || char_eqb c (chr "E") then
        let '(neg, signlen, t') :=
          match t with
          | sg :: t1 =>
              if char_eqb sg (chr "-") then (true, 1, t1)
              else if char_eqb sg (chr "+") then (false, 1, t1)
              else (false, 0, t)
          | [] => (false, 0, t)
          end in
        match take_digits t' with
        | ([], _) => None
        | (ds, _) =>
            let e := Z.of_N (decimal_of ds) in
            Some (if neg then (- e)%Z else e, 1 + signlen + List.length ds)
        end
      else None
  | [] => None
  end.

(** A number at the head of [s]: the object it denotes and its length.
    Without fraction and exponent it is an [int], otherwise a [float]. *)
Definition scan_number (s : str) : option (value * nat) :=
  let '(neg, s1) :=
    match s with
    | c :: t => if char_eqb c (chr "-") then (true, t) else (false, s)
    | [] => (false, s)
    end in
  match take_int s1 with
  | None => None
  | Some (ip, s2) =>
      let (fp, s3) := take_frac s2 in
      let len0 := (if neg then 1 else 0) + List.length ip
                  + match fp with [] => 0 | _ => S (List.length fp) end in
      match fp, take_exp s3 with
      | [], None =>
          let n := Z.of_N (decimal_of ip) in
          Some (VInt (if neg then (- n)%Z else n), len0)
      | _, None =>
          Some (VFloat (FDec neg (decimal_of (ip ++ fp))
                          (- Z.of_nat (List.length fp))), len0)
      | _, Some (e, elen) =>
          Some (VFloat (FDec neg (decimal_of (ip ++ fp))
                          (e - Z.of_nat (List.length fp))), len0 + elen)
      end
  end.

(** A literal, a number or a constant at the head of [s], in the order the
    scanner of the decoder tries them. *)
Definition scan_atom (s : str) : option (value * nat) :=
  if startswith (py "null") s then Some (VNone, 4)
  else if startswith (py "true") s then Some (VBool true, 4)
  else if startswith (py "false") s then Some (VBool false, 5)
  else match scan_number s with
       | Some r => Some r
       | None =>
           if startswith (py "NaN") s then Some (VFloat FNan, 3)
           else if startswith (py "Infinity") s
           then Some (VFloat (FInf false), 8)
           else if startswith (py "-Infinity") s
           then Some (VFloat (FInf true), 9)
           else None
       end.

Inductive token : Type :=
| TPunct (c : char)                 (* one of { } [ ] , : *)
| TAtom (v : value)                 (* a string, a number or a literal *)
| TStrErr (msg : str) (at_pos : nat)  (* a string that fails to scan *)
| TBad.                             (* no token starts here *)

(** The tokens of [s] with the index each starts at. [skip] counts the
    characters of the current token still to be passed over.  Nothing is
    read after a token that cannot be scanned. *)
Fixpoint lex (skip pos : nat) (s : str) : list (nat * token) :=
  match s with
  | [] => []
  | c :: t =>
      match skip with
      | S k => lex k (S pos) t
      | O =>
          if is_json_ws c then lex 0 (S pos) t
          else if is_punct c then (pos, TPunct c) :: lex 0 (S pos) t
          else if char_eqb c dquote then
            match scanstring pos (S pos) t [] with
            | inr (v, e) => (pos, TAtom (VStr v)) :: lex (e - S pos) (S pos) t
            | inl (msg, p) => [(pos, TStrErr msg p)]
            end
          else
            match scan_atom s with
            | Some (v, n) => (pos, TAtom v) :: lex (n - 1) (S pos) t
            | None => [(pos, TBad)]
            end
      end
  end.

(** ** The decoder proper *)

(** A container under construction: the elements of a list, last first, or
    the items of a dict and the key whose value is being read. *)
Inductive frame : Type :=
| FList (acc : list value)
| FDict (items : list (str * value)) (key : option str).

(** What the decoder expects next. *)
Inductive mode : Type :=
| MValue       (* a value *)
| MFirstElem   (* after [: a value or ] *)
| MFirstKey    (* after {: a key or } *)
| MKey         (* after , in a dict: a key *)
| MColon       (* after a key: the colon *)
| MListSep     (* after an element: , or ] *)
| MDictSep     (* after an item: , or } *)
| MDone (v : value).   (* the document is complete *)

Definition pstate : Type := (mode * list frame)%type.

Definition msg_value : str := py "Expecting value".
Definition msg_key : str :=
  py "Expecting property name enclosed in double quotes".
Definition msg_colon : str := py "Expecting ':' delimiter".
Definition msg_comma : str := py "Expecting ',' delimiter".
Definition msg_extra : str := py "Extra data".
Definition msg_bom : str := py "Unexpected UTF-8 BOM (decode using utf-8-sig)".

(** The message of a token that does not fit, by what was expected. *)
Definition expecting (m : mode) : str :=
  match m with
  | MValue | MFirstElem => msg_value
  | MFirstKey | MKey => msg_key
  | MColon => msg_colon
  | MListSep | MDictSep => msg_comma
  | MDone _ => msg_extra
  end.

(** A finished value goes into the container being built, or is the
    document. *)
Definition attach (v : value) (stack : list frame) : pstate :=
  match stack with
  | [] => (MDone v, [])
  | FList acc :: stack' => (MListSep, FList (v :: acc) :: stack')
  | FDict items (Some k) :: stack' =>
      (MDictSep, FDict (dict_set items k v) None :: stack')
  | FDict items None :: stack' => (MDictSep, FDict items None :: stack')
  end.

(** One token at index [pos]: the next state, or the message and index of
    the error. *)
Definition step (st : pstate) (pos : nat) (tok : token)
    : (str * nat) + pstate :=
  let (m, stack) := st in
  let unexpected := inl (expecting m, pos) in
  match m, tok with
  | (MValue | MFirstElem), TAtom v => inr (attach v stack)
  | (MValue | MFirstElem), TStrErr msg p => inl (msg, p)
  | (MFirstKey | MKey), TAtom (VStr k) =>
      match stack with
      | FDict items _ :: stack' => inr (MColon, FDict items (Some k) :: stack')
      | _ => unexpected
      end
  | (MFirstKey | MKey), TStrErr msg p => inl (msg, p)
  | _, TPunct c =>
      if char_eqb c (chr "[") then
        match m with
        | MValue | MFirstElem => inr (MFirstElem, FList [] :: stack)
        | _ => unexpected
        end
      else if char_eqb c (chr "{") then
        match m with
        | MValue | MFirstElem => inr (MFirstKey, FDict [] None :: stack)
        | _ => unexpected
        end
      else if char_eqb c (chr "]") then
        match m, stack with
        | (MFirstElem | MListSep), FList acc :: stack' =>
            inr (attach (VList (rev acc)) stack')
        | _, _ => unexpected
        end
      else if char_eqb c (chr "}") then
        match m, stack with
        | (MFirstKey | MDictSep), FDict items _ :: stack' =>
            inr (attach (VDict items) stack')
        | _, _ => unexpected
        end
      else if char_eqb c (chr ",") then
        match m with
        | MListSep => inr (MValue, stack)
        | MDictSep => inr (MKey, stack)
        | _ => unexpected
        end
      else
        match m with
        | MColon => inr (MValue, stack)
        | _ => unexpected
        end
  | _, _ => unexpected
  end.

(** The tokens in order; [len] is the length of the document, where the end
    of input is reported. *)
Fixpoint decode_tokens (st : pstate) (toks : list (nat * token)) (len : nat)
    : (str * nat) + value :=
  match toks with
  | [] =>
      match fst st with
      | MDone v => inr v
      | m => inl (expecting m, len)
      end
  | (pos, tok) :: toks' =>
      match step st pos tok with
      | inl e => inl e
      | inr st' => decode_tokens st' toks' len
      end
  end.

(** [json.loads(s)] for a [str]: the object, or the [JSONDecodeError]
    raised.  The limits of the interpreter (recursion depth, the maximal
    number of digits of an [int]) are outside this model. *)
Definition json_loads (s : str) : JSONDecodeError + value :=
  if startswith [65279%N] s then inl (MkJSONDecodeError msg_bom s 0)
  else
    match decode_tokens (MValue, []) (lex 0 0 s) (List.length s) with
    | inl (msg, pos) => inl (MkJSONDecodeError msg s pos)
    | inr v => inr v
    end.

(* ================================================================== *)
(** * Dates: [datetime], [strptime] and [strftime] *)
(* ================================================================== *)

Definition is_leap (y : N) : bool :=
  (N.eqb (y mod 4) 0 && (negb (N.eqb (y mod 100) 0) || N.eqb (y mod 400) 0))%N.

Definition days_in_month (y m : N) : N :=
  (if N.eqb m 2 then (if is_leap y then 29 else 28)
   else if N.eqb m 4 || N.eqb m 6 || N.eqb m 9 || N.eqb m 11 then 30
   else 31)%N.

(** The checks of the [datetime] constructor on year, month and day. *)
Definition valid_ymd (y m d : N) : bool :=
  (N.leb 1 y && N.leb y 9999 && N.leb 1 m && N.leb m 12
   && N.leb 1 d && N.leb d (days_in_month y m))%N.

(** The calendar part of a [datetime]; the object exists only for a valid
    date. *)
Record date : Type := MkDate {
  year : N;
  month : N;
  day : N;
  date_ok : valid_ymd year month day = true
}.

(** [datetime(y, m, d)]; [None] stands for the [ValueError] of a date that
    does not exist. *)
Definition mk_date (y m d : N) : option date :=
  match valid_ymd y m d as b return (valid_ymd y m d = b -> option date) with
  | true => fun H => Some (MkDate y m d H)
  | false => fun _ => None
  end eq_refl.

(** [d.strftime("%Y-%m-%d")] as CPython 3.11 computes it on Linux, through
    the C library: the month and the day in two digits, the year in its
    decimal digits without leading zeros (999, not 0999). *)
Definition strftime_ymd (d : date) : str :=
  str_of_nat (N.to_nat (year d)) ++ py "-" ++ zero_pad 2 (month d) ++ py "-"
  ++ zero_pad 2 (day d).

(** [locale_time.f_month] and [locale_time.a_month] in the C locale. *)
Definition f_month : list str :=
  [ []; py "january"; py "february"; py "march"; py "april"; py "may";
    py "june"; py "july"; py "august"; py "september"; py "october";
    py "november"; py "december" ].

Definition a_month : list str :=
  [ []; py "jan"; py "feb"; py "mar"; py "apr"; py "may"; py "jun";
    py "jul"; py "aug"; py "sep"; py "oct"; py "nov"; py "dec" ].

(** [sorted(l, key=len, reverse=True)]: a stable sort, longest first. *)
Fixpoint insert_by_length (x : str) (l : list str) : list str :=
  match l with
  | [] => [x]
  | y :: l' =>
      if List.length y <? List.length x then x :: l
      else y :: insert_by_length x l'
  end.

Definition sort_longest_first (l : list str) : list str :=
  fold_right insert_by_length [] l.

Fixpoint rx_lit_i (s : str) : regex :=
  match s with
  | [] => REmpty
  | c :: t => RSeq (RCharI c) (rx_lit_i t)
  end.

Fixpoint rx_alts (l : list regex) : regex :=
  match l with
  | [] => REmpty
  | [r] => r
  | r :: l' => RAlt r (rx_alts l')
  end.

(** [TimeRE.__seqToRE]: the names as alternatives, longest first. *)
Definition names_alts (names : list str) : regex :=
  rx_alts (map rx_lit_i (sort_longest_first names)).

Definition seqToRE (names : list str) (directive : char) : regex :=
  RGroup directive (names_alts names).

Definition rx_range (lo hi : char) : regex := RSet (in_range lo hi).
Definition rx_d : regex := RSet is_digit.

(** The regular expressions of the numeric directives, from the table of
    [TimeRE]: [%d] is [3[0-1]|[1-2]\d|0[1-9]|[1-9]| [1-9]], [%m] is
    [1[0-2]|0[1-9]|[1-9]] and [%Y] is [\d\d\d\d]. *)
Definition day_alts : regex :=
  rx_alts
    [ RSeq (RChar (chr "3")) (rx_range (chr "0") (chr "1"));
      RSeq (rx_range (chr "1") (chr "2")) rx_d;
      RSeq (RChar (chr "0")) (rx_range (chr "1") (chr "9"));
      rx_range (chr "1") (chr "9");
      RSeq (RChar (chr " ")) (rx_range (chr "1") (chr "9")) ].

Definition month_alts : regex :=
  rx_alts
    [ RSeq (RChar (chr "1")) (rx_range (chr "0") (chr "2"));
      RSeq (RChar (chr "0")) (rx_range (chr "1") (chr "9"));
      rx_range (chr "1") (chr "9") ].

Definition year_digits : regex := RSeq rx_d (RSeq rx_d (RSeq rx_d rx_d)).

(** The regular expression of a directive; the program uses five. *)
Definition directive_re (c : char) : option regex :=
  if char_eqb c (chr "d") then Some (RGroup c day_alts)
  else if char_eqb c (chr "m") then Some (RGroup c month_alts)
  else if char_eqb c (chr "Y") then Some (RGroup c year_digits)
  else if char_eqb c (chr "B") then Some (seqToRE (tl f_month) c)
  else if char_eqb c (chr "b") then Some (seqToRE (tl a_month) c)
  else None.

(** [TimeRE.pattern]: a run of whitespace of the format becomes [\s+], a
    directive its regular expression, any other character itself.
    [in_ws] tells that the previous character was whitespace.  [None] stands
    for the [ValueError] of a bad directive. *)
Fixpoint pattern (in_ws : bool) (fmt : str) : option regex :=
  match fmt with
  | [] => Some REmpty
  | c :: t =>
      if is_space c then
        if in_ws then pattern true t
        else option_map (RSeq (RSeq (RSet is_space) (RStar is_space)))
               (pattern true t)
      else if char_eqb c (chr "%") then
        match t with
        | d :: t' =>
            match directive_re d, pattern false t' with
            | Some r, Some r' => Some (RSeq r r')
            | _, _ => None
            end
        | [] => None
        end
      else option_map (RSeq (RCharI c)) (pattern false t)
  end.

Definition group (name : char) (gs : list (char * str)) : option str :=
  option_map snd (find (fun g => char_eqb (fst g) name) gs).

Definition all_digits (s : str) : option N :=
  fold_left
    (fun acc c =>
       match acc, decimal_value c with
       | Some a, Some v => Some (10 * a + v)%N
       | _, _ => None
       end) s (Some 0%N).

(** [int(s)] for the text of a numeric group: digits, possibly after a
    space. *)
Definition py_int (s : str) : option N :=
  match strip s with
  | [] => None
  | s' => all_digits s'
  end.

Fixpoint index_of (x : str) (l : list str) (i : N) : option N :=
  match l with
  | [] => None
  | y :: l' => if str_eqb y x then Some i else index_of x l' (i + 1)%N
  end.

(** The month of a match: [int(found['m'])], or the index of the lowered
    name in the month table, or 1 when the format has no month. *)
Definition found_month (gs : list (char * str)) : option N :=
  match group (chr "m") gs, group (chr "B") gs, group (chr "b") gs with
  | Some s, _, _ => py_int s
  | None, Some s, _ => index_of (lower s) f_month 0
  | None, None, Some s => index_of (lower s) a_month 0
  | None, None, None => Some 1%N
  end.

Definition found_num (name : char) (default : N) (gs : list (char * str))
    : option N :=
  match group name gs with
  | Some s => py_int s
  | None => Some default
  end.

(** [datetime.strptime(data_string, fmt)] reduced to its date; [None] stands
    for every [ValueError]: no match, unconverted data, a month name that is
    not in the table, a date that does not exist. *)
Definition strptime (data_string fmt : str) : option date :=
  match pattern false fmt with
  | None => None
  | Some r =>
      match re_match r data_string with
      | None => None
      | Some found =>
          match m_rest found with
          | _ :: _ => None
          | [] =>
              let gs := m_groups found in
              match found_num (chr "Y") 1900 gs, found_month gs,
                    found_num (chr "d") 1 gs with
              | Some y, Some m, Some d => mk_date y m d
              | _, _, _ => None
              end
          end
      end
  end.

(* ================================================================== *)
(** * The world outside the process *)
(* ================================================================== *)

Definition nl : str := [10%N].

(** [s] between double quotes. *)
Definition quoted (s : string) : str := dquote :: py s ++ [dquote].
Arguments quoted s%_string.

(** A Python exception other than [HTTPException]: the name of its class,
    whether it is an instance of [Exception] (a [KeyboardInterrupt] or a
    [SystemExit] is a [BaseException] only), of [ValueError] and of
    [requests.RequestException], and [str(e)]. *)
Record exception : Type := MkException {
  exc_type : str;
  is_Exception : bool;
  is_ValueError : bool;
  is_RequestException : bool;
  exc_str : str
}.

Definition ValueError (msg : str) : exception :=
  MkException (py "ValueError") true true false msg.

Definition AttributeError (msg : str) : exception :=
  MkException (py "AttributeError") true false false msg.

(** What an endpoint can raise: an [HTTPException] of its own, or any other
    exception. *)
Inductive raised : Type :=
| HTTPException (status_code : nat) (detail : str)
| PyExc (e : exception).

(** A row of the table [events], as [_process_syllabus_impl] builds it. *)
Record EventRow : Type := MkEventRow {
  row_user_id : option str;
  row_source_filename : str;
  row_source_url : str;
  row_course_name : str;
  event_date : str;
  event_title : value;
  event_description : option str
}.

(** The handle [create_client] returns. *)
Record Client : Type := MkClient {
  client_url : str;
  client_key : str
}.

(** The calls that leave the process, in the order they are made. *)
Inductive call : Type :=
| CallGet (url : str)                        (* requests.get *)
| CallGenerateContent (prompt : str)         (* gemini_model.generate_content *)
| CallCreateClient (url key : str)           (* create_client *)
| CallInsert (rows : list EventRow)          (* table("events").insert *)
| CallDelete (user_id course_name : str).    (* table("events").delete *)

(** The calls to the persistence store. *)
Definition is_persistence (c : call) : bool :=
  match c with
  | CallCreateClient _ _ | CallInsert _ | CallDelete _ _ => true
  | CallGet _ | CallGenerateContent _ => false
  end.

Definition is_model_call (c : call) : bool :=
  match c with
  | CallGenerateContent _ => true
  | _ => false
  end.

(** Everything the program obtains from outside: the answers of the
    services, the environment, the clock and the built-in [str()] of objects
    that are not strings. *)
Record World : Type := MkWorld {
  (* [requests.get(url, timeout=30)], [raise_for_status()], [.content] *)
  http_get : str -> exception + list N;
  (* [PdfReader(io.BytesIO(b)).pages], each with [extract_text()] *)
  pdf_pages : list N -> exception + list str;
  (* [gemini_model.generate_content(prompt).text] *)
  generate_content : str -> exception + option str;
  (* [datetime.now()] while the event of the given index is handled *)
  now : nat -> date;
  (* [str(v)] for [v] that is not a [str] *)
  str_of_object : value -> str;
  (* [os.getenv] of the two settings *)
  env_SUPABASE_URL : option str;
  env_SUPABASE_SERVICE_ROLE_KEY : option str;
  (* the exception [create_client] raises, if any *)
  create_client : str -> str -> option exception;
  (* the exception [execute()] raises on an insert, if any *)
  insert_execute : list EventRow -> option exception;
  (* the exception [execute()] raises on a delete, if any; every request
     makes a call of its own, whose outcome may differ from one request to
     the next: the first argument is the list of the calls made before it *)
  delete_execute : list call -> str -> str -> option exception
}.

(** The state of the process and of the store: the module variable
    [_supabase], the rows of the table [events], the calls made so far. *)
Record State : Type := MkState {
  _supabase : option Client;
  table : list EventRow;
  trace : list call
}.

(** Computations that read and write the state and may raise an [X]. *)
Definition Eff (X A : Type) : Type := State -> (X + A) * State.

Definition ret {X A : Type} (a : A) : Eff X A := fun s => (inr a, s).

Definition bind {X A B : Type} (m : Eff X A) (k : A -> Eff X B) : Eff X B :=
  fun s =>
    match m s with
    | (inl e, s') => (inl e, s')
    | (inr a, s') => k a s'
    end.

Definition raise {X A : Type} (e : X) : Eff X A := fun s => (inl e, s).

(** [try: body  except ... as e: handler e]; a handler re-raises what its
    clause does not catch. *)
Definition try_except {X Y A : Type} (body : Eff X A) (handler : X -> Eff Y A)
    : Eff Y A :=
  fun s =>
    match body s with
    | (inl e, s') => handler e s'
    | (inr a, s') => (inr a, s')
    end.

Definition record_call {X : Type} (c : call) : Eff X unit :=
  fun s => (inr tt, MkState (_supabase s) (table s) (trace s ++ [c])).

Definition read_state {X : Type} : Eff X State := fun s => (inr s, s).

Definition set_supabase {X : Type} (c : Client) : Eff X unit :=
  fun s => (inr tt, MkState (Some c) (table s) (trace s)).

Definition set_table {X : Type} (t : list EventRow) : Eff X unit :=
  fun s => (inr tt, MkState (_supabase s) t (trace s)).

(** The result of an oracle, raised or returned. *)
Definition of_result {A : Type} (r : exception + A) : Eff exception A :=
  match r with
  | inl e => raise e
  | inr a => ret a
  end.

Declare Scope eff_scope.
Delimit Scope eff_scope with eff.
Notation "x <- m ;; k" := (bind m (fun x => k))
  (at level 61, m at next level, right associativity) : eff_scope.
Notation "m ;;; k" := (bind m (fun _ => k))
  (at level 61, right associativity) : eff_scope.
Local Open Scope eff_scope.

(** [v or default] *)
Definition py_or (v : option value) (default : value) : value :=
  match v with
  | Some x => if truthy x then x else default
  | None => default
  end.

(** [s or default] for an optional string *)
Definition str_or (s : option str) (default : str) : str :=
  match s with
  | Some (c :: t) => c :: t
  | _ => default
  end.

(** [s or None] *)
Definition nonempty (s : str) : option str :=
  match s with
  | [] => None
  | _ => Some s
  end.

(** [str(v)] *)
Definition py_str (w : World) (v : value) : str :=
  match v with
  | VStr s => s
  | _ => str_of_object w v
  end.

Definition no_attribute (v : value) (attr : string) : exception :=
  AttributeError
    (py "'" ++ type_name v ++ py "' object has no attribute '" ++ py attr
     ++ py "'").
Arguments no_attribute v attr%_string.

(* ================================================================== *)
(** * The helpers of [backend/main.py] *)
(* ================================================================== *)

(** [SUPABASE_URL] and [SUPABASE_SERVICE_KEY], lines 29-30. *)
Definition SUPABASE_URL (w : World) : str :=
  strip (str_or (env_SUPABASE_URL w) []).

Definition SUPABASE_SERVICE_KEY (w : World) : str :=
  strip (str_or (env_SUPABASE_SERVICE_ROLE_KEY w) []).

Definition msg_missing_config : str :=
  py "Missing SUPABASE_URL or SUPABASE_SERVICE_ROLE_KEY in .env. "
  ++ py "Copy .env.example to .env and fill in your Supabase project values.".

(** [get_supabase], lines 35-44: the client is created on first use. *)
Definition get_supabase (w : World) : Eff exception Client :=
  s <- read_state ;;
  match _supabase s with
  | Some c => ret c
  | None =>
      match SUPABASE_URL w, SUPABASE_SERVICE_KEY w with
      | _ :: _, _ :: _ =>
          record_call (CallCreateClient (SUPABASE_URL w)
                         (SUPABASE_SERVICE_KEY w)) ;;;
          match create_client w (SUPABASE_URL w) (SUPABASE_SERVICE_KEY w) with
          | Some e => raise e
          | None =>
              let c := MkClient (SUPABASE_URL w) (SUPABASE_SERVICE_KEY w) in
              set_supabase c ;;; ret c
          end
      | _, _ => raise (ValueError msg_missing_config)
      end
  end.

(** [extract_text_from_pdf_bytes], lines 80-86. *)
Definition extract_text_from_pdf_bytes (w : World) (pdf_bytes : list N)
    : Eff exception str :=
  pages <- of_result (pdf_pages w pdf_bytes) ;;
  ret (strip (fold_left (fun text page => text ++ page ++ nl) pages [])).

(** The instruction template, lines 91-103; one line of the source per line
    here. *)
Definition prompt_head : str :=
  nl
  ++ py "From the syllabus below, extract:" ++ nl
  ++ py "1) The course name or code (e.g. " ++ quoted "CPE 380" ++ py ", " ++ quoted "BIO 101" ++ py ", " ++ quoted "CS 161" ++ py "). Put it in a field called " ++ quoted "course" ++ py "." ++ nl
  ++ py "2) All assignments, exams, and important dates as a list called " ++ quoted "events" ++ py "." ++ nl
  ++ nl
  ++ py "Return ONLY a single JSON object with this shape:" ++ nl
  ++ py "{ " ++ quoted "course" ++ py ": " ++ quoted "Course Name or Code" ++ py ", " ++ quoted "events" ++ py ": [ { " ++ quoted "title" ++ py ": " ++ quoted "..." ++ py ", " ++ quoted "date" ++ py ": " ++ quoted "YYYY-MM-DD" ++ py ", " ++ quoted "type" ++ py ": " ++ quoted "Assignment|Exam|Quiz|Project|..." ++ py " } ] }" ++ nl
  ++ nl
  ++ py "Use the date format YYYY-MM-DD for each event when possible." ++ nl
  ++ nl
  ++ py "Syllabus Text:" ++ nl.

Definition prompt_of (syllabus_text : str) : str :=
  prompt_head ++ syllabus_text ++ nl.

(** Line 105, [raw = (response.text or '').strip()], then lines 107-109. *)
Definition raw_of_reply (text : option str) : str :=
  strip_fences (strip (str_or text [])).

(** Line 113: the [ValueError] for a reply that is not JSON. *)
Definition invalid_json (e : JSONDecodeError) (raw : str) : exception :=
  ValueError
    (py "Gemini did not return valid JSON: " ++ JSONDecodeError_str e ++ nl
     ++ py "Raw: " ++ firstn 500 raw).

(** Lines 116-126: the course and the events of the decoded reply. *)
Definition course_and_events (data : value)
    : exception + (option str * list value) :=
  match data with
  | VList l => inr (None, l)
  | VDict d =>
      match py_or (dict_get d (py "course")) (VStr []) with
      | VStr c =>
          let course := nonempty (strip c) in
          let events :=
            match dict_get d (py "events") with
            | None | Some VNone => []
            | Some (VList l) => l
            | Some (VDict e) => [VDict e]
            | Some _ => []
            end in
          inr (course, events)
      | v => inl (no_attribute v "strip")
      end
  | _ => inr (None, [])
  end.

(** Lines 105-126 of [extract_course_and_events_with_gemini]: what the
    function makes of the text of the reply. *)
Definition parse_reply (text : option str)
    : exception + (option str * list value) :=
  let raw := raw_of_reply text in
  match json_loads raw with
  | inl e => inl (invalid_json e raw)
  | inr data => course_and_events data
  end.

(** [extract_course_and_events_with_gemini], lines 89-126. *)
Definition extract_course_and_events_with_gemini (w : World)
    (syllabus_text : str) : Eff exception (option str * list value) :=
  let prompt := prompt_of syllabus_text in
  record_call (CallGenerateContent prompt) ;;;
  text <- of_result (generate_content w prompt) ;;
  of_result (parse_reply text).

(** The formats of line 137, in order. *)
Definition date_formats : list str :=
  [ py "%Y-%m-%d"; py "%m/%d/%Y"; py "%B %d, %Y"; py "%b %d, %Y";
    py "%d %B %Y" ].

(** The loop of lines 137-141: the first format that parses. *)
Fixpoint first_parse (s : str) (fmts : list str) : option date :=
  match fmts with
  | [] => None
  | fmt :: fmts' =>
      match strptime s fmt with
      | Some d => Some d
      | None => first_parse s fmts'
      end
  end.

(** [parse_event_date], lines 129-142. [today] is what [datetime.now()]
    returns during the call. *)
Definition parse_event_date (w : World) (today : date) (date_str : value)
    : str :=
  if negb (truthy date_str) then strftime_ymd today
  else
    let s := strip (py_str w date_str) in
    match re_match canonical_date_re s with
    | Some _ => s
    | None =>
        match first_parse s date_formats with
        | Some d => strftime_ymd d
        | None => strftime_ymd today
        end
    end.

(* ================================================================== *)
(** * The endpoints *)
(* ================================================================== *)

(** [ProcessSyllabusRequest], lines 63-69. *)
Record ProcessSyllabusRequest : Type := MkProcessSyllabusRequest {
  file_url : str;
  user_id : option str;
  source_filename : option str;
  course_name : option str
}.

(** [DeleteClassRequest], lines 72-76. *)
Record DeleteClassRequest : Type := MkDeleteClassRequest {
  del_user_id : str;
  del_course_name : str
}.

(** The object [_process_syllabus_impl] returns, line 241. *)
Record ProcessResponse : Type := MkProcessResponse {
  resp_events : list EventRow;
  resp_count : nat;
  resp_course_name : str
}.

(** [health], lines 146-149. *)
Definition health : list (str * str) :=
  [ (py "status", py "ok");
    (py "message", py "Syllabus Scanner API is running") ].

(** The body of the loop of lines 218-230 for the event of index [i]. *)
Definition row_of_event (w : World) (user : option str)
    (filename url course : str) (i : nat) (ev : value)
    : exception + EventRow :=
  match ev with
  | VDict d =>
      let title := py_or (dict_get d (py "title")) (VStr (py "Untitled")) in
      let date_str := py_or (dict_get d (py "date")) (VStr []) in
      let event_type := py_or (dict_get d (py "type")) (VStr []) in
      inr (MkEventRow user filename url course
             (parse_event_date w (now w i) date_str)
             title
             (if truthy event_type
              then Some (py "Type: " ++ py_str w event_type)
              else None))
  | _ => inl (no_attribute ev "get")
  end.

(** Lines 217-230: one row per event, in order; the loop stops at the first
    event that is not a dict. *)
Fixpoint rows_of_events (w : World) (user : option str)
    (filename url course : str) (i : nat) (evs : list value)
    : exception + list EventRow :=
  match evs with
  | [] => inr []
  | ev :: evs' =>
      match row_of_event w user filename url course i ev with
      | inl e => inl e
      | inr row =>
          match rows_of_events w user filename url course (S i) evs' with
          | inl e => inl e
          | inr rows => inr (row :: rows)
          end
      end
  end.

(** [get_supabase().table("events").insert(rows).execute()] *)
Definition insert_events (w : World) (rows : list EventRow)
    : Eff exception unit :=
  _ <- get_supabase w ;;
  record_call (CallInsert rows) ;;;
  match insert_execute w rows with
  | Some e => raise e
  | None => s <- read_state ;; set_table (table s ++ rows)
  end.

Definition row_matches (user course : str) (r : EventRow) : bool :=
  match row_user_id r with
  | Some u => str_eqb u user && str_eqb (row_course_name r) course
  | None => false
  end.

(** [supa.table("events").delete().eq("user_id", u).eq("course_name", c)
    .execute()] *)
Definition delete_events (w : World) (user course : str)
    : Eff exception unit :=
  _ <- get_supabase w ;;
  s0 <- read_state ;;
  record_call (CallDelete user course) ;;;
  match delete_execute w (trace s0) user course with
  | Some e => raise e
  | None =>
      s <- read_state ;;
      set_table (filter (fun r => negb (row_matches user course r)) (table s))
  end.

(** [_process_syllabus_impl], lines 183-241. *)
Definition _process_syllabus_impl (w : World) (body : ProcessSyllabusRequest)
    : Eff raised ProcessResponse :=
  let file_url := strip (file_url body) in
  let user_id :=
    match user_id body with
    | Some (c :: t) => Some (strip (c :: t))
    | _ => None
    end in
  let source_filename :=
    strip (str_or (source_filename body) (py "syllabus.pdf")) in
  let course_override := nonempty (strip (str_or (course_name body) [])) in
  (* 1. Download PDF *)
  pdf_bytes <-
    try_except
      (record_call (CallGet file_url) ;;; of_result (http_get w file_url))
      (fun e =>
         if is_RequestException e
         then raise (HTTPException 400
                       (py "Could not download PDF: " ++ exc_str e))
         else raise (PyExc e)) ;;
  match pdf_bytes with
  | [] => raise (HTTPException 400 (py "PDF file is empty"))
  | _ :: _ =>
  (* 2. Extract text and get course + events from Gemini *)
  text <-
    try_except (extract_text_from_pdf_bytes w pdf_bytes)
      (fun e =>
         if is_Exception e
         then raise (HTTPException 400
                       (py "Could not read PDF: " ++ exc_str e))
         else raise (PyExc e)) ;;
  match text with
  | [] =>
      raise (HTTPException 400 (py "No text could be extracted from the PDF"))
  | _ :: _ =>
  ce <-
    try_except (extract_course_and_events_with_gemini w text)
      (fun e =>
         if is_ValueError e then raise (HTTPException 502 (exc_str e))
         else raise (PyExc e)) ;;
  let (course_from_ai, events_from_ai) := (ce : option str * list value) in
  let course_name :=
    str_or course_override (str_or course_from_ai (py "Unnamed course")) in
  (* 3. Map to DB rows and insert into Supabase *)
  match rows_of_events w user_id source_filename file_url course_name 0
          events_from_ai with
  | inl e => raise (PyExc e)
  | inr rows =>
      match rows with
      | [] => ret tt
      | _ :: _ =>
          try_except (insert_events w rows)
            (fun e =>
               if is_Exception e
               then raise (HTTPException 500
                             (py "Could not save events to database: "
                              ++ exc_str e))
               else raise (PyExc e))
      end ;;;
      ret (MkProcessResponse rows (List.length rows) course_name)
  end
  end
  end.

(** [process_syllabus], lines 152-160: an [HTTPException] is raised again,
    any other [Exception] becomes a status 500, and what is no [Exception]
    passes through. *)
Definition process_syllabus (w : World) (body : ProcessSyllabusRequest)
    : Eff raised ProcessResponse :=
  try_except (_process_syllabus_impl w body)
    (fun e =>
       match e with
       | HTTPException _ _ => raise e
       | PyExc x =>
           if is_Exception x
           then raise (HTTPException 500
                         (py "Server error: " ++ exc_type x ++ py ": "
                          ++ exc_str x))
           else raise e
       end).

(** The object [delete_class] returns, line 180. *)
Definition status_ok : list (str * str) := [ (py "status", py "ok") ].

(** [delete_class], lines 163-180. *)
Definition delete_class (w : World) (body : DeleteClassRequest)
    : Eff raised (list (str * str)) :=
  try_except (delete_events w (del_user_id body) (del_course_name body))
    (fun e =>
       if is_Exception e
       then raise (HTTPException 500
                     (py "Could not delete class events: " ++ exc_str e))
       else raise (PyExc e)) ;;;
  ret status_ok.

(* ================================================================== *)
(** * Vocabulary of the specification *)
(* ================================================================== *)

(** A string of the form [\d{4}-\d{2}-\d{2}]. *)
Definition canonical (s : str) : bool :=
  match s with
  | [y1; y2; y3; y4; h1; m1; m2; h2; d1; d2] =>
      is_digit y1 && is_digit y2 && is_digit y3 && is_digit y4
      && char_eqb h1 (chr "-") && is_digit m1 && is_digit m2
      && char_eqb h2 (chr "-") && is_digit d1 && is_digit d2
  | _ => false
  end.

(** The reply [j] inside a fenced code block whose opening fence carries the
    language tag [tag] (empty for none). *)
Definition fenced (tag j : str) : str :=
  py "```" ++ tag ++ nl ++ j ++ nl ++ py "```".

(** The alternate date formats of the specification. *)
Inductive alt_format : Type :=
| UsSlash      (* 03/15/2025 *)
| LongMonth    (* March 15, 2025 *)
| AbbrMonth    (* Mar 15, 2025 *)
| DayFirst.    (* 15 March 2025 *)

(** The format string of [date_formats] that reads an alternate format. *)
Definition format_of (f : alt_format) : str :=
  match f with
  | UsSlash => py "%m/%d/%Y"
  | LongMonth => py "%B %d, %Y"
  | AbbrMonth => py "%b %d, %Y"
  | DayFirst => py "%d %B %Y"
  end.

Definition ascii_upper (c : char) : char :=
  if in_range 97 122 c then (c - 32)%N else c.

Definition capitalize (s : str) : str :=
  match s with
  | [] => []
  | c :: t => ascii_upper c :: t
  end.

(** March, Mar *)
Definition month_name (m : N) : str := capitalize (nth (N.to_nat m) f_month []).
Definition month_abbr (m : N) : str := capitalize (nth (N.to_nat m) a_month []).

(** A day or month number, with a leading zero when [two_digits] is set and
    the number is below ten. *)
Definition day_number (two_digits : bool) (n : N) : str :=
  if two_digits || N.leb 10 n then zero_pad 2 n else zero_pad 1 n.

(** The date [d] written in the alternate format [f]. *)
Definition render (f : alt_format) (two_digits : bool) (d : date) : str :=
  match f with
  | UsSlash =>
      day_number two_digits (month d) ++ py "/"
      ++ day_number two_digits (day d) ++ py "/" ++ zero_pad 4 (year d)
  | LongMonth =>
      month_name (month d) ++ py " " ++ day_number two_digits (day d)
      ++ py ", " ++ zero_pad 4 (year d)
  | AbbrMonth =>
      month_abbr (month d) ++ py " " ++ day_number two_digits (day d)
      ++ py ", " ++ zero_pad 4 (year d)
  | DayFirst =>
      day_number two_digits (day d) ++ py " " ++ month_name (month d)
      ++ py " " ++ zero_pad 4 (year d)
  end.

(** The text [parse_event_date] can read: canonical, or accepted by one of
    the formats. *)
Definition parseable (s : str) : bool :=
  canonical s
  || match first_parse s date_formats with Some _ => true | None => false end.

(** The value an event supplies as its date, [ev.get('date') or '']. *)
Definition date_field (d : list (str * value)) : value :=
  py_or (dict_get d (py "date")) (VStr []).

(** No parseable date is supplied: the field is missing or falsy, or its
    text is not one [parse_event_date] can read. *)
Definition no_date (w : World) (v : value) : bool :=
  negb (truthy v) || negb (parseable (strip (py_str w v))).

(** The text of the document, as step 2 of the request obtains it: the fetch
    returns a body that is not empty and the pages give a text that is not
    empty. *)
Definition document_text (w : World) (body : ProcessSyllabusRequest)
    : option str :=
  match http_get w (strip (file_url body)) with
  | inr (b :: bs) =>
      match pdf_pages w (b :: bs) with
      | inr pages =>
          nonempty (strip (fold_left (fun text page => text ++ page ++ nl)
                             pages []))
      | inl _ => None
      end
  | _ => None
  end.

(** The course name the caller supplies, trimmed; absent when empty. *)
Definition course_override (body : ProcessSyllabusRequest) : option str :=
  nonempty (strip (str_or (course_name body) [])).

(** The state after the calls [cs] have been added to the trace. *)
Definition with_calls (s : State) (cs : list call) : State :=
  MkState (_supabase s) (table s) (trace s ++ cs).

(** A client is at hand: already created, or the settings are present and
    [create_client] does not raise. *)
Definition client_available (w : World) (s : State) : bool :=
  match _supabase s with
  | Some _ => true
  | None =>
      match SUPABASE_URL w, SUPABASE_SERVICE_KEY w with
      | _ :: _, _ :: _ =>
          match create_client w (SUPABASE_URL w) (SUPABASE_SERVICE_KEY w) with
          | None => true
          | Some _ => false
          end
      | _, _ => false
      end
  end.

(** The calls made when [delete_class], started in the state [s], executes
    its delete: those made before the request, and the creation of the
    client when the request is the first to need one. *)
Definition calls_before_delete (w : World) (s : State) : list call :=
  trace (snd (get_supabase w s)).

(** The course field of a reply is one the program can trim: absent, falsy
    or a string. *)
Definition course_usable (d : list (str * value)) : bool :=
  match dict_get d (py "course") with
  | None => true
  | Some (VStr _) => true
  | Some v => negb (truthy v)
  end.

Definition is_list_or_dict (v : value) : bool :=
  match v with
  | VList _ | VDict _ => true
  | _ => false
  end.

(** ** Notions used in the proofs *)

Definition backtick : char := chr "`".

Definition iso_format : str := py "%Y-%m-%d".

(** [s] starts with a character that is not whitespace. *)
Definition nonspace_head (s : str) : Prop :=
  match s with
  | c :: _ => is_space c = false
  | [] => False
  end.

(** [s] is whitespace, a fence, whitespace: what the closing pattern
    matches. *)
Definition fence_tail (s : str) : bool :=
  match lstrip s with
  | a :: b :: c :: t =>
      char_eqb backtick a && char_eqb backtick b && char_eqb backtick c
      && forallb is_space t
  | _ => false
  end.

(** [s] up to the first place from which it is a closing fence. *)
Fixpoint cut_at_fence (s : str) : str :=
  match s with
  | [] => []
  | c :: t => if fence_tail s then [] else c :: cut_at_fence t
  end.

Definition count_nonspace (s : str) : nat :=
  List.length (filter (fun c => negb (is_space c)) s).

(** The characters a JSON document can start with. *)
Definition starts_value (c : char) : bool :=
  is_punct c || char_eqb c dquote || is_ascii_digit c
  || char_eqb (chr "n") c || char_eqb (chr "t") c || char_eqb (chr "f") c
  || char_eqb c (chr "-") || char_eqb (chr "N") c || char_eqb (chr "I") c.

(** ** Concrete inputs used by the examples *)

Definition today_example : date := MkDate 2026 11 3 eq_refl.
Definition march_15_2025 : date := MkDate 2025 3 15 eq_refl.

(** A world in which every service answers: the fetch returns one byte, the
    PDF has one page reading [syllabus], the model answers [reply], the
    settings are present and the store raises nothing. *)
Definition quiet_world (reply : option str) : World :=
  MkWorld (fun _ => inr [37%N]) (fun _ => inr [py "syllabus"])
    (fun _ => inr reply) (fun _ => today_example) (fun _ => py "<object>")
    (Some (py "https://example.supabase.co")) (Some (py "service-key"))
    (fun _ _ => None) (fun _ => None) (fun _ _ _ => None).

(** The same world, except that the fetch returns an empty body. *)
Definition empty_body_world : World :=
  MkWorld (fun _ => inr []) (fun _ => inr [py "syllabus"])
    (fun _ => inr None) (fun _ => today_example) (fun _ => py "<object>")
    (Some (py "https://example.supabase.co")) (Some (py "service-key"))
    (fun _ _ => None) (fun _ => None) (fun _ _ _ => None).

Definition initial_state : State := MkState None [] [].

Definition sample_url : str := py "https://example.org/cs161.pdf".

Definition sample_request : ProcessSyllabusRequest :=
  MkProcessSyllabusRequest sample_url (Some (py "user-1")) None None.

(** A request that names the course itself. *)
Definition override_request : ProcessSyllabusRequest :=
  MkProcessSyllabusRequest sample_url (Some (py "user-1")) None
    (Some (py "  BIO 101 ")).

(** [{"course":"CS 161","events":[{"title":"HW1","date":"2025-09-01",
    "type":"Assignment"}]}], the reply of scenario A. *)
Definition reply_scenario_a : str :=
  py "{" ++ quoted "course" ++ py ":" ++ quoted "CS 161" ++ py ","
  ++ quoted "events" ++ py ":[{" ++ quoted "title" ++ py ":" ++ quoted "HW1"
  ++ py "," ++ quoted "date" ++ py ":" ++ quoted "2025-09-01" ++ py ","
  ++ quoted "type" ++ py ":" ++ quoted "Assignment" ++ py "}]}".

(** [{"events":[{"title":"Midterm","date":"TBD"}]}] *)
Definition reply_undated : str :=
  py "{" ++ quoted "events" ++ py ":[{" ++ quoted "title" ++ py ":"
  ++ quoted "Midterm" ++ py "," ++ quoted "date" ++ py ":" ++ quoted "TBD"
  ++ py "}]}".

(** [{"events":[{"title":"Charter","date":"03/15/0999"}]}] *)
Definition reply_short_year : str :=
  py "{" ++ quoted "events" ++ py ":[{" ++ quoted "title" ++ py ":"
  ++ quoted "Charter" ++ py "," ++ quoted "date" ++ py ":"
  ++ quoted "03/15/0999" ++ py "}]}".

(** [{"course":"CS 161","events":{"title":"HW1"}}] *)
Definition reply_single_event : str :=
  py "{" ++ quoted "course" ++ py ":" ++ quoted "CS 161" ++ py ","
  ++ quoted "events" ++ py ":{" ++ quoted "title" ++ py ":" ++ quoted "HW1"
  ++ py "}}".

(** [{"course":161,"events":{"title":"HW1"}}] *)
Definition reply_numeric_course : str :=
  py "{" ++ quoted "course" ++ py ":161," ++ quoted "events" ++ py ":{"
  ++ quoted "title" ++ py ":" ++ quoted "HW1" ++ py "}}".

Definition reply_not_json : str := py "Sorry, I could not read the syllabus.".

Definition reply_scalar : str := py "42".

(** A row of another user's course, and a request to delete a course of
    which the table holds nothing. *)
Definition other_row : EventRow :=
  MkEventRow (Some (py "user-2")) (py "syllabus.pdf") sample_url
    (py "BIO 101") (py "2025-09-01") (VStr (py "Lab 1")) None.

Definition stocked_state : State := MkState None [other_row] [].

Definition sample_delete : DeleteClassRequest :=
  MkDeleteClassRequest (py "user-1") (py "CS 161").

(* ================================================================== *)
(** * The script [scanner.py] *)
(* ================================================================== *)

(** [extract_text_from_pdf] of [scanner.py], lines 14-19: the text of the
    pages of the file at [pdf_path], each followed by a newline.  [pages_at]
    stands for [PdfReader(pdf_path).pages] with [extract_text()]. *)
Definition extract_text_from_pdf (pages_at : str -> exception + list str)
    (pdf_path : str) : exception + str :=
  match pages_at pdf_path with
  | inl e => inl e
  | inr pages => inr (fold_left (fun text page => text ++ page ++ nl) pages [])
  end.

(* ================================================================== *)
(** * Vocabulary of the further properties *)
(* ================================================================== *)

(** A string of whitespace only (the empty string included). *)
Definition blank (s : str) : bool := forallb is_space s.

(** A text without whitespace at either end. *)
Definition trimmed (s : str) : Prop := strip s = s.

(** The date [d] in the ISO order, month and day with or without a leading
    zero. *)
Definition render_iso (two_m two_d : bool) (d : date) : str :=
  zero_pad 4 (year d) ++ py "-" ++ day_number two_m (month d) ++ py "-"
  ++ day_number two_d (day d).

(** The numbers [y], [m], [d], which need not form a date, written in the
    alternate format [f]. *)
Definition render_ymd (f : alt_format) (two_digits : bool) (y m d : N) : str :=
  match f with
  | UsSlash =>
      day_number two_digits m ++ py "/" ++ day_number two_digits d ++ py "/"
      ++ zero_pad 4 y
  | LongMonth =>
      month_name m ++ py " " ++ day_number two_digits d ++ py ", "
      ++ zero_pad 4 y
  | AbbrMonth =>
      month_abbr m ++ py " " ++ day_number two_digits d ++ py ", "
      ++ zero_pad 4 y
  | DayFirst =>
      day_number two_digits d ++ py " " ++ month_name m ++ py " "
      ++ zero_pad 4 y
  end.

(** The text of the pages, each followed by a newline. *)
Definition pages_text (pages : list str) : str :=
  List.concat (map (fun page => page ++ nl) pages).

Definition is_dict (v : value) : bool :=
  match v with
  | VDict _ => true
  | _ => false
  end.

(** What the request stores as the user: [body.user_id.strip() if
    body.user_id else None], line 185. *)
Definition stored_user (body : ProcessSyllabusRequest) : option str :=
  match user_id body with
  | Some (c :: t) => Some (strip (c :: t))
  | _ => None
  end.

(** The calls every request makes once the document has been read: the
    fetch and the call to the model. *)
Definition fetch_and_model (body : ProcessSyllabusRequest) (text : str)
    : list call :=
  [CallGet (strip (file_url body)); CallGenerateContent (prompt_of text)].

(** The sequences of calls a request to [process_syllabus] can make: the
    fetch, then the model, then the store (the client first, when there is
    none yet). *)
Definition calls_in_order (cs : list call) : bool :=
  match cs with
  | [CallGet _]
  | [CallGet _; CallGenerateContent _]
  | [CallGet _; CallGenerateContent _; CallCreateClient _ _]
  | [CallGet _; CallGenerateContent _; CallInsert _]
  | [CallGet _; CallGenerateContent _; CallCreateClient _ _; CallInsert _] =>
      true
  | _ => false
  end.

(** [HTTPException(500, f"Server error: {type(e).__name__}: {e}")], line
    160. *)
Definition server_error (e : exception) : raised :=
  HTTPException 500
    (py "Server error: " ++ exc_type e ++ py ": " ++ exc_str e).

(** What leaves [process_syllabus] when [e] reaches its last clause, lines
    159-160: the status 500 for an [Exception], [e] itself otherwise. *)
Definition reraised (e : exception) : raised :=
  if is_Exception e then server_error e else PyExc e.

(** The outcome [r] is an exception that is no [Exception] (a
    [KeyboardInterrupt], a [SystemExit]): no handler of the program catches
    it. *)
Definition passes_through {A : Type} (r : raised + A) : Prop :=
  exists x, r = inl (PyExc x) /\ is_Exception x = false.

(** ** Further inputs used by the examples *)

(** A world whose services give the same answer whatever they are asked. *)
Definition sample_world (fetched : exception + list N)
    (pages : exception + list str) (reply : exception + option str)
    (url key : option str) (created inserted deleted : option exception)
    : World :=
  MkWorld (fun _ => fetched) (fun _ => pages) (fun _ => reply)
    (fun _ => today_example) (fun _ => py "<object>") url key
    (fun _ _ => created) (fun _ => inserted) (fun _ _ _ => deleted).

Definition connection_error : exception :=
  MkException (py "ConnectionError") true false true (py "connection refused").

Definition runtime_error : exception :=
  MkException (py "RuntimeError") true false false (py "service unavailable").

Definition pdf_read_error : exception :=
  MkException (py "PdfReadError") true false false (py "EOF marker not found").

(** A [KeyboardInterrupt]: a [BaseException] that is no [Exception]. *)
Definition keyboard_interrupt : exception :=
  MkException (py "KeyboardInterrupt") false false false [].

(** A world in which [SUPABASE_URL] is set to two spaces. *)
Definition unconfigured_world : World :=
  sample_world (inr [37%N]) (inr [py "syllabus"]) (inr None)
    (Some (py "  ")) (Some (py "service-key")) None None None.


(** A world in which everything answers, except that the store raises on
    every insert. *)
Definition failing_store_world : World :=
  sample_world (inr [37%N]) (inr [py "syllabus"]) (inr (Some reply_scenario_a))
    (Some (py "https://example.supabase.co")) (Some (py "service-key"))
    None (Some runtime_error) None.

Definition is_delete (c : call) : bool :=
  match c with
  | CallDelete _ _ => true
  | _ => false
  end.

(** A world whose store executes the first delete it is asked for and raises
    on every later one. *)
Definition flaky_delete_world : World :=
  MkWorld (fun _ => inr [37%N]) (fun _ => inr [py "syllabus"])
    (fun _ => inr None) (fun _ => today_example) (fun _ => py "<object>")
    (Some (py "https://example.supabase.co")) (Some (py "service-key"))
    (fun _ _ => None) (fun _ => None)
    (fun before _ _ =>
       if existsb is_delete before then Some runtime_error else None).

(** A world in which the model cannot be reached. *)
Definition silent_model_world : World :=
  sample_world (inr [37%N]) (inr [py "syllabus"]) (inl runtime_error)
    None None None None None.

(** A world in which the fetch is interrupted from the keyboard. *)
Definition interrupted_world : World :=
  sample_world (inl keyboard_interrupt) (inr []) (inr None) None None
    None None None.

(** A request without a user. *)
Definition anonymous_request : ProcessSyllabusRequest :=
  MkProcessSyllabusRequest sample_url None None None.

(** [{"events":[{"title":"HW1"},"Quiz 2"]}] *)
Definition reply_bad_event : str :=
  py "{" ++ quoted "events" ++ py ":[{" ++ quoted "title" ++ py ":"
  ++ quoted "HW1" ++ py "}," ++ quoted "Quiz 2" ++ py "]}".

(** [{"course":" CS 161 ","events":[]}] *)
Definition reply_padded_course : str :=
  py "{" ++ quoted "course" ++ py ":" ++ quoted " CS 161 " ++ py ","
  ++ quoted "events" ++ py ":[]}".

(* ================================================================== *)
(** * Properties *)
(* ================================================================== *)

Ltac run_core :=
  cbv beta iota delta
    [process_syllabus _process_syllabus_impl
     extract_course_and_events_with_gemini
     extract_text_from_pdf_bytes try_except bind ret raise record_call
     of_result with_calls].

(** Case analysis on the classes of the exceptions in the goal. *)
Ltac flag_step f :=
  match goal with
  | H : f ?e = _ |- context [f ?e] => rewrite H
  | |- context [f ?e] => destruct (f e) eqn:?
  end.

Ltac split_flags :=
  repeat (simpl;
          first [ flag_step is_RequestException | flag_step is_ValueError
                | flag_step is_Exception ]);
  simpl.

Ltac run_eff :=
  cbv beta iota delta
    [process_syllabus _process_syllabus_impl delete_class delete_events
     insert_events get_supabase extract_course_and_events_with_gemini
     extract_text_from_pdf_bytes try_except bind ret raise record_call
     read_state set_supabase set_table of_result with_calls].

(* ------------------------------------------------------------------ *)
(** ** The models on examples *)
(* ------------------------------------------------------------------ *)

(** A fence with the tag [json], a fence without a tag, and a reply that
    only ends with a fence. *)
Example strip_fences_json :
  raw_of_reply (Some (py "```json" ++ nl ++ py "[1]" ++ nl ++ py "```"))
  = py "[1]".
Proof. vm_compute. reflexivity. Qed.

Example strip_fences_bare :
  raw_of_reply (Some (py "  ```" ++ nl ++ py "[1]" ++ nl ++ py "``` " ++ nl))
  = py "[1]".
Proof. vm_compute. reflexivity. Qed.

Example strip_fences_only_at_start :
  raw_of_reply (Some (py "[1]" ++ nl ++ py "```")) = py "[1]" ++ nl ++ py "```".
Proof. vm_compute. reflexivity. Qed.

(** The decoder keeps the last value of a repeated key, at the place of the
    first. *)
Example json_repeated_key :
  json_loads (py "{" ++ quoted "a" ++ py ":1," ++ quoted "b" ++ py ":[],"
              ++ quoted "a" ++ py ":null}")
  = inr (VDict [ (py "a", VNone); (py "b", VList []) ]).
Proof. vm_compute. reflexivity. Qed.

Example json_error_text :
  match json_loads (py "[1," ++ nl ++ py " x]") with
  | inl e => JSONDecodeError_str e = py "Expecting value: line 2 column 2 (char 5)"
  | inr _ => False
  end.
Proof. vm_compute. reflexivity. Qed.

Example strptime_leap_day :
  option_map strftime_ymd (strptime (py "Feb 29, 2024") (py "%b %d, %Y"))
  = Some (py "2024-02-29")
  /\ strptime (py "Feb 29, 2023") (py "%b %d, %Y") = None.
Proof. split; vm_compute; reflexivity. Qed.

Example parse_event_date_fallback :
  parse_event_date (quiet_world None) today_example (VStr (py "next week"))
  = py "2026-11-03".
Proof. vm_compute. reflexivity. Qed.

(* ------------------------------------------------------------------ *)
(** ** Characters, trimming and the canonical pattern *)
(* ------------------------------------------------------------------ *)

(** *** Characters *)

Lemma is_space_enum c :
  is_space c = true ->
  In c [9; 10; 11; 12; 13; 28; 29; 30; 31; 32; 133; 160; 5760; 8192; 8193;
        8194; 8195; 8196; 8197; 8198; 8199; 8200; 8201; 8202; 8232; 8233;
        8239; 8287; 12288]%N.
Proof.
  unfold is_space, in_range, char_eqb.
  rewrite !orb_true_iff, !andb_true_iff, !N.leb_le, !N.eqb_eq.
  intros H. simpl. lia.
Qed.

Lemma space_not_digit c : is_space c = true -> is_digit c = false.
Proof.
  intros H. apply is_space_enum in H. simpl in H.
  repeat (destruct H as [<- | H]; [vm_compute; reflexivity |]).
  contradiction.
Qed.

Lemma digit_not_space c : is_digit c = true -> is_space c = false.
Proof.
  intros H. destruct (is_space c) eqn:Hs; [| reflexivity].
  apply space_not_digit in Hs. congruence.
Qed.

(** *** strip *)

Lemma lstrip_nonspace c t : is_space c = false -> lstrip (c :: t) = c :: t.
Proof. intros H. simpl. rewrite H. reflexivity. Qed.

(** Leading whitespace and the rest. *)
Lemma lstrip_split s :
  exists w, s = w ++ lstrip s /\ forallb is_space w = true.
Proof.
  induction s as [| c t [w [Hw Hs]]]; simpl.
  - exists []. auto.
  - destruct (is_space c) eqn:Hc.
    + exists (c :: w). simpl. rewrite Hc, Hs. split; [f_equal; exact Hw | reflexivity].
    + exists []. auto.
Qed.

Lemma lstrip_head s c t : lstrip s = c :: t -> is_space c = false.
Proof.
  induction s as [| x l IH]; simpl; [discriminate |].
  destruct (is_space x) eqn:Hx; [exact IH |].
  intros H; injection H as <- _. exact Hx.
Qed.

(** Trailing whitespace and what precedes it. *)
Lemma rstrip_split s :
  exists w, s = rstrip s ++ w /\ forallb is_space w = true.
Proof.
  unfold rstrip. destruct (lstrip_split (rev s)) as [w [Hw Hs]].
  exists (rev w). split.
  - rewrite <- rev_app_distr, <- Hw, rev_involutive. reflexivity.
  - rewrite forallb_forall in *. intros x Hx. apply Hs, in_rev. exact Hx.
Qed.

Lemma rstrip_last s l c : rstrip s = l ++ [c] -> is_space c = false.
Proof.
  unfold rstrip. intros H.
  apply (f_equal (@rev char)) in H. rewrite rev_involutive, rev_app_distr in H.
  simpl in H. eapply lstrip_head. exact H.
Qed.

Lemma rstrip_fixed l c : is_space c = false -> rstrip (l ++ [c]) = l ++ [c].
Proof.
  intros H. unfold rstrip. rewrite rev_app_distr. simpl. rewrite H.
  simpl. rewrite rev_involutive. reflexivity.
Qed.

Lemma strip_fixed c l c' :
  is_space c = false -> is_space c' = false ->
  strip (c :: l ++ [c']) = c :: l ++ [c'].
Proof.
  intros H H'. unfold strip. rewrite (lstrip_nonspace _ _ H).
  apply (rstrip_fixed (c :: l) _ H').
Qed.

(** The last character of a stripped string is not whitespace. *)
Lemma strip_last s l c : strip s = l ++ [c] -> is_space c = false.
Proof. apply rstrip_last. Qed.

(** *** The canonical pattern *)

Lemma canonical_shape s :
  canonical s = true ->
  exists y1 y2 y3 y4 m1 m2 d1 d2,
    s = [y1; y2; y3; y4; chr "-"; m1; m2; chr "-"; d1; d2]
    /\ is_digit y1 = true /\ is_digit y2 = true /\ is_digit y3 = true
    /\ is_digit y4 = true /\ is_digit m1 = true /\ is_digit m2 = true
    /\ is_digit d1 = true /\ is_digit d2 = true.
Proof.
  unfold canonical.
  do 10 (destruct s as [| ? s]; [discriminate |]).
  destruct s; [| discriminate].
  rewrite !andb_true_iff. unfold char_eqb. rewrite !N.eqb_eq.
  intros H. decompose [and] H. subst.
  do 8 eexists. 
  repeat split; eauto.
Qed.

Lemma canonical_strip s : canonical s = true -> strip s = s.
Proof.
  intros H. apply canonical_shape in H
    as (y1 & y2 & y3 & y4 & m1 & m2 & d1 & d2 & -> & H1 & _ & _ & _ & _ & _ & _ & H8).
  apply (strip_fixed y1 [y2; y3; y4; chr "-"; m1; m2; chr "-"; d1] d2);
    apply digit_not_space; assumption.
Qed.

(** *** Stepping a pattern through a subject *)

Lemma rx_seq_one p r pos s gs :
  rx (RSeq (RSet p) r) (MState pos s gs)
  = match s with
    | c :: t => if p c then rx r (MState (S pos) t gs) else []
    | [] => []
    end.
Proof.
  simpl. unfold rx_one. simpl. destruct s as [| c t]; [reflexivity |].
  destruct (p c); simpl; [apply app_nil_r | reflexivity].
Qed.

Lemma rx_seq_char a r pos s gs :
  rx (RSeq (RChar a) r) (MState pos s gs)
  = match s with
    | c :: t => if char_eqb a c then rx r (MState (S pos) t gs) else []
    | [] => []
    end.
Proof.
  simpl. unfold rx_one. simpl. destruct s as [| c t]; [reflexivity |].
  destruct (char_eqb a c); simpl; [apply app_nil_r | reflexivity].
Qed.

Lemma rx_seq_chari a r pos s gs :
  rx (RSeq (RCharI a) r) (MState pos s gs)
  = match s with
    | c :: t => if ci_eqb a c then rx r (MState (S pos) t gs) else []
    | [] => []
    end.
Proof.
  simpl. unfold rx_one. simpl. destruct s as [| c t]; [reflexivity |].
  destruct (ci_eqb a c); simpl; [apply app_nil_r | reflexivity].
Qed.

Lemma rx_seq_bol r pos s gs :
  rx (RSeq RBol r) (MState pos s gs)
  = if Nat.eqb pos 0 then rx r (MState pos s gs) else [].
Proof.
  simpl. destruct (Nat.eqb pos 0); simpl; [apply app_nil_r | reflexivity].
Qed.

Lemma rx_eol pos s gs :
  rx REol (MState pos s gs)
  = match s with
    | [] => [MState pos s gs]
    | [c] => if char_eqb c 10 then [MState pos s gs] else []
    | _ => []
    end.
Proof. reflexivity. Qed.

Lemma char_eqb_eq a b : char_eqb a b = true <-> a = b.
Proof. apply N.eqb_eq. Qed.

Lemma char_eqb_refl a : char_eqb a a = true.
Proof. apply N.eqb_refl. Qed.

Lemma char_eqb_sym a b : char_eqb a b = char_eqb b a.
Proof. apply N.eqb_sym. Qed.

Lemma rx_one_cons p r pos c t gs :
  rx (RSeq (RSet p) r) (MState pos (c :: t) gs)
  = if p c then rx r (MState (S pos) t gs) else [].
Proof. rewrite rx_seq_one. reflexivity. Qed.

Lemma rx_char_cons a r pos c t gs :
  rx (RSeq (RChar a) r) (MState pos (c :: t) gs)
  = if char_eqb a c then rx r (MState (S pos) t gs) else [].
Proof. rewrite rx_seq_char. reflexivity. Qed.

Lemma rx_chari_cons a r pos c t gs :
  rx (RSeq (RCharI a) r) (MState pos (c :: t) gs)
  = if ci_eqb a c then rx r (MState (S pos) t gs) else [].
Proof. rewrite rx_seq_chari. reflexivity. Qed.

Lemma rx_one_nil p r pos gs : rx (RSeq (RSet p) r) (MState pos [] gs) = [].
Proof. rewrite rx_seq_one. reflexivity. Qed.

Lemma rx_char_nil a r pos gs : rx (RSeq (RChar a) r) (MState pos [] gs) = [].
Proof. rewrite rx_seq_char. reflexivity. Qed.

Lemma canonical_matches s :
  canonical s = true -> exists st, re_match canonical_date_re s = Some st.
Proof.
  intros H. apply canonical_shape in H
    as (y1 & y2 & y3 & y4 & m1 & m2 & d1 & d2 & -> & H1 & H2 & H3 & H4 & H5 & H6 & H7 & H8).
  unfold re_match, canonical_date_re. cbv zeta.
  rewrite rx_seq_bol. simpl Nat.eqb. cbv iota.
  rewrite rx_one_cons, H1, rx_one_cons, H2, rx_one_cons, H3,
    rx_one_cons, H4, rx_char_cons, char_eqb_refl, rx_one_cons, H5,
    rx_one_cons, H6, rx_char_cons, char_eqb_refl, rx_one_cons, H7,
    rx_one_cons, H8, rx_eol.
  eauto.
Qed.

Ltac need_char s c :=
  destruct s as [| c s];
  [ first [ rewrite rx_one_nil | rewrite rx_char_nil ]; discriminate
  | first [ rewrite rx_one_cons | rewrite rx_char_cons ] ].

Lemma matches_canonical s st :
  re_match canonical_date_re s = Some st ->
  canonical s = true \/ exists s', s = s' ++ [10%N].
Proof.
  unfold re_match, canonical_date_re, canonical. cbv zeta.
  rewrite rx_seq_bol. simpl Nat.eqb. cbv iota.
  need_char s y1. destruct (is_digit y1); [| discriminate].
  need_char s y2. destruct (is_digit y2); [| discriminate].
  need_char s y3. destruct (is_digit y3); [| discriminate].
  need_char s y4. destruct (is_digit y4); [| discriminate].
  need_char s h1. rewrite (char_eqb_sym _ h1).
  destruct (char_eqb h1 (chr "-")); [| discriminate].
  need_char s m1. destruct (is_digit m1); [| discriminate].
  need_char s m2. destruct (is_digit m2); [| discriminate].
  need_char s h2. rewrite (char_eqb_sym _ h2).
  destruct (char_eqb h2 (chr "-")); [| discriminate].
  need_char s d1. destruct (is_digit d1); [| discriminate].
  need_char s d2. destruct (is_digit d2); [| discriminate].
  rewrite rx_eol.
  destruct s as [| x s]; [intros _; left; reflexivity |].
  destruct s; [| discriminate].
  destruct (char_eqb x 10) eqn:Ex; [| discriminate].
  apply char_eqb_eq in Ex. subst x. intros _. right.
  exists [y1; y2; y3; y4; h1; m1; m2; h2; d1; d2]. reflexivity.
Qed.

Lemma is_digit_ascii k : (k < 10)%N -> is_digit (48 + k)%N = true.
Proof.
  intros H.
  assert (E : In k [0; 1; 2; 3; 4; 5; 6; 7; 8; 9]%N) by (simpl; lia).
  simpl in E.
  repeat (destruct E as [<- | E]; [reflexivity |]). contradiction.
Qed.

Lemma is_digit_mod n : is_digit (48 + n mod 10)%N = true.
Proof. apply is_digit_ascii. apply N.mod_lt. discriminate. Qed.

(** Facts about the characters of a printed number. *)
Create HintDb chars.
#[local] Hint Resolve digit_not_space is_digit_mod : chars.

Lemma zero_pad_2 n : zero_pad 2 n = [(48 + (n / 10) mod 10)%N; (48 + n mod 10)%N].
Proof. reflexivity. Qed.

Lemma zero_pad_4 n :
  zero_pad 4 n
  = [(48 + (n / 10 / 10 / 10) mod 10)%N; (48 + (n / 10 / 10) mod 10)%N;
     (48 + (n / 10) mod 10)%N; (48 + n mod 10)%N].
Proof. reflexivity. Qed.

Lemma str_eqb_eq a : forall b, str_eqb a b = true -> a = b.
Proof.
  induction a as [| x a IH]; intros [| y b]; simpl; try discriminate.
  - reflexivity.
  - rewrite andb_true_iff. intros [Hx Hab].
    apply char_eqb_eq in Hx. subst y. f_equal. exact (IH _ Hab).
Qed.

(** From the year 1000 on, the digits of the year are four: checked on each
    of the 9000 years. *)
Lemma year_text_check :
  forallb (fun n => str_eqb (str_of_nat n) (zero_pad 4 (N.of_nat n)))
    (seq (N.to_nat 1000) (N.to_nat 9000)) = true.
Proof. vm_compute. reflexivity. Qed.

Lemma year_text y :
  (1000 <= y <= 9999)%N -> str_of_nat (N.to_nat y) = zero_pad 4 y.
Proof.
  intros H. pose proof year_text_check as C. rewrite forallb_forall in C.
  rewrite <- (N2Nat.id y) at 2. apply str_eqb_eq, C, in_seq. lia.
Qed.

Lemma year_le_9999 d : (year d <= 9999)%N.
Proof.
  pose proof (date_ok d) as H. unfold valid_ymd in H.
  rewrite !andb_true_iff, !N.leb_le in H. tauto.
Qed.

(** The result of [strftime] for a year of four digits. *)
Lemma strftime_padded d :
  (1000 <= year d)%N ->
  strftime_ymd d
  = zero_pad 4 (year d) ++ py "-" ++ zero_pad 2 (month d) ++ py "-"
    ++ zero_pad 2 (day d).
Proof.
  intros H. unfold strftime_ymd. rewrite year_text; [reflexivity |].
  split; [exact H | apply year_le_9999].
Qed.

Lemma strftime_canonical d :
  (1000 <= year d)%N -> canonical (strftime_ymd d) = true.
Proof.
  intros H. rewrite (strftime_padded _ H), zero_pad_4, !zero_pad_2.
  change (py "-") with [chr "-"]. cbn [app]. unfold canonical.
  rewrite !is_digit_mod. reflexivity.
Qed.

Lemma stripped_match_canonical x st :
  re_match canonical_date_re (strip x) = Some st -> canonical (strip x) = true.
Proof.
  intros H. apply matches_canonical in H as [H | [s' H]]; [exact H |].
  apply strip_last in H. discriminate.
Qed.

(** Property X28. The result of [parse_event_date] has the canonical form
    as soon as the years printed have four digits: that of the clock, and
    that of the date the formats read, if they read one. *)
Theorem dates_from_year_1000_are_canonical w today v :
  (1000 <= year today)%N ->
  (forall d,
     first_parse (strip (py_str w v)) date_formats = Some d ->
     (1000 <= year d)%N) ->
  canonical (parse_event_date w today v) = true.
Proof.
  intros Ht Hd. unfold parse_event_date.
  destruct (truthy v); cbn [negb]; cbv iota;
    [| apply strftime_canonical, Ht].
  destruct (re_match _ _) eqn:Hm.
  - eapply stripped_match_canonical. exact Hm.
  - destruct (first_parse _ _) as [d |];
      [apply strftime_canonical, Hd; reflexivity
      | apply strftime_canonical, Ht].
Qed.

Lemma dates_from_year_1000_are_canonical_witness :
  (1000 <= year today_example)%N
  /\ first_parse (strip (py "next week")) date_formats = None
  /\ canonical
       (parse_event_date (quiet_world None) today_example
          (VStr (py "next week"))) = true.
Proof.
  assert (Ht : (1000 <= year today_example)%N) by (simpl; lia).
  assert (Hn : first_parse (strip (py "next week")) date_formats = None)
    by (vm_compute; reflexivity).
  split; [exact Ht |]. split; [exact Hn |].
  apply (dates_from_year_1000_are_canonical (quiet_world None) today_example
           (VStr (py "next week")) Ht).
  intros d Hd. cbn [py_str] in Hd. rewrite Hn in Hd. discriminate.
Defined.

Lemma canonical_truthy s : canonical s = true -> truthy (VStr s) = true.
Proof. destruct s; [discriminate | reflexivity]. Qed.

(** Claim C5. A string that already has the canonical form
    [\d{4}-\d{2}-\d{2}] is returned by [parse_event_date] as it is; the
    function is the identity on canonical strings, hence idempotent on
    them. *)
Theorem canonical_date_is_unchanged w today s :
  canonical s = true -> parse_event_date w today (VStr s) = s.
Proof.
  intros H. unfold parse_event_date.
  rewrite (canonical_truthy _ H). cbn [negb py_str]. cbv iota.
  rewrite (canonical_strip _ H).
  destruct (canonical_matches _ H) as [st ->]. reflexivity.
Qed.

Lemma canonical_date_is_unchanged_witness :
  canonical (py "2025-03-15") = true
  /\ parse_event_date (quiet_world None) today_example (VStr (py "2025-03-15"))
     = py "2025-03-15".
Proof.
  split; [reflexivity |].
  apply (canonical_date_is_unchanged (quiet_world None) today_example
           (py "2025-03-15")).
  reflexivity.
Defined.

Lemma no_date_today w today v :
  no_date w v = true -> parse_event_date w today v = strftime_ymd today.
Proof.
  unfold no_date, parse_event_date, parseable.
  destruct (truthy v); cbn [negb orb]; cbv iota; [| reflexivity].
  rewrite negb_true_iff, orb_false_iff. intros [Hc Hf].
  destruct (re_match _ _) eqn:Hm.
  - apply stripped_match_canonical in Hm. congruence.
  - destruct (first_parse _ _); [discriminate | reflexivity].
Qed.

(* ------------------------------------------------------------------ *)
(** ** The alternate date formats *)
(* ------------------------------------------------------------------ *)

(** *** The first match of a sequence *)

Lemma re_match_hd r s : re_match r s = hd_error (rx r (MState 0 s [])).
Proof. unfold re_match. destruct (rx r _); reflexivity. Qed.

Lemma rx_seq_head a b st st1 r :
  hd_error (rx a st) = Some st1 ->
  hd_error (rx b st1) = Some r ->
  hd_error (rx (RSeq a b) st) = Some r.
Proof.
  simpl. destruct (rx a st) as [| x l]; [discriminate |].
  intros H; injection H as ->. simpl.
  destruct (rx b st1); [discriminate |]. auto.
Qed.

Lemma rx_group_head name a pos txt rest gs :
  hd_error (rx a (MState pos (txt ++ rest) gs))
  = Some (MState (List.length txt + pos) rest gs) ->
  hd_error (rx (RGroup name a) (MState pos (txt ++ rest) gs))
  = Some (MState (List.length txt + pos) rest (gs ++ [(name, txt)])).
Proof.
  simpl. destruct (rx a _) as [| x l]; [discriminate |].
  intros H; injection H as ->. simpl.
  rewrite Nat.add_sub, firstn_app, Nat.sub_diag, firstn_all. simpl.
  rewrite app_nil_r. reflexivity.
Qed.

Lemma rx_empty st : rx REmpty st = [st].
Proof. reflexivity. Qed.

(** *** The directives on the text they are meant to read *)

Lemma in_1_12 m :
  (1 <= m <= 12)%N -> In m [1; 2; 3; 4; 5; 6; 7; 8; 9; 10; 11; 12]%N.
Proof. intros H. simpl. lia. Qed.

Lemma in_1_31 d :
  (1 <= d <= 31)%N ->
  In d [1; 2; 3; 4; 5; 6; 7; 8; 9; 10; 11; 12; 13; 14; 15; 16; 17; 18; 19;
        20; 21; 22; 23; 24; 25; 26; 27; 28; 29; 30; 31]%N.
Proof. intros H. simpl. lia. Qed.

Ltac each_in E := simpl in E; repeat (destruct E as [<- | E]); [.. | contradiction].

Lemma month_alts_head two m rest pos gs :
  (1 <= m <= 12)%N ->
  hd_error (rx month_alts
              (MState pos (day_number two m ++ chr "/" :: rest) gs))
  = Some (MState (List.length (day_number two m) + pos) (chr "/" :: rest) gs).
Proof.
  intros H. apply in_1_12 in H.
  destruct two; each_in H; vm_compute; reflexivity.
Qed.

Lemma day_alts_head two d c rest pos gs :
  (1 <= d <= 31)%N ->
  In c [chr "/"; chr ","; chr " "] ->
  hd_error (rx day_alts (MState pos (day_number two d ++ c :: rest) gs))
  = Some (MState (List.length (day_number two d) + pos) (c :: rest) gs).
Proof.
  intros H Hc. apply in_1_31 in H.
  destruct two; each_in Hc; each_in H; vm_compute; reflexivity.
Qed.

Lemma rx_one_single p pos c t gs :
  rx (RSet p) (MState pos (c :: t) gs)
  = if p c then [MState (S pos) t gs] else [].
Proof. reflexivity. Qed.

Lemma year_digits_head y rest pos gs :
  hd_error (rx year_digits (MState pos (zero_pad 4 y ++ rest) gs))
  = Some (MState (List.length (zero_pad 4 y) + pos) rest gs).
Proof.
  rewrite zero_pad_4. cbn [app List.length Nat.add]. unfold year_digits, rx_d.
  rewrite rx_one_cons, is_digit_mod, rx_one_cons, is_digit_mod,
    rx_one_cons, is_digit_mod, rx_one_single, is_digit_mod.
  reflexivity.
Qed.

Lemma month_name_head m rest pos gs :
  (1 <= m <= 12)%N ->
  hd_error (rx (names_alts (tl f_month))
              (MState pos (month_name m ++ rest) gs))
  = Some (MState (List.length (month_name m) + pos) rest gs).
Proof.
  intros H. apply in_1_12 in H. each_in H; vm_compute; reflexivity.
Qed.

Lemma month_abbr_head m rest pos gs :
  (1 <= m <= 12)%N ->
  hd_error (rx (names_alts (tl a_month))
              (MState pos (month_abbr m ++ rest) gs))
  = Some (MState (List.length (month_abbr m) + pos) rest gs).
Proof.
  intros H. apply in_1_12 in H. each_in H; vm_compute; reflexivity.
Qed.

(** *** Reading the groups back *)

Lemma decimal_value_ascii k : (k < 10)%N -> decimal_value (48 + k)%N = Some k.
Proof.
  intros H.
  assert (E : In k [0; 1; 2; 3; 4; 5; 6; 7; 8; 9]%N) by (simpl; lia).
  each_in E; reflexivity.
Qed.

Lemma py_int_day two n : (1 <= n <= 31)%N -> py_int (day_number two n) = Some n.
Proof.
  intros H. apply in_1_31 in H. destruct two; each_in H; reflexivity.
Qed.

Lemma strip_year y : strip (zero_pad 4 y) = zero_pad 4 y.
Proof.
  assert (Hs : forall n, is_space (48 + n mod 10)%N = false)
    by auto with chars.
  rewrite zero_pad_4.
  apply (strip_fixed _ [_; _] _ (Hs _) (Hs _)).
Qed.

Lemma py_int_year y : (y <= 9999)%N -> py_int (zero_pad 4 y) = Some y.
Proof.
  intros H. unfold py_int. rewrite strip_year, zero_pad_4.
  unfold all_digits. cbn [fold_left].
  rewrite !decimal_value_ascii by (apply N.mod_lt; discriminate).
  f_equal.
  pose proof (N.div_mod y 10). pose proof (N.div_mod (y / 10) 10).
  pose proof (N.div_mod (y / 10 / 10) 10).
  assert (y / 10 / 10 / 10 < 10)%N.
  { apply N.Div0.div_lt_upper_bound. apply N.Div0.div_lt_upper_bound.
    apply N.Div0.div_lt_upper_bound. lia. }
  rewrite (N.mod_small (y / 10 / 10 / 10) 10) by assumption.
  lia.
Qed.

Lemma index_month_name m :
  (1 <= m <= 12)%N -> index_of (lower (month_name m)) f_month 0 = Some m.
Proof. intros H. apply in_1_12 in H. each_in H; reflexivity. Qed.

Lemma index_month_abbr m :
  (1 <= m <= 12)%N -> index_of (lower (month_abbr m)) a_month 0 = Some m.
Proof. intros H. apply in_1_12 in H. each_in H; reflexivity. Qed.

Lemma date_bounds d :
  (1 <= year d <= 9999)%N /\ (1 <= month d <= 12)%N /\ (1 <= day d <= 31)%N.
Proof.
  pose proof (date_ok d) as H. unfold valid_ymd in H.
  rewrite !andb_true_iff, !N.leb_le in H.
  destruct H as [[[[[H1 H2] H3] H4] H5] H6].
  repeat split; try assumption.
  revert H6. unfold days_in_month.
  destruct (N.eqb _ _); [destruct (is_leap _) |]; [lia | lia |].
  destruct (_ || _); lia.
Qed.

Lemma mk_date_of d :
  exists d', mk_date (year d) (month d) (day d) = Some d'
             /\ strftime_ymd d' = strftime_ymd d.
Proof.
  unfold mk_date.
  generalize (eq_refl (valid_ymd (year d) (month d) (day d))).
  generalize (valid_ymd (year d) (month d) (day d)) at 2 3.
  intros b. destruct b.
  - intros e. eexists. split; reflexivity.
  - intros e. pose proof (date_ok d). congruence.
Qed.

(** *** Literals and whitespace between the directives *)

Lemma rx_chari_head c r pos t gs x :
  ci_eqb c c = true ->
  hd_error (rx r (MState (S pos) t gs)) = Some x ->
  hd_error (rx (RSeq (RCharI c) r) (MState pos (c :: t) gs)) = Some x.
Proof. intros Hc H. rewrite rx_chari_cons, Hc. exact H. Qed.

Lemma nonspace_head_app a b : nonspace_head a -> nonspace_head (a ++ b).
Proof. destruct a; simpl; tauto. Qed.

Lemma rx_spaces_head r pos s gs x :
  nonspace_head s ->
  hd_error (rx r (MState (S pos) s gs)) = Some x ->
  hd_error (rx (RSeq (RSeq (RSet is_space) (RStar is_space)) r)
              (MState pos (chr " " :: s) gs)) = Some x.
Proof.
  intros Hs H. destruct s as [| c t]; [contradiction |]. simpl in Hs.
  simpl. unfold rx_one. simpl. rewrite Hs. simpl. rewrite app_nil_r. exact H.
Qed.

Lemma nonspace_head_day two n : nonspace_head (day_number two n).
Proof.
  unfold day_number.
  destruct (_ || _);
    [rewrite zero_pad_2 | change (zero_pad 1 n) with [(48 + n mod 10)%N]];
    cbn [nonspace_head]; auto with chars.
Qed.

Lemma nonspace_head_year y : nonspace_head (zero_pad 4 y).
Proof. rewrite zero_pad_4. cbn [nonspace_head]. auto with chars. Qed.

Lemma nonspace_head_name m : (1 <= m <= 12)%N -> nonspace_head (month_name m).
Proof. intros H. apply in_1_12 in H. each_in H; reflexivity. Qed.

Lemma nonspace_head_abbr m : (1 <= m <= 12)%N -> nonspace_head (month_abbr m).
Proof. intros H. apply in_1_12 in H. each_in H; reflexivity. Qed.

(** *** Each alternate format is read by its format string *)

Lemma strptime_found fmt r s found y m d :
  pattern false fmt = Some r ->
  hd_error (rx r (MState 0 s [])) = Some found ->
  m_rest found = [] ->
  found_num (chr "Y") 1900 (m_groups found) = Some y ->
  found_month (m_groups found) = Some m ->
  found_num (chr "d") 1 (m_groups found) = Some d ->
  strptime s fmt = mk_date y m d.
Proof.
  intros Hp Hh Hr Hy Hm Hd. unfold strptime.
  rewrite Hp, re_match_hd, Hh, Hr, Hy, Hm, Hd. reflexivity.
Qed.

Ltac space_lit := change (py " ") with [chr " "]; change (py ", ") with [chr ","; chr " "];
  change (py "/") with [chr "/"]; cbn [app].

Lemma strptime_render f two d :
  exists d', strptime (render f two d) (format_of f) = Some d'
             /\ strftime_ymd d' = strftime_ymd d.
Proof.
  destruct (date_bounds d) as (Hy & Hm & Hd).
  destruct (mk_date_of d) as (d' & Hmk & Hs).
  exists d'. split; [| exact Hs]. rewrite <- Hmk.
  destruct f; unfold render, format_of; space_lit.
  - (* 03/15/2025 *)
    eapply strptime_found.
    + reflexivity.
    + eapply rx_seq_head; [apply rx_group_head, month_alts_head, Hm |].
      apply rx_chari_head; [reflexivity |].
      eapply rx_seq_head;
        [apply rx_group_head, day_alts_head; [exact Hd | simpl; auto] |].
      apply rx_chari_head; [reflexivity |].
      eapply rx_seq_head.
      * rewrite <- (app_nil_r (zero_pad 4 (year d))).
        apply rx_group_head, year_digits_head.
      * reflexivity.
    + reflexivity.
    + apply py_int_year. lia.
    + apply (py_int_day two). lia.
    + apply py_int_day. exact Hd.
  - (* March 15, 2025 *)
    eapply strptime_found.
    + reflexivity.
    + eapply rx_seq_head; [apply rx_group_head, month_name_head, Hm |].
      apply rx_spaces_head; [apply nonspace_head_app, nonspace_head_day |].
      eapply rx_seq_head;
        [apply rx_group_head, day_alts_head; [exact Hd | simpl; auto] |].
      apply rx_chari_head; [reflexivity |].
      apply rx_spaces_head; [apply nonspace_head_year |].
      eapply rx_seq_head.
      * rewrite <- (app_nil_r (zero_pad 4 (year d))).
        apply rx_group_head, year_digits_head.
      * reflexivity.
    + reflexivity.
    + apply py_int_year. lia.
    + apply index_month_name. exact Hm.
    + apply py_int_day. exact Hd.
  - (* Mar 15, 2025 *)
    eapply strptime_found.
    + reflexivity.
    + eapply rx_seq_head; [apply rx_group_head, month_abbr_head, Hm |].
      apply rx_spaces_head; [apply nonspace_head_app, nonspace_head_day |].
      eapply rx_seq_head;
        [apply rx_group_head, day_alts_head; [exact Hd | simpl; auto] |].
      apply rx_chari_head; [reflexivity |].
      apply rx_spaces_head; [apply nonspace_head_year |].
      eapply rx_seq_head.
      * rewrite <- (app_nil_r (zero_pad 4 (year d))).
        apply rx_group_head, year_digits_head.
      * reflexivity.
    + reflexivity.
    + apply py_int_year. lia.
    + apply index_month_abbr. exact Hm.
    + apply py_int_day. exact Hd.
  - (* 15 March 2025 *)
    eapply strptime_found.
    + reflexivity.
    + eapply rx_seq_head;
        [apply rx_group_head, day_alts_head; [exact Hd | simpl; auto] |].
      apply rx_spaces_head;
        [apply nonspace_head_app, nonspace_head_name, Hm |].
      eapply rx_seq_head; [apply rx_group_head, month_name_head, Hm |].
      apply rx_spaces_head; [apply nonspace_head_year |].
      eapply rx_seq_head.
      * rewrite <- (app_nil_r (zero_pad 4 (year d))).
        apply rx_group_head, year_digits_head.
      * reflexivity.
    + reflexivity.
    + apply py_int_year. lia.
    + apply index_month_name. exact Hm.
    + apply py_int_day. exact Hd.
Qed.

Lemma month_number_not_before two m rest :
  (1 <= m <= 12)%N ->
  let s := day_number two m ++ chr "/" :: rest in
  re_match canonical_date_re s = None /\ strptime s iso_format = None.
Proof.
  intros H. apply in_1_12 in H.
  destruct two; each_in H; cbv zeta; repeat apply conj; vm_compute; reflexivity.
Qed.

Lemma month_name_not_before m rest :
  (1 <= m <= 12)%N ->
  let s := month_name m ++ chr " " :: rest in
  re_match canonical_date_re s = None
  /\ strptime s iso_format = None
  /\ strptime s (format_of UsSlash) = None.
Proof.
  intros H. apply in_1_12 in H.
  each_in H; cbv zeta; repeat apply conj; vm_compute; reflexivity.
Qed.

Lemma month_abbr_not_before m rest :
  (1 <= m <= 12)%N ->
  let s := month_abbr m ++ chr " " :: rest in
  re_match canonical_date_re s = None
  /\ strptime s iso_format = None
  /\ strptime s (format_of UsSlash) = None
  /\ (m <> 5%N -> strptime s (format_of LongMonth) = None).
Proof.
  intros H. apply in_1_12 in H.
  each_in H; cbv zeta; repeat apply conj;
    try (intros Hm; try (exfalso; apply Hm; reflexivity));
    vm_compute; reflexivity.
Qed.

Lemma day_number_not_before two d rest :
  (1 <= d <= 31)%N ->
  let s := day_number two d ++ chr " " :: rest in
  re_match canonical_date_re s = None
  /\ strptime s iso_format = None
  /\ strptime s (format_of UsSlash) = None
  /\ strptime s (format_of LongMonth) = None
  /\ strptime s (format_of AbbrMonth) = None.
Proof.
  intros H. apply in_1_31 in H.
  destruct two; each_in H; cbv zeta; repeat apply conj; vm_compute; reflexivity.
Qed.

(** *** Renderings are already trimmed *)

Lemma lstrip_nonspace_head s : nonspace_head s -> lstrip s = s.
Proof. destruct s; simpl; [tauto |]. intros ->. reflexivity. Qed.

Lemma lstrip_app x y : lstrip x <> [] -> lstrip (x ++ y) = lstrip x ++ y.
Proof.
  induction x as [| c x IH]; simpl; [congruence |].
  destruct (is_space c); [exact IH | reflexivity].
Qed.

Lemma rstrip_app a b :
  rstrip b = b -> b <> [] -> rstrip (a ++ b) = a ++ b /\ a ++ b <> [].
Proof.
  unfold rstrip. intros Hb Hne. split.
  - rewrite rev_app_distr, lstrip_app.
    + rewrite rev_app_distr, rev_involutive, Hb. reflexivity.
    + intros E. rewrite E in Hb. simpl in Hb. congruence.
  - destruct a; simpl; [exact Hne | discriminate].
Qed.

Lemma rstrip_year y : rstrip (zero_pad 4 y) = zero_pad 4 y /\ zero_pad 4 y <> [].
Proof.
  rewrite zero_pad_4. split; [| discriminate].
  apply (rstrip_fixed [_; _; _]). auto with chars.
Qed.

Lemma render_nonspace_head f two d : nonspace_head (render f two d).
Proof.
  destruct (date_bounds d) as (_ & Hm & _).
  destruct f; unfold render; apply nonspace_head_app;
    auto using nonspace_head_day, nonspace_head_name, nonspace_head_abbr.
Qed.

Lemma strip_render f two d : strip (render f two d) = render f two d.
Proof.
  unfold strip. rewrite (lstrip_nonspace_head _ (render_nonspace_head f two d)).
  destruct (rstrip_year (year d)) as [Hy Hne].
  destruct f; unfold render;
    repeat (apply rstrip_app; try assumption).
Qed.

Lemma render_truthy f two d : truthy (VStr (render f two d)) = true.
Proof.
  pose proof (render_nonspace_head f two d) as H.
  destruct (render f two d); [contradiction | reflexivity].
Qed.

Lemma first_parse_render f two d :
  re_match canonical_date_re (render f two d) = None
  /\ exists d', first_parse (render f two d) date_formats = Some d'
                /\ strftime_ymd d' = strftime_ymd d.
Proof.
  destruct (date_bounds d) as (Hy & Hm & Hd).
  change date_formats
    with [iso_format; format_of UsSlash; format_of LongMonth;
          format_of AbbrMonth; format_of DayFirst].
  destruct (strptime_render f two d) as (d' & Hp & Hs).
  destruct f; unfold render in *; space_lit; revert Hp; space_lit; intros Hp.
  - destruct (month_number_not_before two _ (day_number two (day d) ++ chr "/" :: zero_pad 4 (year d)) Hm)
      as (Hc & H1).
    split; [exact Hc |]. exists d'. cbn [first_parse]. rewrite H1, Hp. auto.
  - destruct (month_name_not_before _ (day_number two (day d) ++ chr "," :: chr " " :: zero_pad 4 (year d)) Hm)
      as (Hc & H1 & H2).
    split; [exact Hc |]. exists d'. cbn [first_parse]. rewrite H1, H2, Hp. auto.
  - destruct (month_abbr_not_before _ (day_number two (day d) ++ chr "," :: chr " " :: zero_pad 4 (year d)) Hm)
      as (Hc & H1 & H2 & H3).
    split; [exact Hc |]. cbn [first_parse]. rewrite H1, H2.
    destruct (N.eq_dec (month d) 5) as [E | E].
    + destruct (strptime_render LongMonth two d) as (d2 & Hp2 & Hs2).
      unfold render in Hp2. revert Hp2. space_lit. rewrite E.
      change (month_name 5) with (month_abbr 5). intros ->. eauto.
    + rewrite (H3 E), Hp. eauto.
  - destruct (day_number_not_before two _ (month_name (month d) ++ chr " " :: zero_pad 4 (year d)) Hd)
      as (Hc & H1 & H2 & H3 & H4).
    split; [exact Hc |]. exists d'. cbn [first_parse].
    rewrite H1, H2, H3, H4, Hp. auto.
Qed.

Lemma first_parse_prefix s fmts1 fmt fmts2 d :
  Forall (fun g => strptime s g = None) fmts1 ->
  strptime s fmt = Some d ->
  first_parse s (fmts1 ++ fmt :: fmts2) = Some d.
Proof.
  induction 1 as [| g l Hg _ IH]; simpl; intros H.
  - rewrite H. reflexivity.
  - rewrite Hg. auto.
Qed.

(** Claim C6. The claim holds for the years of four digits only.  At
    [03/15/0999], [March 15, 0999], [Mar 15, 0999] and [15 March 0999] the
    formats read the date 15 March 999, and what is returned is the text
    [999-03-15], which is not of the canonical form: [strftime] prints the
    year without its leading zero. *)
Theorem short_year_in_alternate_format :
  parse_event_date (quiet_world None) today_example (VStr (py "03/15/0999"))
  = py "999-03-15"
  /\ parse_event_date (quiet_world None) today_example
       (VStr (py "March 15, 0999")) = py "999-03-15"
  /\ parse_event_date (quiet_world None) today_example
       (VStr (py "Mar 15, 0999")) = py "999-03-15"
  /\ parse_event_date (quiet_world None) today_example
       (VStr (py "15 March 0999")) = py "999-03-15"
  /\ canonical (py "999-03-15") = false
  /\ re_match canonical_date_re (py "999-03-15") = None.
Proof. repeat split; vm_compute; reflexivity. Qed.

(** Property X30. A date from the year 1000 on written in one of the
    alternate formats (US slashes, long month name with comma, abbreviated
    month name with comma, day first with long month name; day and month
    numbers with or without a leading zero) is returned in canonical form.
    The formats are tried in the fixed order ISO, US slashes, long month,
    abbreviated month, day first, and the date of the first format that
    parses the trimmed text is the one returned. *)
Theorem alternate_formats_from_year_1000 w today :
  (forall f two d,
     (1000 <= year d)%N ->
     parse_event_date w today (VStr (render f two d)) = strftime_ymd d
     /\ canonical (strftime_ymd d) = true)
  /\ date_formats
     = [py "%Y-%m-%d"; format_of UsSlash; format_of LongMonth;
        format_of AbbrMonth; format_of DayFirst]
  /\ (forall s fmts1 fmt fmts2 d,
        s <> [] ->
        canonical (strip s) = false ->
        date_formats = fmts1 ++ fmt :: fmts2 ->
        Forall (fun g => strptime (strip s) g = None) fmts1 ->
        strptime (strip s) fmt = Some d ->
        parse_event_date w today (VStr s) = strftime_ymd d).
Proof.
  split; [| split; [reflexivity |]].
  - intros f two d Hy. split; [| apply strftime_canonical, Hy].
    unfold parse_event_date.
    rewrite render_truthy. cbn [negb py_str]. cbv iota.
    rewrite strip_render.
    destruct (first_parse_render f two d) as (-> & d' & -> & Hs). exact Hs.
  - intros s fmts1 fmt fmts2 d Hne Hc Hf Hn Hp. unfold parse_event_date.
    destruct s as [| c t]; [congruence |]. cbn [truthy negb py_str]. cbv iota.
    destruct (re_match _ _) eqn:Hm.
    + apply stripped_match_canonical in Hm. congruence.
    + rewrite Hf, (first_parse_prefix _ _ _ _ _ Hn Hp). reflexivity.
Qed.

Lemma alternate_formats_from_year_1000_witness :
  (1000 <= year march_15_2025)%N
  /\ parse_event_date (quiet_world None) today_example (VStr (py "03/15/2025"))
     = py "2025-03-15"
  /\ parse_event_date (quiet_world None) today_example
       (VStr (py "March 15, 2025")) = py "2025-03-15"
  /\ parse_event_date (quiet_world None) today_example
       (VStr (py "15 March 2025")) = py "2025-03-15"
  /\ py " 3/5/2025 " <> []
  /\ canonical (strip (py " 3/5/2025 ")) = false
  /\ date_formats = [iso_format] ++ format_of UsSlash :: skipn 2 date_formats
  /\ Forall (fun g => strptime (strip (py " 3/5/2025 ")) g = None) [iso_format]
  /\ strptime (strip (py " 3/5/2025 ")) (format_of UsSlash)
     = Some (MkDate 2025 3 5 eq_refl)
  /\ parse_event_date (quiet_world None) today_example
       (VStr (py " 3/5/2025 ")) = py "2025-03-05".
Proof.
  destruct (alternate_formats_from_year_1000 (quiet_world None) today_example)
    as (Hrender & _ & Hfirst).
  assert (Hy : (1000 <= year march_15_2025)%N) by (simpl; lia).
  assert (Hne : py " 3/5/2025 " <> []) by discriminate.
  assert (Hc : canonical (strip (py " 3/5/2025 ")) = false) by reflexivity.
  assert (Hf : date_formats
               = [iso_format] ++ format_of UsSlash :: skipn 2 date_formats)
    by reflexivity.
  assert (Hn : Forall (fun g => strptime (strip (py " 3/5/2025 ")) g = None)
                 [iso_format])
    by (constructor; [vm_compute; reflexivity | constructor]).
  assert (Hp : strptime (strip (py " 3/5/2025 ")) (format_of UsSlash)
               = Some (MkDate 2025 3 5 eq_refl))
    by (vm_compute; reflexivity).
  split; [exact Hy |].
  split; [exact (proj1 (Hrender UsSlash true march_15_2025 Hy)) |].
  split; [exact (proj1 (Hrender LongMonth true march_15_2025 Hy)) |].
  split; [exact (proj1 (Hrender DayFirst true march_15_2025 Hy)) |].
  repeat (split; [assumption |]).
  exact (Hfirst _ _ _ _ _ Hne Hc Hf Hn Hp).
Defined.

(* ------------------------------------------------------------------ *)
(** ** Fenced replies *)
(* ------------------------------------------------------------------ *)

(** *** Scanning *)

Lemma sub_scan_skip r : forall s k pos,
  sub_scan r k pos s = sub_scan r 0 (k + pos) (skipn k s).
Proof.
  induction s as [| c t IH]; intros k pos.
  - destruct k; reflexivity.
  - destruct k as [| k]; [reflexivity |].
    simpl sub_scan at 1. rewrite IH. simpl skipn.
    rewrite Nat.add_succ_r. reflexivity.
Qed.

Lemma sub_scan_hit r pos c t st n :
  hd_error (rx r (MState pos (c :: t) [])) = Some st ->
  m_pos st = S n + pos ->
  sub_scan r 0 pos (c :: t) = sub_scan r 0 (S n + pos) (skipn n t).
Proof.
  intros Hh Hp. simpl sub_scan.
  destruct (rx r _) as [| x l]; [discriminate |].
  injection Hh as ->. rewrite Hp.
  replace (S n + pos - pos) with (S n) by lia.
  rewrite sub_scan_skip. f_equal. lia.
Qed.

Lemma sub_scan_miss r pos c t :
  rx r (MState pos (c :: t) []) = [] ->
  sub_scan r 0 pos (c :: t) = c :: sub_scan r 0 (S pos) t.
Proof. intros H. simpl. rewrite H. reflexivity. Qed.

(** *** The greedy star of whitespace *)

Lemma rx_star_head s : forall pos gs,
  exists w,
    s = w ++ lstrip s /\ forallb is_space w = true
    /\ hd_error (rx_star is_space pos s gs)
       = Some (MState (List.length w + pos) (lstrip s) gs).
Proof.
  induction s as [| c t IH]; intros pos gs.
  - exists []. auto.
  - simpl. destruct (is_space c) eqn:Hc.
    + destruct (IH (S pos) gs) as (w & Hw & Hs & Hh).
      exists (c :: w). simpl. rewrite Hc, Hs.
      split; [f_equal; exact Hw |]. split; [reflexivity |].
      destruct (rx_star is_space (S pos) t gs); [discriminate |].
      simpl in *. rewrite Hh. f_equal. f_equal. lia.
    + exists []. auto.
Qed.

(** After a greedy run of whitespace, a pattern that cannot start with
    whitespace only sees the end of the run. *)
Lemma rx_star_then r s : forall pos gs,
  (forall p c t g, is_space c = true -> rx r (MState p (c :: t) g) = []) ->
  exists w,
    s = w ++ lstrip s
    /\ flat_map (rx r) (rx_star is_space pos s gs)
       = rx r (MState (List.length w + pos) (lstrip s) gs).
Proof.
  intros pos gs Hr. revert pos.
  induction s as [| c t IH]; intros pos.
  - exists []. simpl. rewrite app_nil_r. auto.
  - simpl. destruct (is_space c) eqn:Hc.
    + destruct (IH (S pos)) as (w & Hw & Hf).
      exists (c :: w). split; [simpl; f_equal; exact Hw |].
      rewrite flat_map_app, Hf. simpl. rewrite (Hr _ _ _ _ Hc), !app_nil_r.
      f_equal. f_equal. lia.
    + exists []. simpl. rewrite app_nil_r. auto.
Qed.

Lemma rx_star_eol t : forall pos gs,
  if forallb is_space t
  then exists l, flat_map (rx REol) (rx_star is_space pos t gs)
                 = MState (List.length t + pos) [] gs :: l
  else flat_map (rx REol) (rx_star is_space pos t gs) = [].
Proof.
  induction t as [| c t IH]; intros pos gs.
  - simpl. eauto.
  - cbn [rx_star forallb]. destruct (is_space c) eqn:Hc; cbn [andb].
    + rewrite flat_map_app. specialize (IH (S pos) gs).
      destruct (forallb is_space t) eqn:Ht.
      * destruct IH as [l ->]. eexists. cbn [app List.length].
        replace (List.length t + S pos) with (S (List.length t) + pos) by lia.
        reflexivity.
      * rewrite IH. cbn [app flat_map]. rewrite rx_eol, app_nil_r.
        destruct t; [discriminate | reflexivity].
    + cbn [flat_map]. rewrite rx_eol, app_nil_r.
      destruct t; [| reflexivity].
      destruct (char_eqb c 10) eqn:E; [| reflexivity].
      apply char_eqb_eq in E. subst c. discriminate.
Qed.

(** *** The two fence patterns *)

Lemma rx_fence_lit p s g :
  rx (rx_lit (py "```")) (MState p s g)
  = match s with
    | a :: b :: c :: t =>
        if char_eqb backtick a && char_eqb backtick b && char_eqb backtick c
        then [MState (3 + p) t g]
        else []
    | _ => []
    end.
Proof.
  change (rx_lit (py "```"))
    with (RSeq (RChar backtick) (RSeq (RChar backtick)
            (RSeq (RChar backtick) REmpty))).
  destruct s as [| a [| b [| c t]]];
    repeat first [rewrite rx_char_nil | rewrite rx_char_cons
                 | match goal with
                   | |- context [char_eqb backtick ?x] =>
                       destruct (char_eqb backtick x)
                   end];
    reflexivity.
Qed.

Lemma space_not_backtick c : is_space c = true -> char_eqb backtick c = false.
Proof.
  intros H. destruct (char_eqb backtick c) eqn:E; [| reflexivity].
  apply char_eqb_eq in E. subst c. discriminate.
Qed.

Lemma rx_close pos s gs :
  if fence_tail s
  then exists l, rx fence_close_re (MState pos s gs)
                 = MState (List.length s + pos) [] gs :: l
  else rx fence_close_re (MState pos s gs) = [].
Proof.
  unfold fence_close_re, fence_tail.
  set (R2 := RSeq (RStar is_space) REol).
  set (R := RSeq (rx_lit (py "```")) R2).
  change (rx (RSeq (RStar is_space) R) (MState pos s gs))
    with (flat_map (rx R) (rx_star is_space pos s gs)).
  destruct (rx_star_then R s pos gs) as (w & Hw & ->).
  { intros p c t g Hc. unfold R.
    change (rx (RSeq (rx_lit (py "```")) R2) (MState p (c :: t) g))
      with (flat_map (rx R2) (rx (rx_lit (py "```")) (MState p (c :: t) g))).
    rewrite rx_fence_lit.
    destruct t as [| b [| d t]]; try reflexivity.
    rewrite (space_not_backtick _ Hc). reflexivity. }
  unfold R.
  change (rx (RSeq (rx_lit (py "```")) R2)
            (MState (List.length w + pos) (lstrip s) gs))
    with (flat_map (rx R2)
            (rx (rx_lit (py "```"))
               (MState (List.length w + pos) (lstrip s) gs))).
  rewrite rx_fence_lit.
  destruct (lstrip s) as [| a [| b [| c t]]] eqn:E; try reflexivity.
  destruct (char_eqb backtick a && char_eqb backtick b && char_eqb backtick c);
    [| reflexivity].
  cbn [andb flat_map]. unfold R2.
  change (rx (RSeq (RStar is_space) REol)
            (MState (3 + (List.length w + pos)) t gs))
    with (flat_map (rx REol)
            (rx_star is_space (3 + (List.length w + pos)) t gs)).
  pose proof (rx_star_eol t (3 + (List.length w + pos)) gs) as H.
  destruct (forallb is_space t).
  - destruct H as [l ->]. eexists. cbn [app]. f_equal. f_equal.
    rewrite Hw at 1. rewrite length_app. simpl. lia.
  - rewrite H. reflexivity.
Qed.

Lemma sub_scan_close : forall s pos,
  sub_scan fence_close_re 0 pos s = cut_at_fence s.
Proof.
  induction s as [| c t IH]; intros pos; [reflexivity |].
  pose proof (rx_close pos (c :: t) []) as H.
  cbn [cut_at_fence]. destruct (fence_tail (c :: t)).
  - destruct H as [l H].
    rewrite (sub_scan_hit fence_close_re pos c t
               (MState (List.length (c :: t) + pos) [] []) (List.length t)).
    + rewrite skipn_all. reflexivity.
    + rewrite H. reflexivity.
    + reflexivity.
  - rewrite (sub_scan_miss _ _ _ _ H), IH. reflexivity.
Qed.

(** *** Where the closing fence starts *)

Lemma count_nonspace_app a b :
  count_nonspace (a ++ b) = count_nonspace a + count_nonspace b.
Proof. unfold count_nonspace. rewrite filter_app, length_app. reflexivity. Qed.

Lemma count_nonspace_spaces w :
  forallb is_space w = true -> count_nonspace w = 0.
Proof.
  unfold count_nonspace. induction w as [| c w IH]; simpl; [reflexivity |].
  rewrite andb_true_iff. intros [-> H]. simpl. auto.
Qed.

Lemma fence_tail_count s : fence_tail s = true -> count_nonspace s = 3.
Proof.
  unfold fence_tail. destruct (lstrip_split s) as (w & Hw & Hs).
  destruct (lstrip s) as [| a [| b [| c t]]]; try discriminate.
  rewrite !andb_true_iff. intros [[[Ha Hb] Hc] Ht].
  apply char_eqb_eq in Ha, Hb, Hc. subst a b c.
  rewrite Hw, count_nonspace_app, (count_nonspace_spaces _ Hs).
  change (backtick :: backtick :: backtick :: t)
    with ([backtick; backtick; backtick] ++ t).
  rewrite count_nonspace_app, (count_nonspace_spaces _ Ht). reflexivity.
Qed.

Lemma fence_tail_spaces w :
  forallb is_space w = true -> fence_tail (w ++ py "```") = true.
Proof.
  unfold fence_tail. induction w as [| c w IH]; simpl; [reflexivity |].
  rewrite andb_true_iff. intros [-> H]. auto.
Qed.

Lemma cut_at_fence_body l c w :
  is_space c = false ->
  forallb is_space w = true ->
  cut_at_fence ((l ++ [c]) ++ w ++ py "```") = l ++ [c].
Proof.
  intros Hc Hw.
  assert (Hmiss : forall p, fence_tail ((p ++ [c]) ++ w ++ py "```") = false).
  { intros p. destruct (fence_tail _) eqn:E; [| reflexivity].
    apply fence_tail_count in E.
    rewrite !count_nonspace_app, (count_nonspace_spaces _ Hw) in E.
    unfold count_nonspace at 2 in E. simpl in E. rewrite Hc in E.
    simpl in E. change (count_nonspace (py "```")) with 3 in E. lia. }
  induction l as [| a l IH].
  - specialize (Hmiss []). cbn [app] in *. cbn [cut_at_fence].
    rewrite Hmiss. f_equal.
    pose proof (fence_tail_spaces _ Hw) as Ht.
    destruct (w ++ py "```"); [reflexivity |].
    cbn [cut_at_fence]. rewrite Ht. reflexivity.
  - specialize (Hmiss (a :: l)). cbn [app] in *. cbn [cut_at_fence].
    rewrite Hmiss, IH. reflexivity.
Qed.

(** *** The opening fence *)

Lemma sub_scan_open_later : forall s pos,
  pos <> 0 -> sub_scan fence_open_re 0 pos s = s.
Proof.
  induction s as [| c t IH]; intros pos Hp; [reflexivity |].
  rewrite sub_scan_miss.
  - rewrite IH by discriminate. reflexivity.
  - unfold fence_open_re. rewrite rx_seq_bol.
    destruct pos; [congruence | reflexivity].
Qed.

Lemma sub_scan_open_hit s st n :
  hd_error (rx fence_open_re (MState 0 s [])) = Some st ->
  m_pos st = S n ->
  re_sub_delete fence_open_re s = skipn (S n) s.
Proof.
  intros Hh Hp. unfold re_sub_delete. destruct s as [| c t].
  - reflexivity.
  - rewrite (sub_scan_hit fence_open_re 0 c t st n Hh) by (rewrite Hp; lia).
    rewrite sub_scan_open_later by discriminate. reflexivity.
Qed.

Lemma lstrip_spaces_app w s : forallb is_space w = true -> lstrip (w ++ s) = lstrip s.
Proof.
  induction w as [| c w IH]; simpl; [reflexivity |].
  rewrite andb_true_iff. intros [-> H]. auto.
Qed.

Lemma open_fence_match (tag j : str) :
  tag = [] \/ tag = py "json" ->
  forall w : str,
    hd_error (rx_star is_space (3 + List.length tag)
                (nl ++ j ++ nl ++ py "```") [])
    = Some (MState (List.length w + (3 + List.length tag))
              (lstrip (j ++ nl ++ py "```")) []) ->
    hd_error (rx fence_open_re (MState 0 (fenced tag j) []))
    = Some (MState (List.length w + (3 + List.length tag))
              (lstrip (j ++ nl ++ py "```")) []).
Proof.
  intros Htag w Hh. unfold fence_open_re. rewrite rx_seq_bol. cbn [Nat.eqb].
  destruct Htag as [-> | ->].
  - apply (rx_seq_head _ _ _ (MState 3 (nl ++ j ++ nl ++ py "```") []));
      [reflexivity |].
    apply (rx_seq_head _ _ _ (MState 3 (nl ++ j ++ nl ++ py "```") []));
      [reflexivity | exact Hh].
  - apply (rx_seq_head _ _ _
             (MState 3 (py "json" ++ nl ++ j ++ nl ++ py "```") []));
      [reflexivity |].
    apply (rx_seq_head _ _ _ (MState 7 (nl ++ j ++ nl ++ py "```") []));
      [reflexivity | exact Hh].
Qed.

Lemma open_fence_removed (tag j : str) :
  tag = [] \/ tag = py "json" ->
  re_sub_delete fence_open_re (fenced tag j) = lstrip (j ++ nl ++ py "```").
Proof.
  intros Htag. set (X := j ++ nl ++ py "```").
  destruct (rx_star_head (nl ++ X) (3 + List.length tag) []) as (w & Hw & Hs & Hh).
  change (lstrip (nl ++ X)) with (lstrip X) in *.
  assert (Hf : fenced tag j = (py "```" ++ tag) ++ w ++ lstrip X).
  { unfold fenced. fold X. rewrite <- Hw, <- app_assoc. reflexivity. }
  pose proof (open_fence_match tag j Htag w Hh) as Hm. fold X in Hm.
  rewrite (sub_scan_open_hit _ _ (List.length w + (2 + List.length tag)) Hm)
    by (simpl; lia).
  rewrite Hf.
  replace (S (List.length w + (2 + List.length tag)))
    with (List.length ((py "```" ++ tag) ++ w) + 0)
    by (rewrite !length_app; simpl; lia).
  rewrite app_assoc, skipn_app, skipn_all2, Nat.add_0_r by lia.
  rewrite Nat.sub_diag. reflexivity.
Qed.

Lemma rstrip_nonempty c t :
  is_space c = false -> exists l c', rstrip (c :: t) = l ++ [c'].
Proof.
  intros Hc. destruct (rstrip_split (c :: t)) as (w & Hw & Hs).
  destruct (rstrip (c :: t)) as [| a r] eqn:E.
  - simpl in Hw. subst w. simpl in Hs. rewrite Hc in Hs. discriminate.
  - destruct (exists_last (l := a :: r)) as (l & c' & ->); [discriminate |].
    eauto.
Qed.

Lemma close_fence_removed j :
  cut_at_fence (lstrip (j ++ nl ++ py "```")) = strip j.
Proof.
  unfold strip. destruct (lstrip j) as [| c t] eqn:E.
  - destruct (lstrip_split j) as (w & Hw & Hs). rewrite E, app_nil_r in Hw.
    subst w. rewrite (lstrip_spaces_app _ _ Hs). reflexivity.
  - rewrite lstrip_app, E by (rewrite E; discriminate).
    pose proof (lstrip_head _ _ _ E) as Hc.
    destruct (rstrip_nonempty _ t Hc) as (l & c' & Hr).
    destruct (rstrip_split (c :: t)) as (w & Hw & Hs).
    rewrite Hr in *. pose proof (rstrip_last _ _ _ Hr) as Hc'.
    rewrite Hw at 1.
    rewrite <- app_assoc, (app_assoc w nl).
    apply cut_at_fence_body; [exact Hc' |].
    rewrite forallb_app, Hs. reflexivity.
Qed.

Lemma strip_fenced tag j : strip (fenced tag j) = fenced tag j.
Proof.
  unfold strip, fenced. change (py "```") with [backtick; backtick; backtick] at 1.
  cbn [app lstrip]. change (is_space backtick) with false. cbv iota.
  change (backtick :: backtick :: backtick :: tag ++ nl ++ j ++ nl ++ py "```")
    with ([backtick; backtick; backtick] ++ tag ++ nl ++ j ++ nl ++ py "```").
  repeat (apply rstrip_app; try reflexivity; try discriminate).
Qed.

Lemma str_or_nil x : str_or (Some x) [] = x.
Proof. destruct x; reflexivity. Qed.

(** A fenced reply and the bare reply leave the same text to decode, unless
    the bare reply itself starts with a fence. *)
Lemma fenced_raw tag j :
  tag = [] \/ tag = py "json" ->
  startswith (py "```") (strip j) = false ->
  raw_of_reply (Some (fenced tag j)) = raw_of_reply (Some j).
Proof.
  intros Htag Hj. unfold raw_of_reply. rewrite !str_or_nil, strip_fenced.
  unfold strip_fences at 2. rewrite Hj.
  unfold strip_fences.
  replace (startswith (py "```") (fenced tag j)) with true by reflexivity.
  rewrite (open_fence_removed _ j Htag).
  unfold re_sub_delete. rewrite sub_scan_close. apply close_fence_removed.
Qed.

Lemma lex_bad c t pos :
  is_json_ws c = false -> starts_value c = false ->
  lex 0 pos (c :: t) = [(pos, TBad)].
Proof.
  unfold starts_value. rewrite !orb_false_iff.
  intros Hw [[[[[[[[Hp Hq] Hd] Hn] Ht] Hf] Hm] HN] HI].
  cbn [lex]. rewrite Hw, Hp, Hq.
  assert (Hs : scan_atom (c :: t) = None).
  { unfold scan_atom.
    change (startswith (py "null") (c :: t))
      with (char_eqb (chr "n") c && startswith (py "ull") t).
    change (startswith (py "true") (c :: t))
      with (char_eqb (chr "t") c && startswith (py "rue") t).
    change (startswith (py "false") (c :: t))
      with (char_eqb (chr "f") c && startswith (py "alse") t).
    change (startswith (py "NaN") (c :: t))
      with (char_eqb (chr "N") c && startswith (py "aN") t).
    change (startswith (py "Infinity") (c :: t))
      with (char_eqb (chr "I") c && startswith (py "nfinity") t).
    change (startswith (py "-Infinity") (c :: t))
      with (char_eqb (chr "-") c && startswith (py "Infinity") t).
    rewrite Hn, Ht, Hf, HN, HI, (char_eqb_sym (chr "-") c), Hm. cbn [andb].
    unfold scan_number. rewrite Hm. unfold take_int.
    unfold is_ascii_digit, in_range, char_eqb in *.
    destruct (N.eqb c 48) eqn:E1.
    { apply N.eqb_eq in E1. subst c. discriminate. }
    destruct (N.leb 49 c && N.leb c 57) eqn:E2; [| reflexivity].
    rewrite andb_true_iff, !N.leb_le in E2.
    rewrite andb_false_iff, !N.leb_gt in Hd. lia. }
  rewrite Hs. reflexivity.
Qed.

Lemma json_ws_is_space c : is_json_ws c = true -> is_space c = true.
Proof.
  unfold is_json_ws, char_eqb. rewrite !orb_true_iff, !N.eqb_eq.
  intros [[[-> | ->] | ->] | ->]; reflexivity.
Qed.

Lemma space_not_starts_value c : is_space c = true -> starts_value c = false.
Proof.
  intros H. apply is_space_enum in H. simpl in H.
  repeat (destruct H as [<- | H]; [reflexivity |]). contradiction.
Qed.

Lemma decoded_first : forall s pos len v,
  decode_tokens (MValue, []) (lex 0 pos s) len = inr v ->
  exists c t, lstrip s = c :: t /\ starts_value c = true.
Proof.
  induction s as [| c t IH]; intros pos len v; [discriminate |].
  destruct (is_json_ws c) eqn:Hw.
  - cbn [lex]. rewrite Hw. cbn [lstrip]. rewrite (json_ws_is_space _ Hw).
    apply IH.
  - destruct (starts_value c) eqn:Hv.
    + intros _. exists c, t. split; [| exact Hv].
      cbn [lstrip]. destruct (is_space c) eqn:Hs; [| reflexivity].
      apply space_not_starts_value in Hs. congruence.
    + rewrite (lex_bad _ _ _ Hw Hv). discriminate.
Qed.

Lemma json_text_first j v :
  json_loads j = inr v -> startswith (py "```") (strip j) = false.
Proof.
  unfold json_loads. destruct (startswith _ j); [discriminate |].
  destruct (decode_tokens _ _ _) as [[m p] | v'] eqn:E; [discriminate |].
  intros _. apply decoded_first in E as (c & t & Hl & Hv).
  unfold strip. rewrite Hl.
  assert (Hs : is_space c = false).
  { destruct (is_space c) eqn:Hs; [| reflexivity].
    apply space_not_starts_value in Hs. congruence. }
  destruct (rstrip_split (c :: t)) as (w & Hw & Hws).
  destruct (rstrip (c :: t)) as [| a r].
  - reflexivity.
  - injection Hw as <- _.
    change (startswith (py "```") (c :: r))
      with (char_eqb backtick c && startswith (py "``") r).
    destruct (char_eqb backtick c) eqn:E'; [| reflexivity].
    apply char_eqb_eq in E'. subst c. discriminate.
Qed.

(** Claim C2, as amended. For every JSON text [j], a reply that wraps [j]
    in a fenced code block whose opening fence carries no tag or exactly the
    tag [json] is parsed to the same (course, events) result as the bare
    [j]. *)
Theorem fenced_reply_parses_alike (j : str) (v : value) (tag : str) :
  json_loads j = inr v ->
  tag = [] \/ tag = py "json" ->
  parse_reply (Some (fenced tag j)) = parse_reply (Some j).
Proof.
  intros Hj Htag. unfold parse_reply.
  rewrite (fenced_raw tag j Htag (json_text_first _ _ Hj)). reflexivity.
Qed.

Lemma fenced_reply_parses_alike_witness :
  json_loads reply_scenario_a
  = inr (VDict [ (py "course", VStr (py "CS 161"));
                 (py "events",
                  VList [ VDict [ (py "title", VStr (py "HW1"));
                                  (py "date", VStr (py "2025-09-01"));
                                  (py "type", VStr (py "Assignment")) ] ]) ])
  /\ parse_reply (Some (fenced (py "json") reply_scenario_a))
     = parse_reply (Some reply_scenario_a)
  /\ parse_reply (Some (fenced [] reply_scenario_a))
     = parse_reply (Some reply_scenario_a).
Proof.
  assert (H : json_loads reply_scenario_a
              = inr (VDict [ (py "course", VStr (py "CS 161"));
                             (py "events",
                              VList [ VDict [ (py "title", VStr (py "HW1"));
                                              (py "date", VStr (py "2025-09-01"));
                                              (py "type", VStr (py "Assignment")) ] ]) ]))
    by (vm_compute; reflexivity).
  split; [exact H |]. split.
  - exact (fenced_reply_parses_alike _ _ (py "json") H (or_intror eq_refl)).
  - exact (fenced_reply_parses_alike _ _ [] H (or_introl eq_refl)).
Defined.

(** Claim C2 as stated fails at the tag [python]: the opening pattern
    names the tag [json] only, so it removes the three backticks and leaves
    the tag, and what remains of the reply is not JSON, while the bare text
    is. *)
Lemma other_tag_is_not_stripped :
  json_loads (py "[]") = inr (VList [])
  /\ parse_reply (Some (py "[]")) = inr (None, [])
  /\ raw_of_reply (Some (fenced (py "python") (py "[]")))
     = py "python" ++ nl ++ py "[]"
  /\ parse_reply (Some (fenced (py "python") (py "[]")))
     = inl (invalid_json
              (MkJSONDecodeError msg_value (py "python" ++ nl ++ py "[]") 0)
              (py "python" ++ nl ++ py "[]"))
  /\ parse_reply (Some (fenced (py "python") (py "[]")))
     <> parse_reply (Some (py "[]")).
Proof.
  split; [reflexivity |]. split; [reflexivity |].
  split; [vm_compute; reflexivity |].
  split; [vm_compute; reflexivity |].
  vm_compute. discriminate.
Qed.

(* ------------------------------------------------------------------ *)
(** ** The request handlers *)
(* ------------------------------------------------------------------ *)

Section Requests.

(** The world the requests run in. *)
Variable w : World.

Lemma document_text_inv body text :
  document_text w body = Some text ->
  exists b bs pages,
    http_get w (strip (file_url body)) = inr (b :: bs)
    /\ pdf_pages w (b :: bs) = inr pages
    /\ strip (fold_left (fun t p => t ++ p ++ nl) pages []) = text
    /\ text <> [].
Proof.
  unfold document_text.
  destruct (http_get w (strip (file_url body))) as [e | [| b bs]]; try discriminate.
  destruct (pdf_pages w (b :: bs)) as [e | pages] eqn:Hp; try discriminate.
  unfold nonempty.
  destruct (strip _) as [| c t] eqn:Hs; try discriminate.
  intros H; injection H as <-.
  exists b, bs, pages. repeat split; auto. discriminate.
Qed.

(** Claim C8. When the fetch returns a body of length zero, the request
    fails with status 400; the only call made is the fetch: the model is not
    called and the store is not touched. *)
Theorem empty_body_is_rejected body s :
  http_get w (strip (file_url body)) = inr [] ->
  let calls := [CallGet (strip (file_url body))] in
  process_syllabus w body s
  = (inl (HTTPException 400 (py "PDF file is empty")), with_calls s calls)
  /\ existsb is_model_call calls = false
  /\ existsb is_persistence calls = false.
Proof.
  intros H calls. split; [| split; reflexivity].
  run_eff. simpl. rewrite H. reflexivity.
Qed.

(** What the request does up to the reply of the model. *)
Lemma process_after_reply body s text reply :
  document_text w body = Some text ->
  generate_content w (prompt_of text) = inr reply ->
  process_syllabus w body s
  = let s1 := with_calls s [CallGet (strip (file_url body));
                            CallGenerateContent (prompt_of text)] in
    match parse_reply reply with
    | inl e =>
        (inl (if is_ValueError e then HTTPException 502 (exc_str e)
              else reraised e), s1)
    | inr (course_from_ai, events_from_ai) =>
        let course :=
          str_or (course_override body)
            (str_or course_from_ai (py "Unnamed course")) in
        match rows_of_events w
                match user_id body with
                | Some (c :: t) => Some (strip (c :: t))
                | _ => None
                end
                (strip (str_or (source_filename body) (py "syllabus.pdf")))
                (strip (file_url body)) course 0 events_from_ai with
        | inl e => (inl (reraised e), s1)
        | inr [] => (inr (MkProcessResponse [] 0 course), s1)
        | inr (r :: rows) =>
            match insert_events w (r :: rows) s1 with
            | (inl e, s2) =>
                (inl (if is_Exception e
                      then HTTPException 500
                             (py "Could not save events to database: "
                              ++ exc_str e)
                      else PyExc e), s2)
            | (inr _, s2) =>
                (inr (MkProcessResponse (r :: rows)
                        (List.length (r :: rows)) course), s2)
            end
        end
    end.
Proof.
  intros Hd Hg.
  apply document_text_inv in Hd as (b & bs & pages & Hget & Hpdf & Htext & Hne).
  run_core. cbv zeta. simpl fst. simpl snd.
  unfold course_override, reraised, server_error.
  rewrite Hget. simpl. rewrite Hpdf. simpl. rewrite Htext.
  destruct text as [| c t]; [congruence |].
  simpl. rewrite <- app_assoc. simpl. rewrite Hg.
  destruct (parse_reply reply) as [e | [course evs]]; simpl.
  - split_flags; reflexivity.
  - destruct (rows_of_events _ _ _ _ _ _ _) as [e | [| r rows]];
      try reflexivity.
    + split_flags; reflexivity.
    + destruct (insert_events _ _ _) as [[e | u] s2]; [| reflexivity].
      split_flags; reflexivity.
Qed.

Lemma process_success_inv body s resp s' :
  process_syllabus w body s = (inr resp, s') ->
  exists text reply,
    document_text w body = Some text
    /\ generate_content w (prompt_of text) = inr reply.
Proof.
  unfold document_text. run_core. cbv zeta. simpl fst. simpl snd.
  destruct (http_get w (strip (file_url body))) as [e | [| b bs]]; simpl.
  - split_flags; discriminate.
  - discriminate.
  - destruct (pdf_pages w (b :: bs)) as [e | pages]; simpl;
      [split_flags; discriminate |].
    destruct (strip _) as [| c t] eqn:Hs; simpl; try discriminate.
    rewrite <- app_assoc. simpl.
    destruct (generate_content w _) as [e | reply] eqn:Hg; simpl.
    + split_flags; discriminate.
    + intros _. exists (c :: t), reply. split; [reflexivity |].
      unfold prompt_of. exact Hg.
Qed.

Lemma nonempty_some s c : nonempty s = Some c -> c = s /\ c <> [].
Proof. destruct s; simpl; [discriminate |]. intros H; injection H as <-. split; [reflexivity | discriminate]. Qed.

Lemma str_or_some c d : c <> [] -> str_or (Some c) d = c.
Proof. destruct c; [congruence | reflexivity]. Qed.

Lemma course_and_events_course data c evs :
  course_and_events data = inr (Some c, evs) -> c <> [].
Proof.
  destruct data; simpl; try (intros H; discriminate H).
  destruct (py_or _ _); try discriminate.
  intros H. injection H as H _. apply nonempty_some in H. tauto.
Qed.

Lemma parse_reply_course reply c evs :
  parse_reply reply = inr (Some c, evs) -> c <> [].
Proof.
  unfold parse_reply. destruct (json_loads _); [discriminate |].
  apply course_and_events_course.
Qed.

Lemma rows_of_events_spec user fn url course evs : forall i rows,
  rows_of_events w user fn url course i evs = inr rows ->
  List.length rows = List.length evs
  /\ Forall (fun r => row_course_name r = course) rows.
Proof.
  induction evs as [| ev evs IH]; intros i rows; simpl.
  - intros H; injection H as <-. split; [reflexivity | constructor].
  - destruct (row_of_event w user fn url course i ev) as [e | row] eqn:Hr; [discriminate |].
    destruct (rows_of_events w user fn url course (S i) evs) as [e | rows'] eqn:Hrs; [discriminate |].
    intros H; injection H as <-.
    destruct (IH _ _ Hrs) as [Hl Hf].
    split; [simpl; congruence |].
    constructor; [| exact Hf].
    unfold row_of_event in Hr. destruct ev; try discriminate.
    injection Hr as <-. reflexivity.
Qed.

(** Claim C7. In every successful request the course name of the response
    is the caller's course name when one is supplied (trimmed, and not
    empty), else the course the model reply gives when it gives one, else
    the placeholder [Unnamed course]; it is never empty, and every row
    carries it. *)
Theorem course_name_resolution body s resp s' :
  process_syllabus w body s = (inr resp, s') ->
  exists text reply course_from_ai events_from_ai,
    document_text w body = Some text
    /\ generate_content w (prompt_of text) = inr reply
    /\ parse_reply reply = inr (course_from_ai, events_from_ai)
    /\ resp_course_name resp
       = match course_override body, course_from_ai with
         | Some c, _ => c
         | None, Some c => c
         | None, None => py "Unnamed course"
         end
    /\ resp_course_name resp <> []
    /\ Forall (fun r => row_course_name r = resp_course_name resp)
         (resp_events resp).
Proof.
  intros H.
  destruct (process_success_inv _ _ _ _ H) as (text & reply & Hd & Hg).
  rewrite (process_after_reply _ s _ _ Hd Hg) in H. cbv zeta in H.
  destruct (parse_reply reply) as [e | [course evs]] eqn:Hp.
  { destruct (is_ValueError e); discriminate. }
  exists text, reply, course, evs.
  repeat (split; [assumption || reflexivity |]).
  set (name := str_or (course_override body) (str_or course (py "Unnamed course"))) in *.
  assert (Hname : name = match course_override body, course with
                         | Some c, _ => c
                         | None, Some c => c
                         | None, None => py "Unnamed course"
                         end /\ name <> []).
  { unfold name.
    destruct (course_override body) as [c |] eqn:Ho.
    - apply nonempty_some in Ho as [_ Hc]. rewrite (str_or_some _ _ Hc). auto.
    - destruct course as [c |].
      + pose proof (parse_reply_course _ _ _ Hp) as Hc.
        rewrite (str_or_some _ _ Hc). simpl. auto.
      + simpl. split; [reflexivity | discriminate]. }
  destruct Hname as [Hname Hne].
  destruct (rows_of_events _ _ _ _ _ _ _) as [e | rows] eqn:Hr; [discriminate |].
  apply rows_of_events_spec in Hr as [_ Hf].
  assert (Hresp : resp = MkProcessResponse rows (List.length rows) name).
  { destruct rows as [| r rows]; cbv beta iota in H.
    - injection H as <- _. reflexivity.
    - destruct (insert_events _ _ _) as [[e | u] s2]; [discriminate |].
      injection H as <- _. reflexivity. }
  subst resp. simpl. rewrite <- Hname. auto.
Qed.

(** Claim C1. When the reply of the model, trimmed and with its fence
    delimiters removed, is not valid JSON, the extraction raises a
    [ValueError] and the request fails with status 502; the detail carries
    the text of the JSON error and the first 500 characters, at most, of the
    reply as it was handed to the decoder; the only calls made are the fetch
    and the call to the model, none to the store. *)
Theorem malformed_reply_is_upstream_error body s text reply e :
  document_text w body = Some text ->
  generate_content w (prompt_of text) = inr reply ->
  json_loads (raw_of_reply reply) = inl e ->
  let raw := raw_of_reply reply in
  let detail :=
    py "Gemini did not return valid JSON: " ++ JSONDecodeError_str e ++ nl
    ++ py "Raw: " ++ firstn 500 raw in
  let calls := [CallGet (strip (file_url body));
                CallGenerateContent (prompt_of text)] in
  parse_reply reply = inl (ValueError detail)
  /\ process_syllabus w body s
     = (inl (HTTPException 502 detail), with_calls s calls)
  /\ List.length (firstn 500 raw) <= 500
  /\ existsb is_persistence calls = false.
Proof.
  intros Hd Hg Hj raw detail calls.
  assert (Hp : parse_reply reply = inl (ValueError detail)).
  { unfold parse_reply. rewrite Hj. reflexivity. }
  split; [exact Hp |].
  split.
  - rewrite (process_after_reply _ s _ _ Hd Hg). cbv zeta. rewrite Hp. reflexivity.
  - split; [apply firstn_le_length | reflexivity].
Qed.

(** Claim C10. When the reply decodes to a JSON value that is neither a
    list nor an object, the extraction returns no course and no events
    without raising, and the request succeeds with no rows, a count of 0 and
    the caller's course name or the placeholder; the only calls made are the
    fetch and the call to the model, none to the store. *)
Theorem scalar_reply_yields_no_events body s text reply v :
  document_text w body = Some text ->
  generate_content w (prompt_of text) = inr reply ->
  json_loads (raw_of_reply reply) = inr v ->
  is_list_or_dict v = false ->
  let calls := [CallGet (strip (file_url body));
                CallGenerateContent (prompt_of text)] in
  parse_reply reply = inr (None, [])
  /\ process_syllabus w body s
     = (inr (MkProcessResponse [] 0
               (str_or (course_override body) (py "Unnamed course"))),
        with_calls s calls)
  /\ existsb is_persistence calls = false.
Proof.
  intros Hd Hg Hj Hv calls.
  assert (Hp : parse_reply reply = inr (None, [])).
  { unfold parse_reply. rewrite Hj. destruct v; try reflexivity; discriminate. }
  split; [exact Hp |]. split; [| reflexivity].
  rewrite (process_after_reply _ s _ _ Hd Hg). cbv zeta. rewrite Hp. reflexivity.
Qed.

(** *** delete_class *)

Lemma get_supabase_available s :
  client_available w s = true ->
  exists c cs,
    get_supabase w s = (inr c, MkState (Some c) (table s) (trace s ++ cs))
    /\ Forall (fun k => exists u k', k = CallCreateClient u k') cs.
Proof.
  unfold client_available, get_supabase, bind, read_state, ret, raise, record_call, set_supabase.
  destruct s as [sup tb tr]; simpl.
  destruct sup as [c |].
  - intros _. exists c, []. rewrite app_nil_r. split; [reflexivity | constructor].
  - destruct (SUPABASE_URL w) as [| u us]; [discriminate |].
    destruct (SUPABASE_SERVICE_KEY w) as [| k ks]; [discriminate |].
    destruct (create_client w (u :: us) (k :: ks)); [discriminate |].
    intros _. eexists _, [_]. split; [reflexivity |].
    constructor; [eauto | constructor].
Qed.

Lemma get_supabase_unavailable s :
  client_available w s = false ->
  exists e s', get_supabase w s = (inl e, s') /\ table s' = table s.
Proof.
  unfold client_available, get_supabase, bind, read_state, ret, raise, record_call, set_supabase.
  destruct s as [sup tb tr]; simpl.
  destruct sup as [c |]; [discriminate |].
  destruct (SUPABASE_URL w) as [| u us]; [intros _; eauto |].
  destruct (SUPABASE_SERVICE_KEY w) as [| k ks]; [intros _; eauto |].
  destruct (create_client w (u :: us) (k :: ks)); [| discriminate].
  intros _. simpl. eauto.
Qed.

Lemma filter_none {A : Type} (f : A -> bool) (l : list A) :
  Forall (fun r => f r = false) l -> filter (fun r => negb (f r)) l = l.
Proof.
  induction 1 as [| r t Hr _ IH]; simpl; [reflexivity |].
  rewrite Hr. simpl. f_equal. exact IH.
Qed.

(** Claim C9. When the delete operation of the store (obtaining the client,
    then the delete itself) does not raise, [delete_class] answers
    [{"status": "ok"}]; when it raises an error (an [Exception], as every
    error of the store is), [delete_class] fails with status 500.
    The operation does complete whenever a client is at hand and the delete
    does not raise, whatever the rows: the table then loses exactly the rows
    of that user and course, none at all when no row matches. *)
Theorem delete_class_outcomes body s :
  let user := del_user_id body in
  let course := del_course_name body in
  (forall s',
     delete_events w user course s = (inr tt, s') ->
     delete_class w body s = (inr status_ok, s'))
  /\ (forall e s',
        delete_events w user course s = (inl e, s') ->
        is_Exception e = true ->
        delete_class w body s
        = (inl (HTTPException 500
                  (py "Could not delete class events: " ++ exc_str e)), s'))
  /\ (client_available w s = true ->
      delete_execute w (calls_before_delete w s) user course = None ->
      exists s',
        delete_events w user course s = (inr tt, s')
        /\ table s'
           = filter (fun r => negb (row_matches user course r)) (table s)
        /\ (Forall (fun r => row_matches user course r = false) (table s) ->
            table s' = table s)).
Proof.
  intros user course.
  unfold delete_class, try_except, bind, ret, raise. fold user course.
  split; [| split].
  - intros s' ->. reflexivity.
  - intros e s' -> ->. reflexivity.
  - unfold calls_before_delete. intros Ha He.
    unfold delete_events, bind, ret, raise, record_call, read_state, set_table.
    destruct (get_supabase_available _ Ha) as (c & cs & Hg & _).
    rewrite Hg in *. cbn [snd trace] in He. cbn [trace]. rewrite He. simpl.
    eexists. split; [reflexivity |]. simpl. split; [reflexivity |].
    apply filter_none.
Qed.

Lemma course_usable_is_str d :
  course_usable d = true ->
  exists c, py_or (dict_get d (py "course")) (VStr []) = VStr c.
Proof.
  unfold course_usable, py_or.
  destruct (dict_get d (py "course")) as [v |]; [| eauto].
  destruct (truthy v) eqn:Ht; [| eauto].
  destruct v; eauto; intros H; simpl in Ht, H;
    solve [discriminate | rewrite Ht in H; discriminate].
Qed.

(** Property X27. A reply that decodes to a list gives no course and that
    list as the events.  For a reply that decodes to an object whose
    [course] field is absent, falsy or a string: when its [events] field is
    a single object the events are the one-element list of that object, and
    when it is absent or neither a list nor an object the events are the
    empty list. *)
Theorem reply_shapes text data :
  json_loads (raw_of_reply text) = inr data ->
  (forall d, data = VDict d -> course_usable d = true) ->
  (forall l, data = VList l -> parse_reply text = inr (None, l))
  /\ (forall d e,
        data = VDict d ->
        dict_get d (py "events") = Some (VDict e) ->
        exists course, parse_reply text = inr (course, [VDict e]))
  /\ (forall d,
        data = VDict d ->
        match dict_get d (py "events") with
        | Some v => is_list_or_dict v = false
        | None => True
        end ->
        exists course, parse_reply text = inr (course, [])).
Proof.
  intros Hj Hc. unfold parse_reply. rewrite Hj.
  split; [| split].
  - intros l ->. reflexivity.
  - intros d e -> He.
    destruct (course_usable_is_str _ (Hc d eq_refl)) as [c Hcs].
    unfold course_and_events. rewrite Hcs, He. eauto.
  - intros d -> He.
    destruct (course_usable_is_str _ (Hc d eq_refl)) as [c Hcs].
    unfold course_and_events. rewrite Hcs.
    destruct (dict_get d (py "events")) as [v |]; [| eauto].
    destruct v; try discriminate; eauto.
Qed.

Lemma rows_of_events_nth user fn url course evs : forall i rows k ev,
  rows_of_events w user fn url course i evs = inr rows ->
  nth_error evs k = Some ev ->
  exists row,
    nth_error rows k = Some row
    /\ row_of_event w user fn url course (i + k) ev = inr row.
Proof.
  induction evs as [| e evs IH]; intros i rows k ev; simpl.
  - destruct k; discriminate.
  - destruct (row_of_event w user fn url course i e) as [x | row] eqn:Hr; [discriminate |].
    destruct (rows_of_events w user fn url course (S i) evs) as [x | rows'] eqn:Hrs; [discriminate |].
    intros H; injection H as <-.
    destruct k as [| k]; simpl.
    + intros H; injection H as <-. exists row. rewrite Nat.add_0_r. auto.
    + intros Hk. destruct (IH _ _ _ _ Hrs Hk) as [row' [H1 H2]].
      exists row'. split; [exact H1 |].
      replace (i + S k) with (S i + k) by lia. exact H2.
Qed.

Lemma get_supabase_table s r s1 :
  get_supabase w s = (r, s1) -> table s1 = table s.
Proof.
  unfold get_supabase, bind, read_state, ret, raise, record_call, set_supabase.
  destruct (_supabase s).
  - intros H; injection H as _ <-. reflexivity.
  - destruct (SUPABASE_URL w); [intros H; injection H as _ <-; reflexivity |].
    destruct (SUPABASE_SERVICE_KEY w); [intros H; injection H as _ <-; reflexivity |].
    destruct (create_client w _ _); intros H; injection H as _ <-; reflexivity.
Qed.

Lemma insert_events_table rows s u s2 :
  insert_events w rows s = (inr u, s2) -> table s2 = table s ++ rows.
Proof.
  unfold insert_events, bind, read_state, ret, raise, record_call, set_table.
  destruct (get_supabase w s) as [[e | c] s1] eqn:Hg; [discriminate |].
  apply get_supabase_table in Hg.
  destruct (insert_execute w rows); [discriminate |].
  intros H; injection H as _ <-. simpl. congruence.
Qed.

(** Property X29. In every successful request the rows returned are the
    rows added to the table, after those it held; there is one row per event
    of the reply, in the order of the events, and an event that supplies no
    parseable date gets the date of the clock. *)
Theorem rows_are_stored_as_returned body s resp s' :
  process_syllabus w body s = (inr resp, s') ->
  table s' = table s ++ resp_events resp
  /\ exists text reply course evs,
       document_text w body = Some text
       /\ generate_content w (prompt_of text) = inr reply
       /\ parse_reply reply = inr (course, evs)
       /\ List.length (resp_events resp) = List.length evs
       /\ forall i d,
            nth_error evs i = Some (VDict d) ->
            no_date w (date_field d) = true ->
            option_map event_date (nth_error (resp_events resp) i)
            = Some (strftime_ymd (now w i)).
Proof.
  intros H.
  destruct (process_success_inv _ _ _ _ H) as (text & reply & Hd & Hg).
  rewrite (process_after_reply _ s _ _ Hd Hg) in H. cbv zeta in H.
  destruct (parse_reply reply) as [e | [course evs]] eqn:Hp.
  { destruct (is_ValueError e); discriminate. }
  destruct (rows_of_events _ _ _ _ _ _ _) as [e | rows] eqn:Hr; [discriminate |].
  assert (Hresp : resp_events resp = rows /\ table s' = table s ++ rows).
  { destruct rows as [| r rows]; cbv beta iota in H.
    - injection H as <- <-. simpl. rewrite app_nil_r. auto.
    - destruct (insert_events _ _ _) as [[e | u] s2] eqn:Hi; [discriminate |].
      injection H as <- <-. apply insert_events_table in Hi. simpl in *. auto. }
  destruct Hresp as [-> Ht].
  split; [exact Ht |].
  exists text, reply, course, evs.
  repeat (split; [assumption |]).
  split; [eapply rows_of_events_spec; exact Hr |].
  intros i d Hi Hn.
  destruct (rows_of_events_nth _ _ _ _ _ _ _ _ _ Hr Hi) as [row [H1 H2]].
  rewrite H1. simpl. f_equal.
  unfold row_of_event in H2. injection H2 as <-. simpl.
  apply no_date_today. exact Hn.
Qed.

End Requests.

(** *** The handlers on concrete requests *)

(** Scenario A of the specification: one event, dated and typed. *)
Example scenario_a :
  exists row s',
    process_syllabus (quiet_world (Some reply_scenario_a)) sample_request
      initial_state
    = (inr (MkProcessResponse [row] 1 (py "CS 161")), s')
    /\ event_date row = py "2025-09-01"
    /\ event_description row = Some (py "Type: Assignment")
    /\ table s' = [row]
    /\ map is_persistence (trace s') = [false; false; true; true].
Proof.
  eexists. eexists. split; [vm_compute; reflexivity |].
  repeat apply conj; reflexivity.
Qed.

Lemma empty_body_is_rejected_witness :
  http_get empty_body_world (strip (file_url sample_request)) = inr []
  /\ process_syllabus empty_body_world sample_request initial_state
     = (inl (HTTPException 400 (py "PDF file is empty")),
        with_calls initial_state [CallGet (strip (file_url sample_request))]).
Proof.
  split; [reflexivity |].
  apply (empty_body_is_rejected empty_body_world sample_request initial_state).
  reflexivity.
Defined.

Lemma course_name_resolution_witness :
  exists resp s',
    process_syllabus (quiet_world (Some reply_scenario_a)) override_request
      initial_state = (inr resp, s')
    /\ parse_reply (Some reply_scenario_a)
       = inr (Some (py "CS 161"),
              [ VDict [ (py "title", VStr (py "HW1"));
                        (py "date", VStr (py "2025-09-01"));
                        (py "type", VStr (py "Assignment")) ] ])
    /\ resp_course_name resp = py "BIO 101"
    /\ Forall (fun r => row_course_name r = py "BIO 101") (resp_events resp).
Proof.
  destruct (process_syllabus (quiet_world (Some reply_scenario_a))
              override_request initial_state) as [[e | resp] s'] eqn:H;
    [vm_compute in H; discriminate |].
  exists resp, s'. split; [reflexivity |].
  split; [vm_compute; reflexivity |].
  destruct (course_name_resolution _ _ _ _ _ H)
    as (text & reply & c & evs & _ & _ & _ & Hname & _ & Hrows).
  change (course_override override_request) with (Some (py "BIO 101")) in Hname.
  rewrite Hname in Hrows. split; assumption.
Defined.

Lemma malformed_reply_is_upstream_error_witness :
  document_text (quiet_world (Some reply_not_json)) sample_request
  = Some (py "syllabus")
  /\ json_loads (raw_of_reply (Some reply_not_json))
     = inl (MkJSONDecodeError msg_value reply_not_json 0)
  /\ process_syllabus (quiet_world (Some reply_not_json)) sample_request
       initial_state
     = (inl (HTTPException 502
               (py "Gemini did not return valid JSON: "
                ++ py "Expecting value: line 1 column 1 (char 0)" ++ nl
                ++ py "Raw: " ++ reply_not_json)),
        with_calls initial_state
          [CallGet sample_url; CallGenerateContent (prompt_of (py "syllabus"))]).
Proof.
  assert (Hd : document_text (quiet_world (Some reply_not_json)) sample_request
               = Some (py "syllabus")) by reflexivity.
  assert (Hj : json_loads (raw_of_reply (Some reply_not_json))
               = inl (MkJSONDecodeError msg_value reply_not_json 0))
    by (vm_compute; reflexivity).
  split; [exact Hd |]. split; [exact Hj |].
  exact (proj1 (proj2
           (malformed_reply_is_upstream_error
              (quiet_world (Some reply_not_json)) sample_request initial_state
              (py "syllabus") (Some reply_not_json) _ Hd eq_refl Hj))).
Defined.

Lemma scalar_reply_yields_no_events_witness :
  document_text (quiet_world (Some reply_scalar)) sample_request
  = Some (py "syllabus")
  /\ json_loads (raw_of_reply (Some reply_scalar)) = inr (VInt 42)
  /\ process_syllabus (quiet_world (Some reply_scalar)) sample_request
       initial_state
     = (inr (MkProcessResponse [] 0 (py "Unnamed course")),
        with_calls initial_state
          [CallGet sample_url; CallGenerateContent (prompt_of (py "syllabus"))]).
Proof.
  assert (Hd : document_text (quiet_world (Some reply_scalar)) sample_request
               = Some (py "syllabus")) by reflexivity.
  assert (Hj : json_loads (raw_of_reply (Some reply_scalar)) = inr (VInt 42))
    by (vm_compute; reflexivity).
  split; [exact Hd |]. split; [exact Hj |].
  exact (proj1 (proj2
           (scalar_reply_yields_no_events
              (quiet_world (Some reply_scalar)) sample_request initial_state
              (py "syllabus") (Some reply_scalar) _ Hd eq_refl Hj eq_refl))).
Defined.

Lemma delete_class_outcomes_witness :
  client_available (quiet_world None) stocked_state = true
  /\ delete_execute (quiet_world None)
       (calls_before_delete (quiet_world None) stocked_state)
       (del_user_id sample_delete) (del_course_name sample_delete) = None
  /\ Forall (fun r => row_matches (del_user_id sample_delete)
                        (del_course_name sample_delete) r = false)
       (table stocked_state)
  /\ exists s',
       delete_class (quiet_world None) sample_delete stocked_state
       = (inr status_ok, s')
       /\ table s' = table stocked_state.
Proof.
  assert (Ha : client_available (quiet_world None) stocked_state = true)
    by reflexivity.
  assert (He : delete_execute (quiet_world None)
                 (calls_before_delete (quiet_world None) stocked_state)
                 (del_user_id sample_delete) (del_course_name sample_delete)
               = None) by reflexivity.
  assert (Hn : Forall (fun r => row_matches (del_user_id sample_delete)
                                  (del_course_name sample_delete) r = false)
                 (table stocked_state))
    by (constructor; [reflexivity | constructor]).
  split; [exact Ha |]. split; [exact He |]. split; [exact Hn |].
  destruct (delete_class_outcomes (quiet_world None) sample_delete
              stocked_state) as (Hok & _ & Hrun).
  destruct (Hrun Ha He) as (s' & Hd & _ & Hsame).
  exists s'. split; [exact (Hok s' Hd) | exact (Hsame Hn)].
Defined.

Lemma reply_shapes_witness :
  json_loads (raw_of_reply (Some reply_single_event))
  = inr (VDict [ (py "course", VStr (py "CS 161"));
                 (py "events", VDict [ (py "title", VStr (py "HW1")) ]) ])
  /\ exists course,
       parse_reply (Some reply_single_event)
       = inr (course, [ VDict [ (py "title", VStr (py "HW1")) ] ]).
Proof.
  assert (Hj : json_loads (raw_of_reply (Some reply_single_event))
               = inr (VDict [ (py "course", VStr (py "CS 161"));
                              (py "events",
                               VDict [ (py "title", VStr (py "HW1")) ]) ]))
    by (vm_compute; reflexivity).
  split; [exact Hj |].
  refine (proj1 (proj2 (reply_shapes _ _ Hj _)) _ _ eq_refl eq_refl).
  intros d Hd. injection Hd as <-. reflexivity.
Defined.

(** Claim C3. The code departs from the claim when the [course] field is
    a truthy value that is not a string: line 119 calls [.strip()] on it
    before the events are looked at. The reply
    [{"course":161,"events":{"title":"HW1"}}] has a single object as its
    events; instead of the one-element list of that object it yields an
    [AttributeError], which the endpoint reports with status 500. *)
Theorem numeric_course_breaks_reply :
  json_loads (raw_of_reply (Some reply_numeric_course))
  = inr (VDict [ (py "course", VInt 161);
                 (py "events", VDict [ (py "title", VStr (py "HW1")) ]) ])
  /\ parse_reply (Some reply_numeric_course)
     = inl (AttributeError (py "'int' object has no attribute 'strip'"))
  /\ (forall course,
        parse_reply (Some reply_numeric_course)
        <> inr (course, [ VDict [ (py "title", VStr (py "HW1")) ] ]))
  /\ fst (process_syllabus (quiet_world (Some reply_numeric_course))
            sample_request initial_state)
     = inl (HTTPException 500
              (py "Server error: AttributeError: "
               ++ py "'int' object has no attribute 'strip'")).
Proof.
  assert (Hp : parse_reply (Some reply_numeric_course)
               = inl (AttributeError
                        (py "'int' object has no attribute 'strip'")))
    by (vm_compute; reflexivity).
  split; [vm_compute; reflexivity |]. split; [exact Hp |].
  split; [intros course; rewrite Hp; discriminate |].
  vm_compute. reflexivity.
Qed.

Lemma rows_are_stored_as_returned_witness :
  exists resp s',
    process_syllabus (quiet_world (Some reply_undated)) sample_request
      initial_state = (inr resp, s')
    /\ table s' = table initial_state ++ resp_events resp
    /\ map event_date (resp_events resp) = [py "2026-11-03"].
Proof.
  destruct (process_syllabus (quiet_world (Some reply_undated)) sample_request
              initial_state) as [[e | resp] s'] eqn:H;
    [vm_compute in H; discriminate |].
  exists resp, s'. split; [reflexivity |].
  destruct (rows_are_stored_as_returned _ _ _ _ _ H) as (Htable & _).
  split; [exact Htable |].
  vm_compute in H. injection H as <- _. reflexivity.
Defined.

(** Claim C4. The claim holds for the years of four digits only.  The
    date [03/15/0999] is read by the format [%m/%d/%Y] and printed as
    [999-03-15], since [strftime] does not pad the year: the result of
    [parse_event_date] is not of the form [\d{4}-\d{2}-\d{2}], and the row
    stored for such an event carries it. *)
Theorem short_year_breaks_canonical_form :
  parse_event_date (quiet_world None) today_example (VStr (py "03/15/0999"))
  = py "999-03-15"
  /\ canonical (py "999-03-15") = false
  /\ exists row s',
       process_syllabus (quiet_world (Some reply_short_year)) sample_request
         initial_state
       = (inr (MkProcessResponse [row] 1 (py "Unnamed course")), s')
       /\ event_date row = py "999-03-15"
       /\ table s' = [row].
Proof.
  split; [vm_compute; reflexivity |]. split; [reflexivity |].
  eexists. eexists. split; [vm_compute; reflexivity |].
  split; reflexivity.
Qed.

(* ------------------------------------------------------------------ *)
(** ** Further properties of the code *)
(* ------------------------------------------------------------------ *)

(** *** Trimming *)

Lemma lstrip_blank s : blank s = true -> lstrip s = [].
Proof.
  intros H. rewrite <- (app_nil_r s). rewrite lstrip_spaces_app; auto.
Qed.

Lemma blank_rev s : blank (rev s) = blank s.
Proof.
  unfold blank. apply eq_true_iff_eq. rewrite !forallb_forall.
  split; intros H x Hx; apply H; apply in_rev; [rewrite rev_involutive |];
    exact Hx.
Qed.

Lemma blank_app a b : blank (a ++ b) = blank a && blank b.
Proof. apply forallb_app. Qed.

Lemma strip_blank s : blank s = true -> strip s = [].
Proof. intros H. unfold strip. rewrite (lstrip_blank _ H). reflexivity. Qed.

Lemma strip_nil_blank s : strip s = [] -> blank s = true.
Proof.
  unfold strip. intros H.
  destruct (lstrip_split s) as (w1 & E1 & H1).
  destruct (rstrip_split (lstrip s)) as (w2 & E2 & H2).
  rewrite H in E2. simpl in E2. rewrite E1, E2, blank_app.
  unfold blank. rewrite H1, H2. reflexivity.
Qed.

Lemma rstrip_spaces_app s w : blank w = true -> rstrip (s ++ w) = rstrip s.
Proof.
  intros H. unfold rstrip. rewrite rev_app_distr, lstrip_spaces_app; auto.
  fold (blank (rev w)). rewrite blank_rev. exact H.
Qed.

(** Whitespace around a text does not change what [strip] returns. *)
Lemma strip_pad w1 s w2 :
  blank w1 = true -> blank w2 = true -> strip (w1 ++ s ++ w2) = strip s.
Proof.
  intros H1 H2. unfold strip. rewrite (lstrip_spaces_app _ _ H1).
  destruct (lstrip s) as [| c t] eqn:E.
  - assert (Hs : blank s = true).
    { destruct (lstrip_split s) as (w & Ew & Hw). rewrite E, app_nil_r in Ew.
      subst s. exact Hw. }
    rewrite lstrip_blank; [reflexivity |].
    rewrite blank_app, Hs, H2. reflexivity.
  - rewrite lstrip_app by congruence. rewrite E.
    apply rstrip_spaces_app. exact H2.
Qed.

(** What [strip] returns is empty or has no whitespace at either end. *)
Lemma strip_ends s :
  strip s = [] \/ exists c, is_space c = false /\
    (strip s = [c] \/ exists l c', is_space c' = false /\ strip s = c :: l ++ [c']).
Proof.
  destruct (strip s) as [| c t] eqn:E; [left; reflexivity | right].
  exists c.
  assert (Hc : is_space c = false).
  { unfold strip in E.
    destruct (lstrip s) as [| x l] eqn:El; [discriminate |].
    pose proof (lstrip_head _ _ _ El) as Hx.
    destruct (rstrip_split (x :: l)) as (w & Ew & Hw).
    rewrite E in Ew. injection Ew as -> _. exact Hx. }
  split; [exact Hc |].
  destruct t as [| c0 t]; [left; reflexivity | right].
  destruct (@exists_last _ (c0 :: t)) as (l & c' & Hl); [discriminate |].
  exists l, c'. rewrite Hl. split; [| reflexivity].
  apply (strip_last s (c :: l)). rewrite E, Hl. reflexivity.
Qed.

Lemma strip_idem s : strip (strip s) = strip s.
Proof.
  destruct (strip_ends s) as [-> | (c & Hc & [-> | (l & c' & Hc' & ->)])].
  - reflexivity.
  - unfold strip. rewrite (lstrip_nonspace _ _ Hc).
    apply (rstrip_fixed [] c Hc).
  - apply strip_fixed; assumption.
Qed.

(** *** Whitespace around a date *)

(** Property X1. Whitespace before and after the text of a date does not change the
    result; a text of whitespace only is treated like the empty text. *)
Theorem date_whitespace_is_ignored w today pre s post :
  blank pre = true -> blank post = true ->
  parse_event_date w today (VStr (pre ++ s ++ post))
  = parse_event_date w today (VStr s).
Proof.
  intros Hpre Hpost. unfold parse_event_date. cbn [py_str].
  rewrite (strip_pad _ _ _ Hpre Hpost).
  destruct s as [| c t].
  - cbn [truthy negb]. cbv iota.
    destruct (pre ++ [] ++ post); reflexivity.
  - replace (truthy (VStr (pre ++ (c :: t) ++ post))) with true;
      [reflexivity |].
    destruct pre; reflexivity.
Qed.

Lemma date_whitespace_is_ignored_witness :
  blank (py "  ") = true
  /\ blank nl = true
  /\ parse_event_date (quiet_world None) today_example
       (VStr (py "  " ++ py "March 15, 2025" ++ nl))
     = parse_event_date (quiet_world None) today_example
         (VStr (py "March 15, 2025")).
Proof.
  split; [reflexivity |]. split; [reflexivity |].
  apply (date_whitespace_is_ignored (quiet_world None) today_example
           (py "  ") (py "March 15, 2025") nl);
    reflexivity.
Defined.

(** *** ISO dates without leading zeros *)

Lemma month_alts_dash two m rest pos gs :
  (1 <= m <= 12)%N ->
  hd_error (rx month_alts
              (MState pos (day_number two m ++ chr "-" :: rest) gs))
  = Some (MState (List.length (day_number two m) + pos) (chr "-" :: rest) gs).
Proof.
  intros H. apply in_1_12 in H.
  destruct two; each_in H; vm_compute; reflexivity.
Qed.

Lemma day_alts_end two d pos gs :
  (1 <= d <= 31)%N ->
  hd_error (rx day_alts (MState pos (day_number two d ++ []) gs))
  = Some (MState (List.length (day_number two d) + pos) [] gs).
Proof.
  intros H. apply in_1_31 in H.
  destruct two; each_in H; vm_compute; reflexivity.
Qed.

Lemma strptime_render_iso tm td d :
  exists d', strptime (render_iso tm td d) iso_format = Some d'
             /\ strftime_ymd d' = strftime_ymd d.
Proof.
  destruct (date_bounds d) as (Hy & Hm & Hd).
  destruct (mk_date_of d) as (d' & Hmk & Hs).
  exists d'. split; [| exact Hs]. rewrite <- Hmk.
  unfold render_iso. change (py "-") with [chr "-"]. cbn [app].
  eapply strptime_found.
  - reflexivity.
  - eapply rx_seq_head; [apply rx_group_head, year_digits_head |].
    apply rx_chari_head; [reflexivity |].
    eapply rx_seq_head; [apply rx_group_head, month_alts_dash, Hm |].
    apply rx_chari_head; [reflexivity |].
    eapply rx_seq_head.
    + rewrite <- (app_nil_r (day_number td (day d))).
      apply rx_group_head, day_alts_end, Hd.
    + reflexivity.
  - reflexivity.
  - apply py_int_year. lia.
  - apply (py_int_day tm). lia.
  - apply py_int_day. exact Hd.
Qed.

Lemma day_number_cases two n :
  day_number two n = zero_pad 2 n
  \/ day_number two n = [(48 + n mod 10)%N].
Proof. unfold day_number. destruct (_ || _); [left | right]; reflexivity. Qed.

Lemma canonical_render_iso tm td d :
  (1000 <= year d)%N ->
  canonical (render_iso tm td d) = true ->
  render_iso tm td d = strftime_ymd d.
Proof.
  intros Hy. rewrite (strftime_padded _ Hy). unfold render_iso.
  destruct (day_number_cases tm (month d)) as [-> | ->];
    destruct (day_number_cases td (day d)) as [-> | ->];
    try reflexivity;
    rewrite zero_pad_4, ?zero_pad_2; change (py "-") with [chr "-"];
    cbn [app canonical]; discriminate.
Qed.

Lemma strip_render_iso tm td d : strip (render_iso tm td d) = render_iso tm td d.
Proof.
  unfold render_iso.
  assert (Hs : forall n, is_space (48 + n mod 10)%N = false)
    by auto with chars.
  destruct (day_number_cases tm (month d)) as [-> | ->];
    destruct (day_number_cases td (day d)) as [-> | ->];
    rewrite zero_pad_4, ?zero_pad_2; change (py "-") with [chr "-"];
    cbn [app].
  - apply (strip_fixed _ [_; _; _; _; _; _; _; _] _ (Hs _) (Hs _)).
  - apply (strip_fixed _ [_; _; _; _; _; _; _] _ (Hs _) (Hs _)).
  - apply (strip_fixed _ [_; _; _; _; _; _; _] _ (Hs _) (Hs _)).
  - apply (strip_fixed _ [_; _; _; _; _; _] _ (Hs _) (Hs _)).
Qed.

(** Property X2. A date in the ISO order whose month or day is written without a
    leading zero is returned with both padded to two digits.  The statement
    is kept to the years from 1000 on, which are printed in four digits. *)
Theorem unpadded_iso_is_normalised w today two_m two_d d :
  (1000 <= year d)%N ->
  parse_event_date w today (VStr (render_iso two_m two_d d)) = strftime_ymd d.
Proof.
  intros Hy. unfold parse_event_date.
  assert (Ht : truthy (VStr (render_iso two_m two_d d)) = true).
  { unfold render_iso. rewrite zero_pad_4. reflexivity. }
  rewrite Ht. cbn [negb py_str]. cbv iota.
  destruct (re_match _ _) eqn:Hm.
  - apply stripped_match_canonical in Hm. rewrite strip_render_iso in *.
    apply canonical_render_iso; assumption.
  - rewrite strip_render_iso.
    destruct (strptime_render_iso two_m two_d d) as (d' & Hp & Hs).
    change date_formats with (iso_format :: tl date_formats).
    cbn [first_parse]. rewrite Hp. exact Hs.
Qed.

Lemma unpadded_iso_is_normalised_witness :
  (1000 <= year (MkDate 2025 3 5 eq_refl))%N
  /\ render_iso false false (MkDate 2025 3 5 eq_refl) = py "2025-3-5"
  /\ parse_event_date (quiet_world None) today_example
       (VStr (render_iso false false (MkDate 2025 3 5 eq_refl)))
     = py "2025-03-05".
Proof.
  assert (H : (1000 <= year (MkDate 2025 3 5 eq_refl))%N) by (simpl; lia).
  split; [exact H |]. split; [reflexivity |].
  exact (unpadded_iso_is_normalised (quiet_world None) today_example
           false false (MkDate 2025 3 5 eq_refl) H).
Defined.

(** *** Dates that do not exist *)

Lemma mk_date_none y m d : valid_ymd y m d = false -> mk_date y m d = None.
Proof.
  intros Hv. unfold mk_date.
  generalize (eq_refl (valid_ymd y m d)).
  generalize (valid_ymd y m d) at 2 3.
  intros b. destruct b; [congruence | reflexivity].
Qed.

Lemma strptime_render_ymd f two y m d :
  (y <= 9999)%N -> (1 <= m <= 12)%N -> (1 <= d <= 31)%N ->
  strptime (render_ymd f two y m d) (format_of f) = mk_date y m d.
Proof.
  intros Hy Hm Hd.
  destruct f; unfold render_ymd, format_of; space_lit.
  - eapply strptime_found.
    + reflexivity.
    + eapply rx_seq_head; [apply rx_group_head, month_alts_head, Hm |].
      apply rx_chari_head; [reflexivity |].
      eapply rx_seq_head;
        [apply rx_group_head, day_alts_head; [exact Hd | simpl; auto] |].
      apply rx_chari_head; [reflexivity |].
      eapply rx_seq_head.
      * rewrite <- (app_nil_r (zero_pad 4 y)).
        apply rx_group_head, year_digits_head.
      * reflexivity.
    + reflexivity.
    + apply py_int_year. lia.
    + apply (py_int_day two). lia.
    + apply py_int_day. exact Hd.
  - eapply strptime_found.
    + reflexivity.
    + eapply rx_seq_head; [apply rx_group_head, month_name_head, Hm |].
      apply rx_spaces_head; [apply nonspace_head_app, nonspace_head_day |].
      eapply rx_seq_head;
        [apply rx_group_head, day_alts_head; [exact Hd | simpl; auto] |].
      apply rx_chari_head; [reflexivity |].
      apply rx_spaces_head; [apply nonspace_head_year |].
      eapply rx_seq_head.
      * rewrite <- (app_nil_r (zero_pad 4 y)).
        apply rx_group_head, year_digits_head.
      * reflexivity.
    + reflexivity.
    + apply py_int_year. lia.
    + apply index_month_name. exact Hm.
    + apply py_int_day. exact Hd.
  - eapply strptime_found.
    + reflexivity.
    + eapply rx_seq_head; [apply rx_group_head, month_abbr_head, Hm |].
      apply rx_spaces_head; [apply nonspace_head_app, nonspace_head_day |].
      eapply rx_seq_head;
        [apply rx_group_head, day_alts_head; [exact Hd | simpl; auto] |].
      apply rx_chari_head; [reflexivity |].
      apply rx_spaces_head; [apply nonspace_head_year |].
      eapply rx_seq_head.
      * rewrite <- (app_nil_r (zero_pad 4 y)).
        apply rx_group_head, year_digits_head.
      * reflexivity.
    + reflexivity.
    + apply py_int_year. lia.
    + apply index_month_abbr. exact Hm.
    + apply py_int_day. exact Hd.
  - eapply strptime_found.
    + reflexivity.
    + eapply rx_seq_head;
        [apply rx_group_head, day_alts_head; [exact Hd | simpl; auto] |].
      apply rx_spaces_head;
        [apply nonspace_head_app, nonspace_head_name, Hm |].
      eapply rx_seq_head; [apply rx_group_head, month_name_head, Hm |].
      apply rx_spaces_head; [apply nonspace_head_year |].
      eapply rx_seq_head.
      * rewrite <- (app_nil_r (zero_pad 4 y)).
        apply rx_group_head, year_digits_head.
      * reflexivity.
    + reflexivity.
    + apply py_int_year. lia.
    + apply index_month_name. exact Hm.
    + apply py_int_day. exact Hd.
Qed.

Lemma month_number_not_after two m rest :
  (1 <= m <= 12)%N ->
  let s := day_number two m ++ chr "/" :: rest in
  strptime s (format_of LongMonth) = None
  /\ strptime s (format_of AbbrMonth) = None
  /\ strptime s (format_of DayFirst) = None.
Proof.
  intros H. apply in_1_12 in H.
  destruct two; each_in H; cbv zeta; repeat apply conj; vm_compute; reflexivity.
Qed.

Lemma month_name_not_after m rest :
  (1 <= m <= 12)%N ->
  let s := month_name m ++ chr " " :: rest in
  (m <> 5%N -> strptime s (format_of AbbrMonth) = None)
  /\ strptime s (format_of DayFirst) = None.
Proof.
  intros H. apply in_1_12 in H.
  each_in H; cbv zeta; repeat apply conj;
    try (intros Hm; try (exfalso; apply Hm; reflexivity));
    vm_compute; reflexivity.
Qed.

Lemma month_abbr_not_after m rest :
  (1 <= m <= 12)%N ->
  strptime (month_abbr m ++ chr " " :: rest) (format_of DayFirst) = None.
Proof.
  intros H. apply in_1_12 in H. each_in H; vm_compute; reflexivity.
Qed.

Lemma render_ymd_nonspace_head f two y m d :
  (1 <= m <= 12)%N -> nonspace_head (render_ymd f two y m d).
Proof.
  intros Hm.
  destruct f; unfold render_ymd; apply nonspace_head_app;
    auto using nonspace_head_day, nonspace_head_name, nonspace_head_abbr.
Qed.

Lemma strip_render_ymd f two y m d :
  (1 <= m <= 12)%N -> strip (render_ymd f two y m d) = render_ymd f two y m d.
Proof.
  intros Hm. unfold strip.
  rewrite (lstrip_nonspace_head _ (render_ymd_nonspace_head f two y m d Hm)).
  destruct (rstrip_year y) as [Hy Hne].
  destruct f; unfold render_ymd;
    repeat (apply rstrip_app; try assumption).
Qed.

Lemma first_parse_render_ymd f two y m d :
  (y <= 9999)%N -> (1 <= m <= 12)%N -> (1 <= d <= 31)%N ->
  valid_ymd y m d = false ->
  re_match canonical_date_re (render_ymd f two y m d) = None
  /\ first_parse (render_ymd f two y m d) date_formats = None.
Proof.
  intros Hy Hm Hd Hv.
  change date_formats
    with [iso_format; format_of UsSlash; format_of LongMonth;
          format_of AbbrMonth; format_of DayFirst].
  pose proof (mk_date_none _ _ _ Hv) as Hnone.
  pose proof (fun f => strptime_render_ymd f two y m d Hy Hm Hd) as Hp.
  assert (H5 : m = 5%N ->
               render_ymd AbbrMonth two y m d = render_ymd LongMonth two y m d).
  { intros ->. reflexivity. }
  pose proof (Hp UsSlash) as Hus. pose proof (Hp LongMonth) as Hlong.
  pose proof (Hp AbbrMonth) as Habbr. pose proof (Hp DayFirst) as Hday.
  rewrite Hnone in Hus, Hlong, Habbr, Hday. clear Hp.
  destruct f; unfold render_ymd in *; revert Hus Hlong Habbr Hday H5;
    space_lit; intros Hus Hlong Habbr Hday H5; cbn [first_parse].
  - destruct (month_number_not_before two _
                (day_number two d ++ chr "/" :: zero_pad 4 y) Hm) as (Hc & H1).
    destruct (month_number_not_after two _
                (day_number two d ++ chr "/" :: zero_pad 4 y) Hm)
      as (H2 & H3 & H4).
    split; [exact Hc |]. rewrite H1, Hus, H2, H3, H4. reflexivity.
  - destruct (month_name_not_before _
                (day_number two d ++ chr "," :: chr " " :: zero_pad 4 y) Hm)
      as (Hc & H1 & H2).
    destruct (month_name_not_after _
                (day_number two d ++ chr "," :: chr " " :: zero_pad 4 y) Hm)
      as (H3 & H4).
    split; [exact Hc |]. rewrite H1, H2, Hlong, H4.
    destruct (N.eq_dec m 5) as [E | E].
    + rewrite <- (H5 E), Habbr. reflexivity.
    + rewrite (H3 E). reflexivity.
  - destruct (month_abbr_not_before _
                (day_number two d ++ chr "," :: chr " " :: zero_pad 4 y) Hm)
      as (Hc & H1 & H2 & H3).
    split; [exact Hc |].
    rewrite H1, H2, Habbr,
      (month_abbr_not_after _
         (day_number two d ++ chr "," :: chr " " :: zero_pad 4 y) Hm).
    destruct (N.eq_dec m 5) as [E | E].
    + rewrite (H5 E), Hlong. reflexivity.
    + rewrite (H3 E). reflexivity.
  - destruct (day_number_not_before two _
                (month_name m ++ chr " " :: zero_pad 4 y) Hd)
      as (Hc & H1 & H2 & H3 & H4).
    split; [exact Hc |]. rewrite H1, H2, H3, H4, Hday. reflexivity.
Qed.

(** Property X3. A text in one of the alternate formats whose numbers do not form
    a date of the calendar (30 February, or the year 0000) is replaced by the
    current date. *)
Theorem nonexistent_date_gives_today w today f two y m d :
  (y <= 9999)%N -> (1 <= m <= 12)%N -> (1 <= d <= 31)%N ->
  valid_ymd y m d = false ->
  parse_event_date w today (VStr (render_ymd f two y m d))
  = strftime_ymd today.
Proof.
  intros Hy Hm Hd Hv. unfold parse_event_date.
  assert (Ht : truthy (VStr (render_ymd f two y m d)) = true).
  { pose proof (render_ymd_nonspace_head f two y m d Hm) as H.
    destruct (render_ymd f two y m d); [contradiction | reflexivity]. }
  rewrite Ht. cbn [negb py_str]. cbv iota.
  rewrite (strip_render_ymd _ _ _ _ _ Hm).
  destruct (first_parse_render_ymd f two y m d Hy Hm Hd Hv) as (-> & ->).
  reflexivity.
Qed.

Lemma nonexistent_date_gives_today_witness :
  (2025 <= 9999)%N /\ (1 <= 2 <= 12)%N /\ (1 <= 30 <= 31)%N
  /\ valid_ymd 2025 2 30 = false
  /\ render_ymd LongMonth true 2025 2 30 = py "February 30, 2025"
  /\ parse_event_date (quiet_world None) today_example
       (VStr (render_ymd LongMonth true 2025 2 30))
     = py "2026-11-03".
Proof.
  split; [lia |]. split; [lia |]. split; [lia |].
  split; [reflexivity |]. split; [reflexivity |].
  apply (nonexistent_date_gives_today (quiet_world None) today_example
           LongMonth true 2025 2 30); try lia; reflexivity.
Defined.

(** *** The handlers, stage by stage *)

Section MoreRequests.

(** The world the requests run in. *)
Variable w : World.

(** **** The client of the store *)

Lemma blank_settings_raise s :
  _supabase s = None ->
  blank (str_or (env_SUPABASE_URL w) []) = true
  \/ blank (str_or (env_SUPABASE_SERVICE_ROLE_KEY w) []) = true ->
  get_supabase w s = (inl (ValueError msg_missing_config), s).
Proof.
  intros Hs Hb.
  unfold get_supabase, bind, read_state, ret, raise. rewrite Hs.
  unfold SUPABASE_URL, SUPABASE_SERVICE_KEY.
  destruct Hb as [Hb | Hb]; rewrite (strip_blank _ Hb);
    [| destruct (strip _)]; reflexivity.
Qed.

Lemma get_supabase_holds s c s1 :
  get_supabase w s = (inr c, s1) -> _supabase s1 = Some c.
Proof.
  unfold get_supabase, bind, read_state, ret, raise, record_call, set_supabase.
  destruct (_supabase s) as [c0 |] eqn:E.
  - intros H; injection H as <- <-. exact E.
  - destruct (SUPABASE_URL w); [discriminate |].
    destruct (SUPABASE_SERVICE_KEY w); [discriminate |].
    destruct (create_client w _ _); [discriminate |].
    intros H; injection H as <- <-. reflexivity.
Qed.

(** Property X4. Once [get_supabase] has returned a client, the module variable
    holds it, and every later call returns that client without calling
    [create_client] again and without changing anything. *)
Theorem client_is_created_once s c s1 :
  get_supabase w s = (inr c, s1) ->
  _supabase s1 = Some c
  /\ table s1 = table s
  /\ (exists cs, trace s1 = trace s ++ cs /\ List.length cs <= 1)
  /\ (forall s2, _supabase s2 = Some c -> get_supabase w s2 = (inr c, s2)).
Proof.
  intros H.
  split; [exact (get_supabase_holds _ _ _ H) |].
  split; [exact (get_supabase_table w _ _ _ H) |].
  split.
  - revert H.
    unfold get_supabase, bind, read_state, ret, raise, record_call,
      set_supabase.
    destruct (_supabase s) as [c0 |].
    + intros E; injection E as _ <-. exists []. rewrite app_nil_r. auto.
    + destruct (SUPABASE_URL w) as [| u us]; [discriminate |].
      destruct (SUPABASE_SERVICE_KEY w) as [| k ks]; [discriminate |].
      destruct (create_client w (u :: us) (k :: ks)); [discriminate |].
      intros E; injection E as _ <-. simpl.
      eexists [_]. split; [reflexivity | simpl; lia].
  - intros s2 E. unfold get_supabase, bind, read_state, ret. rewrite E.
    reflexivity.
Qed.

(** Property X5. When no client exists yet and one of the two settings is unset,
    empty or made of whitespace only, [get_supabase] raises its [ValueError]
    without calling [create_client], and [delete_class] answers with status
    500 and that message without calling the store. *)
Theorem missing_settings_are_reported s :
  _supabase s = None ->
  blank (str_or (env_SUPABASE_URL w) []) = true
  \/ blank (str_or (env_SUPABASE_SERVICE_ROLE_KEY w) []) = true ->
  get_supabase w s = (inl (ValueError msg_missing_config), s)
  /\ forall body,
       delete_class w body s
       = (inl (HTTPException 500
                 (py "Could not delete class events: " ++ msg_missing_config)),
          s).
Proof.
  intros Hs Hb. pose proof (blank_settings_raise _ Hs Hb) as Hg.
  split; [exact Hg |].
  intros body. unfold delete_class, delete_events, try_except, bind, raise.
  rewrite Hg. reflexivity.
Qed.


(** **** The text of the document *)

Lemma fold_pages pages : forall acc,
  fold_left (fun text page => text ++ page ++ nl) pages acc
  = acc ++ pages_text pages.
Proof.
  unfold pages_text.
  induction pages as [| p pages IH]; intros acc; simpl.
  - rewrite app_nil_r. reflexivity.
  - rewrite IH, <- !app_assoc. reflexivity.
Qed.

Lemma blank_pages pages : blank (pages_text pages) = forallb blank pages.
Proof.
  unfold pages_text.
  induction pages as [| p pages IH]; simpl; [reflexivity |].
  rewrite !blank_app, IH. change (blank nl) with true.
  rewrite andb_true_r. reflexivity.
Qed.

Lemma pages_text_last pages :
  pages <> [] -> exists l, pages_text pages = l ++ nl.
Proof.
  intros H. destruct (exists_last H) as (pre & p & ->).
  unfold pages_text. rewrite map_app, concat_app. simpl.
  rewrite app_nil_r, app_assoc. eauto.
Qed.

(** Property X6. The text [extract_text_from_pdf_bytes] returns is the text of the
    pages, each followed by a newline, without the whitespace at both ends:
    trimming it again changes nothing, and it is empty exactly when every
    page is empty or whitespace (a document without pages included). *)
Theorem extracted_text_is_trimmed pdf_bytes s text s' :
  extract_text_from_pdf_bytes w pdf_bytes s = (inr text, s') ->
  s' = s
  /\ strip text = text
  /\ exists pages,
       pdf_pages w pdf_bytes = inr pages
       /\ text = strip (pages_text pages)
       /\ (text = [] <-> forallb blank pages = true).
Proof.
  unfold extract_text_from_pdf_bytes, bind, ret, of_result, raise.
  destruct (pdf_pages w pdf_bytes) as [e | pages]; [discriminate |].
  unfold ret. cbv beta iota. rewrite fold_pages. cbn [app].
  intros H; injection H as <- <-.
  split; [reflexivity |]. split; [apply strip_idem |].
  exists pages. split; [reflexivity |]. split; [reflexivity |].
  rewrite <- blank_pages. split; [apply strip_nil_blank | apply strip_blank].
Qed.

(** Property X7. On the same pages, [extract_text_from_pdf] of [scanner.py] returns
    the text of the pages, each followed by a newline, and
    [extract_text_from_pdf_bytes] returns that text trimmed; as soon as there
    is a page the two differ, since the former ends with a newline. *)
Theorem scanner_text_is_not_trimmed pages_at pdf_path pdf_bytes pages s :
  pages_at pdf_path = inr pages ->
  pdf_pages w pdf_bytes = inr pages ->
  extract_text_from_pdf pages_at pdf_path = inr (pages_text pages)
  /\ extract_text_from_pdf_bytes w pdf_bytes s
     = (inr (strip (pages_text pages)), s)
  /\ (pages <> [] -> strip (pages_text pages) <> pages_text pages).
Proof.
  intros Hs Hb.
  unfold extract_text_from_pdf, extract_text_from_pdf_bytes, bind, ret,
    of_result.
  rewrite Hs, Hb. unfold ret. cbv beta iota. rewrite !fold_pages. cbn [app].
  split; [reflexivity |]. split; [reflexivity |].
  intros Hne E. destruct (pages_text_last _ Hne) as (l & Hl).
  rewrite Hl in E. apply strip_last in E. discriminate.
Qed.

(** **** The reply of the model *)

Lemma raw_of_blank reply :
  blank (str_or reply []) = true -> raw_of_reply reply = [].
Proof. intros H. unfold raw_of_reply. rewrite (strip_blank _ H). reflexivity. Qed.

(** Property X8. A reply without text, or whose text is empty or whitespace only,
    is rejected as invalid JSON: the request fails with status 502 and the
    message of the decoder for an empty document, after the fetch and the
    call to the model. *)
Theorem blank_reply_is_rejected body s text reply :
  document_text w body = Some text ->
  generate_content w (prompt_of text) = inr reply ->
  blank (str_or reply []) = true ->
  process_syllabus w body s
  = (inl (HTTPException 502
            (py "Gemini did not return valid JSON: "
             ++ py "Expecting value: line 1 column 1 (char 0)" ++ nl
             ++ py "Raw: ")),
     with_calls s (fetch_and_model body text)).
Proof.
  intros Hd Hg Hb.
  rewrite (process_after_reply w _ s _ _ Hd Hg). cbv zeta.
  unfold parse_reply. rewrite (raw_of_blank _ Hb). reflexivity.
Qed.

(** Property X9. Whitespace before and after the text of the reply does not change
    what the function makes of it. *)
Theorem reply_whitespace_is_ignored pre t post :
  blank pre = true -> blank post = true ->
  parse_reply (Some (pre ++ t ++ post)) = parse_reply (Some t).
Proof.
  intros Hpre Hpost. unfold parse_reply, raw_of_reply.
  rewrite !str_or_nil, (strip_pad _ _ _ Hpre Hpost). reflexivity.
Qed.

(** Property X10. The course the function returns is absent or a text that is not
    empty and has no whitespace at either end; a course of whitespace only
    counts as absent. *)
Theorem course_is_trimmed_or_absent reply c evs :
  parse_reply reply = inr (Some c, evs) ->
  c <> [] /\ strip c = c.
Proof.
  unfold parse_reply. destruct (json_loads _) as [e | data]; [discriminate |].
  destruct data; simpl; try (intros H; discriminate H).
  destruct (py_or _ _); try discriminate.
  intros H. injection H as H _. apply nonempty_some in H as [-> Hne].
  split; [exact Hne | apply strip_idem].
Qed.

(** Property X11. When the reply is an object whose [course] is neither falsy nor a
    string, the call of [.strip()] raises an [AttributeError], which is no
    [ValueError]: the request fails with status 500, not 502, after the fetch
    and the call to the model. *)
Theorem non_string_course_is_a_server_error body s text reply d v :
  document_text w body = Some text ->
  generate_content w (prompt_of text) = inr reply ->
  json_loads (raw_of_reply reply) = inr (VDict d) ->
  dict_get d (py "course") = Some v ->
  truthy v = true ->
  (forall c, v <> VStr c) ->
  parse_reply reply = inl (no_attribute v "strip")
  /\ process_syllabus w body s
     = (inl (HTTPException 500
               (py "Server error: AttributeError: '" ++ type_name v
                ++ py "' object has no attribute 'strip'")),
        with_calls s (fetch_and_model body text)).
Proof.
  intros Hd Hg Hj Hc Ht Hv.
  assert (Hp : parse_reply reply = inl (no_attribute v "strip")).
  { unfold parse_reply. rewrite Hj. unfold course_and_events, py_or.
    rewrite Hc, Ht. destruct v; try reflexivity. destruct (Hv s0). reflexivity. }
  split; [exact Hp |].
  rewrite (process_after_reply w _ s _ _ Hd Hg). cbv zeta. rewrite Hp.
  reflexivity.
Qed.

(** **** Fences with another tag *)

Lemma open_fence_foreign c rest :
  is_space c = false -> c <> chr "j" ->
  re_sub_delete fence_open_re (py "```" ++ c :: rest) = c :: rest.
Proof.
  intros Hs Hj.
  change (c :: rest) with (skipn 3 (py "```" ++ c :: rest)) at 2.
  apply (sub_scan_open_hit _ (MState 3 (c :: rest) []) 2); [| reflexivity].
  unfold fence_open_re. rewrite rx_seq_bol. cbn [Nat.eqb].
  apply (rx_seq_head _ _ _ (MState 3 (c :: rest) [])); [reflexivity |].
  assert (Hc : char_eqb (chr "j") c = false).
  { destruct (char_eqb (chr "j") c) eqn:E; [| reflexivity].
    apply char_eqb_eq in E. congruence. }
  change (rx_lit (py "json"))
    with (RSeq (RChar (chr "j")) (rx_lit (py "son"))).
  cbn [rx flat_map]. unfold rx_one. cbn [m_rest]. rewrite Hc.
  cbn [app flat_map m_pos m_rest m_groups rx_star]. rewrite Hs. reflexivity.
Qed.

Lemma cut_at_fence_head c t :
  is_space c = false -> c <> backtick ->
  cut_at_fence (c :: t) = c :: cut_at_fence t.
Proof.
  intros Hs Hb. cbn [cut_at_fence].
  replace (fence_tail (c :: t)) with false; [reflexivity |].
  unfold fence_tail. cbn [lstrip]. rewrite Hs.
  destruct t as [| b [| d t]]; try reflexivity.
  destruct (char_eqb backtick c) eqn:E; [| reflexivity].
  apply char_eqb_eq in E. congruence.
Qed.

Lemma json_loads_bad_start c t v :
  is_space c = false -> starts_value c = false ->
  json_loads (c :: t) <> inr v.
Proof.
  intros Hs Hv. unfold json_loads.
  destruct (startswith _ _); [discriminate |].
  destruct (decode_tokens _ _ _) as [[m p] | v'] eqn:E; [discriminate |].
  apply decoded_first in E as (c' & t' & Hl & Hc').
  cbn [lstrip] in Hl. rewrite Hs in Hl. injection Hl as <- _. congruence.
Qed.

(** Property X12. A fenced reply whose opening fence carries a tag that starts with
    a character other than [j] which cannot start a JSON value ([python],
    [yaml], also [JSON] in capitals) is never decoded: the opening pattern
    removes the three backticks only, the tag stays at the head of the text,
    and the request fails with status 502, whatever the fence encloses. *)
Theorem foreign_tag_is_rejected body s text c rest j :
  document_text w body = Some text ->
  generate_content w (prompt_of text) = inr (Some (fenced (c :: rest) j)) ->
  is_space c = false ->
  starts_value c = false ->
  c <> chr "j" ->
  c <> backtick ->
  exists e raw,
    raw_of_reply (Some (fenced (c :: rest) j)) = c :: raw
    /\ json_loads (c :: raw) = inl e
    /\ process_syllabus w body s
       = (inl (HTTPException 502 (exc_str (invalid_json e (c :: raw)))),
          with_calls s (fetch_and_model body text)).
Proof.
  intros Hd Hg Hs Hv Hj Hb.
  assert (Hraw : raw_of_reply (Some (fenced (c :: rest) j))
                 = c :: cut_at_fence (rest ++ nl ++ j ++ nl ++ py "```")).
  { unfold raw_of_reply. rewrite str_or_nil, strip_fenced.
    unfold strip_fences.
    replace (startswith (py "```") (fenced (c :: rest) j)) with true
      by reflexivity.
    unfold fenced. cbn [app].
    rewrite (open_fence_foreign c _ Hs Hj).
    unfold re_sub_delete. rewrite sub_scan_close.
    apply cut_at_fence_head; assumption. }
  set (raw := cut_at_fence (rest ++ nl ++ j ++ nl ++ py "```")) in *.
  destruct (json_loads (c :: raw)) as [e | v] eqn:El.
  - exists e, raw. split; [exact Hraw |]. split; [exact El |].
    rewrite (process_after_reply w _ s _ _ Hd Hg). cbv zeta.
    unfold parse_reply. rewrite Hraw, El. reflexivity.
  - destruct (json_loads_bad_start c raw v Hs Hv El).
Qed.

(** **** The failures of a request *)

(** Property X13. When the fetch raises, the model is not called: a
    [requests.RequestException] gives status 400 with its text, any other
    [Exception] status 500, and what is no [Exception] (a
    [KeyboardInterrupt]) leaves the handler as it is. *)
Theorem failed_fetch_is_reported body s e :
  http_get w (strip (file_url body)) = inl e ->
  process_syllabus w body s
  = (inl (if is_RequestException e
          then HTTPException 400 (py "Could not download PDF: " ++ exc_str e)
          else reraised e),
     with_calls s [CallGet (strip (file_url body))]).
Proof.
  intros H. run_eff. simpl. rewrite H. unfold reraised, server_error.
  split_flags; reflexivity.
Qed.

(** Property X14. When the PDF library raises on the bytes fetched, the
    model is not called: an [Exception], whatever its class, gives status
    400 with its text, and what is no [Exception] leaves the handler as it
    is. *)
Theorem unreadable_pdf_is_rejected body s b bs e :
  http_get w (strip (file_url body)) = inr (b :: bs) ->
  pdf_pages w (b :: bs) = inl e ->
  process_syllabus w body s
  = (inl (if is_Exception e
          then HTTPException 400 (py "Could not read PDF: " ++ exc_str e)
          else PyExc e),
     with_calls s [CallGet (strip (file_url body))]).
Proof.
  intros Hg Hp. run_eff. simpl. rewrite Hg. simpl. rewrite Hp.
  split_flags; reflexivity.
Qed.

(** Property X15. When every page of the document is empty or whitespace (or the
    document has no page), the request fails with status 400 and the model
    is not called. *)
Theorem blank_document_is_rejected body s b bs pages :
  http_get w (strip (file_url body)) = inr (b :: bs) ->
  pdf_pages w (b :: bs) = inr pages ->
  forallb blank pages = true ->
  process_syllabus w body s
  = (inl (HTTPException 400 (py "No text could be extracted from the PDF")),
     with_calls s [CallGet (strip (file_url body))]).
Proof.
  intros Hg Hp Hb. run_eff. simpl. rewrite Hg. simpl. rewrite Hp. simpl.
  rewrite fold_pages. cbn [app].
  rewrite strip_blank by (rewrite blank_pages; exact Hb). reflexivity.
Qed.

(** Property X16. When the call to the model raises, the store is not
    touched: a [ValueError] gives status 502 with its text, any other
    [Exception] status 500, and what is no [Exception] leaves the handler as
    it is. *)
Theorem failed_model_call_is_reported body s text e :
  document_text w body = Some text ->
  generate_content w (prompt_of text) = inl e ->
  process_syllabus w body s
  = (inl (if is_ValueError e then HTTPException 502 (exc_str e)
          else reraised e),
     with_calls s (fetch_and_model body text)).
Proof.
  intros Hd Hg.
  apply document_text_inv in Hd as (b & bs & pages & Hget & Hpdf & Htext & Hne).
  run_core. cbv zeta. simpl fst. simpl snd.
  rewrite Hget. simpl. rewrite Hpdf. simpl. rewrite Htext.
  destruct text as [| c t]; [congruence |].
  simpl. rewrite <- app_assoc. simpl. rewrite Hg.
  unfold reraised, server_error. split_flags; reflexivity.
Qed.

(** **** The events of the reply *)

Lemma rows_of_events_bad user fn url course pre v post : forall i,
  forallb is_dict pre = true ->
  is_dict v = false ->
  rows_of_events w user fn url course i (pre ++ v :: post)
  = inl (no_attribute v "get").
Proof.
  induction pre as [| ev pre IH]; intros i Hpre Hv; simpl.
  - destruct v; try reflexivity. discriminate.
  - simpl in Hpre. apply andb_true_iff in Hpre as [Hev Hpre].
    destruct ev; try discriminate. simpl.
    rewrite (IH (S i) Hpre Hv). reflexivity.
Qed.

Lemma rows_of_events_dicts user fn url course evs : forall i,
  forallb is_dict evs = true ->
  exists rows, rows_of_events w user fn url course i evs = inr rows.
Proof.
  induction evs as [| ev evs IH]; intros i H; simpl.
  - eauto.
  - simpl in H. apply andb_true_iff in H as [Hev H].
    destruct ev; try discriminate. simpl.
    destruct (IH (S i) H) as [rows ->]. eauto.
Qed.

(** Property X17. When one of the events of the reply is not an object, the request
    fails with status 500: the [AttributeError] names the type of the first
    such event, and nothing is stored, not even the events before it. *)
Theorem bad_event_aborts_the_request body s text reply course pre v post :
  document_text w body = Some text ->
  generate_content w (prompt_of text) = inr reply ->
  parse_reply reply = inr (course, pre ++ v :: post) ->
  forallb is_dict pre = true ->
  is_dict v = false ->
  process_syllabus w body s
  = (inl (HTTPException 500
            (py "Server error: AttributeError: '" ++ type_name v
             ++ py "' object has no attribute 'get'")),
     with_calls s (fetch_and_model body text)).
Proof.
  intros Hd Hg Hp Hpre Hv.
  rewrite (process_after_reply w _ s _ _ Hd Hg). cbv zeta. rewrite Hp.
  rewrite (rows_of_events_bad _ _ _ _ _ _ _ _ Hpre Hv). reflexivity.
Qed.

(** **** The store *)

(** Property X18. When the store raises an [Exception] on the insert, the
    request fails with status 500 and the text of the exception, although
    the fetch and the call to the model succeeded; the table is left as it
    was. *)
Theorem failed_insert_is_reported body s text reply course evs e :
  document_text w body = Some text ->
  generate_content w (prompt_of text) = inr reply ->
  parse_reply reply = inr (course, evs) ->
  evs <> [] ->
  forallb is_dict evs = true ->
  client_available w s = true ->
  (forall rows, insert_execute w rows = Some e) ->
  is_Exception e = true ->
  exists s',
    process_syllabus w body s
    = (inl (HTTPException 500
              (py "Could not save events to database: " ++ exc_str e)), s')
    /\ table s' = table s.
Proof.
  intros Hd Hg Hp Hne Hdict Ha Hi He.
  rewrite (process_after_reply w _ s _ _ Hd Hg). cbv zeta. rewrite Hp.
  destruct (rows_of_events_dicts (stored_user body)
              (strip (str_or (source_filename body) (py "syllabus.pdf")))
              (strip (file_url body))
              (str_or (course_override body)
                 (str_or course (py "Unnamed course")))
              evs 0 Hdict) as [rows Hr].
  unfold stored_user in Hr. rewrite Hr.
  destruct rows as [| r rows].
  { apply rows_of_events_spec in Hr as [Hl _].
    destruct evs; [congruence | discriminate]. }
  unfold insert_events, bind, raise, record_call.
  destruct (get_supabase_available w
              (with_calls s [CallGet (strip (file_url body));
                             CallGenerateContent (prompt_of text)]) Ha)
    as (c & cs & -> & _).
  rewrite Hi. unfold raise. rewrite He. eexists. split; reflexivity.
Qed.


(** **** Every outcome of a request *)

(** The calls [insert_events] makes. *)
Lemma insert_events_calls rows s r s2 :
  insert_events w rows s = (r, s2) ->
  exists cs,
    trace s2 = trace s ++ cs
    /\ (cs = []
        \/ (exists u k, cs = [CallCreateClient u k])
        \/ cs = [CallInsert rows]
        \/ exists u k, cs = [CallCreateClient u k; CallInsert rows]).
Proof.
  unfold insert_events, get_supabase, bind, read_state, ret, raise,
    record_call, set_supabase, set_table.
  destruct s as [sup tb tr]; simpl.
  destruct sup as [c |].
  - destruct (insert_execute w rows); intros H; injection H as _ <-; simpl;
      exists [CallInsert rows]; auto.
  - destruct (SUPABASE_URL w) as [| u us].
    { intros H; injection H as _ <-. exists []. rewrite app_nil_r. auto. }
    destruct (SUPABASE_SERVICE_KEY w) as [| k ks].
    { intros H; injection H as _ <-. exists []. rewrite app_nil_r. auto. }
    destruct (create_client w (u :: us) (k :: ks)).
    { intros H; injection H as _ <-. simpl. eexists [_]. eauto 6. }
    destruct (insert_execute w rows); intros H; injection H as _ <-; simpl;
      rewrite <- app_assoc; eexists [_; _]; simpl; eauto 8.
Qed.

(** The three ways a request can end: before the model is called, after
    the reply without a call to the store, or with the insert. *)
Lemma process_cases body s r s' :
  process_syllabus w body s = (r, s') ->
  (s' = with_calls s [CallGet (strip (file_url body))]
   /\ ((exists d, r = inl (HTTPException 400 d) \/ r = inl (HTTPException 500 d))
       \/ passes_through r))
  \/ (exists text,
        s' = with_calls s (fetch_and_model body text)
        /\ ((exists d, r = inl (HTTPException 500 d)
                       \/ r = inl (HTTPException 502 d))
            \/ passes_through r
            \/ exists name, r = inr (MkProcessResponse [] 0 name)))
  \/ (exists text row rows res name,
        insert_events w (row :: rows)
          (with_calls s (fetch_and_model body text)) = (res, s')
        /\ r = match res with
               | inl e =>
                   inl (if is_Exception e
                        then HTTPException 500
                               (py "Could not save events to database: "
                                ++ exc_str e)
                        else PyExc e)
               | inr _ =>
                   inr (MkProcessResponse (row :: rows)
                          (List.length (row :: rows)) name)
               end).
Proof.
  assert (Hend : forall (A : Type) (x : exception),
             (exists d, @inl raised A (reraised x) = inl (HTTPException 500 d))
             \/ passes_through (@inl raised A (reraised x))).
  { intros A x. unfold reraised, server_error, passes_through.
    destruct (is_Exception x) eqn:E;
      [left; eexists; reflexivity | right; exists x; split; [reflexivity | exact E]]. }
  destruct (document_text w body) as [text |] eqn:Hd.
  - destruct (generate_content w (prompt_of text)) as [e | reply] eqn:Hg.
    + apply document_text_inv in Hd
        as (b & bs & pages & Hget & Hpdf & Htext & Hne).
      run_core. cbv zeta. simpl fst. simpl snd.
      rewrite Hget. simpl. rewrite Hpdf. simpl. rewrite Htext.
      destruct text as [| c t]; [congruence |].
      simpl. rewrite <- app_assoc. simpl. rewrite Hg.
      intros H. right. left. exists (c :: t). revert H.
      destruct (is_ValueError e); [| destruct (is_Exception e) eqn:E]; simpl;
        intros H; injection H as <- <-; (split; [reflexivity |]).
      * left. eexists. right. reflexivity.
      * left. eexists. left. reflexivity.
      * right. left. exists e. split; [reflexivity | exact E].
    + rewrite (process_after_reply w _ s _ _ Hd Hg). cbv zeta.
      destruct (parse_reply reply) as [e | [course evs]].
      { intros H. right. left. exists text.
        destruct (is_ValueError e); injection H as <- <-;
          (split; [reflexivity |]).
        - left. eexists. right. reflexivity.
        - destruct (Hend ProcessResponse e) as [(d & ->) | Hp];
            [left; exists d; left; reflexivity | right; left; exact Hp]. }
      destruct (rows_of_events _ _ _ _ _ _ _) as [e | [| row rows]].
      * intros H; injection H as <- <-. right. left. exists text.
        split; [reflexivity |].
        destruct (Hend ProcessResponse e) as [(d & ->) | Hp];
          [left; exists d; left; reflexivity | right; left; exact Hp].
      * intros H; injection H as <- <-. right. left. exists text.
        split; [reflexivity | right; right; eexists; reflexivity].
      * destruct (insert_events _ _ _) as [res s2] eqn:Hi.
        intros H. right. right. exists text, row, rows, res.
        destruct res as [e | u]; injection H as <- <-.
        -- exists []. split; [exact Hi | reflexivity].
        -- eexists. split; [exact Hi | reflexivity].
  - revert Hd. unfold document_text. run_core. cbv zeta. simpl fst. simpl snd.
    destruct (http_get w (strip (file_url body))) as [e | [| b bs]]; simpl.
    + intros _ H. left. revert H.
      destruct (is_RequestException e); [| destruct (is_Exception e) eqn:E];
        simpl; intros H; injection H as <- <-; (split; [reflexivity |]).
      * left. eexists. left. reflexivity.
      * left. eexists. right. reflexivity.
      * right. exists e. split; [reflexivity | exact E].
    + intros _ H; injection H as <- <-. left.
      split; [reflexivity | left; eexists; left; reflexivity].
    + destruct (pdf_pages w (b :: bs)) as [e | pages]; simpl.
      * intros _ H. left. revert H.
        split_flags; intros H; injection H as <- <-; (split; [reflexivity |]).
        -- left. eexists. left. reflexivity.
        -- right. exists e. split; [reflexivity | assumption].
      * destruct (strip _) as [| c t]; simpl; [| discriminate].
        intros _ H; injection H as <- <-. left.
        split; [reflexivity | left; eexists; left; reflexivity].
Qed.

(** Property X20. Whatever goes wrong, what leaves [process_syllabus] is
    an [HTTPException] whose status is 400, 500 or 502, or an exception that
    is no [Exception] (a [KeyboardInterrupt]), which no handler catches:
    every [Exception] raised below is translated. *)
Theorem failures_are_http_errors body s e s' :
  process_syllabus w body s = (inl e, s') ->
  (exists detail,
     e = HTTPException 400 detail \/ e = HTTPException 500 detail
     \/ e = HTTPException 502 detail)
  \/ exists x, e = PyExc x /\ is_Exception x = false.
Proof.
  intros H.
  destruct (process_cases _ _ _ _ H)
    as [(_ & [(d & [E | E]) | (x & E & Hx)])
       | [(text & _ & [(d & [E | E]) | [(x & E & Hx) | (name & E)]])
        | (text & row & rows & res & name & _ & E)]].
  - injection E as ->. left. exists d. left. reflexivity.
  - injection E as ->. left. exists d. right. left. reflexivity.
  - injection E as ->. right. exists x. split; [reflexivity | exact Hx].
  - injection E as ->. left. exists d. right. left. reflexivity.
  - injection E as ->. left. exists d. right. right. reflexivity.
  - injection E as ->. right. exists x. split; [reflexivity | exact Hx].
  - discriminate.
  - destruct res as [x |]; [| discriminate].
    injection E as ->. destruct (is_Exception x) eqn:Hx.
    + left. eexists. right. left. reflexivity.
    + right. exists x. split; [reflexivity | exact Hx].
Qed.

(** Property X21. Whatever its outcome, a request makes its calls in one order: the
    fetch, exactly once and first; then at most one call to the model; then,
    only after the reply, the store (the creation of the client, if there is
    none yet, and at most one insert).  It never deletes. *)
Theorem calls_are_made_in_order body s r s' :
  process_syllabus w body s = (r, s') ->
  exists cs, trace s' = trace s ++ cs /\ calls_in_order cs = true.
Proof.
  intros H.
  destruct (process_cases _ _ _ _ H)
    as [(-> & _) | [(text & -> & _)
        | (text & row & rows & res & name & Hi & _)]].
  - eexists. split; reflexivity.
  - eexists. split; reflexivity.
  - apply insert_events_calls in Hi as (cs & -> & Hcs). simpl.
    rewrite <- app_assoc. eexists. split; [reflexivity |].
    destruct Hcs as [-> | [(u & k & ->) | [-> | (u & k & ->)]]]; reflexivity.
Qed.

(** **** The rows of a response *)

Lemma rows_of_events_fields user fn url course evs : forall i rows,
  rows_of_events w user fn url course i evs = inr rows ->
  Forall (fun r =>
            row_user_id r = user /\ row_source_filename r = fn
            /\ row_source_url r = url /\ row_course_name r = course
            /\ truthy (event_title r) = true
            /\ match event_description r with
               | Some t => startswith (py "Type: ") t = true
               | None => True
               end) rows.
Proof.
  induction evs as [| ev evs IH]; intros i rows; simpl.
  - intros H; injection H as <-. constructor.
  - destruct (row_of_event w user fn url course i ev) as [x | row] eqn:Hr;
      [discriminate |].
    destruct (rows_of_events w user fn url course (S i) evs)
      as [x | rows'] eqn:Hrs; [discriminate |].
    intros H; injection H as <-. constructor; [| eapply IH; exact Hrs].
    unfold row_of_event in Hr. destruct ev; try discriminate.
    injection Hr as <-. simpl.
    repeat (split; [reflexivity |]). split.
    + unfold py_or. destruct (dict_get _ _) as [t |]; [| reflexivity].
      destruct (truthy t) eqn:Ht; [exact Ht | reflexivity].
    + destruct (truthy (py_or (dict_get d (py "type")) (VStr [])));
        [reflexivity | exact I].
Qed.

Lemma course_and_events_trimmed data c evs :
  course_and_events data = inr (Some c, evs) -> strip c = c.
Proof.
  destruct data; simpl; try (intros H; discriminate H).
  destruct (py_or _ _); try discriminate.
  intros H. injection H as H _. apply nonempty_some in H as [-> _].
  apply strip_idem.
Qed.

Lemma resolved_course_trimmed body reply course evs :
  parse_reply reply = inr (course, evs) ->
  let name :=
    str_or (course_override body) (str_or course (py "Unnamed course")) in
  strip name = name.
Proof.
  intros Hp name. unfold name, course_override.
  destruct (nonempty (strip _)) as [c |] eqn:Ho.
  - apply nonempty_some in Ho as [-> Hne].
    rewrite (str_or_some _ _ Hne). apply strip_idem.
  - cbn [str_or]. destruct course as [c |]; [| reflexivity].
    rewrite (str_or_some _ _ (parse_reply_course _ _ _ Hp)).
    unfold parse_reply in Hp.
    destruct (json_loads _) as [e | data]; [discriminate |].
    eapply course_and_events_trimmed. exact Hp.
Qed.

(** What a successful request returns and leaves behind. *)
Lemma process_success body s resp s' :
  process_syllabus w body s = (inr resp, s') ->
  exists text reply course evs rows,
    document_text w body = Some text
    /\ generate_content w (prompt_of text) = inr reply
    /\ parse_reply reply = inr (course, evs)
    /\ rows_of_events w (stored_user body)
         (strip (str_or (source_filename body) (py "syllabus.pdf")))
         (strip (file_url body))
         (str_or (course_override body) (str_or course (py "Unnamed course")))
         0 evs = inr rows
    /\ resp
       = MkProcessResponse rows (List.length rows)
           (str_or (course_override body)
              (str_or course (py "Unnamed course")))
    /\ table s' = table s ++ rows
    /\ (rows <> [] -> exists c, _supabase s' = Some c).
Proof.
  intros H.
  destruct (process_success_inv w _ _ _ _ H) as (text & reply & Hd & Hg).
  rewrite (process_after_reply w _ s _ _ Hd Hg) in H. cbv zeta in H.
  destruct (parse_reply reply) as [e | [course evs]] eqn:Hp.
  { unfold reraised in H.
    destruct (is_ValueError e); [discriminate |].
    destruct (is_Exception e); discriminate. }
  fold (stored_user body) in H.
  destruct (rows_of_events _ _ _ _ _ _ _) as [e | rows] eqn:Hr;
    [discriminate |].
  exists text, reply, course, evs, rows.
  repeat (split; [assumption || reflexivity |]).
  destruct rows as [| r rows]; cbv beta iota in H.
  - injection H as <- <-. simpl. rewrite app_nil_r.
    repeat split; congruence.
  - destruct (insert_events _ _ _) as [[e | u] s2] eqn:Hi; [discriminate |].
    injection H as <- <-.
    split; [reflexivity |].
    split; [apply insert_events_table in Hi; exact Hi |].
    intros _. revert Hi.
    unfold insert_events, bind, raise, record_call, read_state, set_table.
    destruct (get_supabase w _) as [[e | c] s1] eqn:Hc; [discriminate |].
    apply get_supabase_holds in Hc.
    destruct (insert_execute w _); [discriminate |].
    intros E; injection E as E. subst s2. simpl. eauto.
Qed.

(** Property X22. In a successful request the count is the number of rows, and
    every row carries the same user, file name, URL and course name: those of
    the request, trimmed (the file name [syllabus.pdf] when the request gives
    none or an empty one), and the course name of the response, which is
    trimmed too. *)
Theorem rows_carry_the_trimmed_request body s resp s' :
  process_syllabus w body s = (inr resp, s') ->
  resp_count resp = List.length (resp_events resp)
  /\ trimmed (resp_course_name resp)
  /\ Forall (fun r =>
               row_user_id r = stored_user body
               /\ row_source_filename r
                  = strip (str_or (source_filename body) (py "syllabus.pdf"))
               /\ row_source_url r = strip (file_url body)
               /\ row_course_name r = resp_course_name resp
               /\ trimmed (row_source_filename r)
               /\ trimmed (row_source_url r)
               /\ match row_user_id r with
                  | Some u => trimmed u
                  | None => True
                  end)
       (resp_events resp).
Proof.
  intros H.
  apply process_success in H
    as (text & reply & course & evs & rows & _ & _ & Hp & Hr & -> & _).
  cbn [resp_count resp_events resp_course_name].
  split; [reflexivity |].
  split; [exact (resolved_course_trimmed body _ _ _ Hp) |].
  apply rows_of_events_fields in Hr.
  eapply Forall_impl; [| exact Hr].
  intros r (Hu & Hf & Hurl & Hc & _).
  repeat (split; [assumption |]).
  rewrite Hf, Hurl, Hu. unfold trimmed, stored_user.
  split; [apply strip_idem |]. split; [apply strip_idem |].
  destruct (user_id body) as [[| c t] |]; try exact I. apply strip_idem.
Qed.

(** Property X23. In a successful request no row has an empty title (an event
    without a title, or with a falsy one, is called [Untitled]), and the
    description of a row is absent or starts with [Type: ]. *)
Theorem rows_have_titles body s resp s' :
  process_syllabus w body s = (inr resp, s') ->
  Forall (fun r =>
            truthy (event_title r) = true
            /\ event_title r <> VStr []
            /\ match event_description r with
               | Some t => startswith (py "Type: ") t = true
               | None => True
               end)
    (resp_events resp).
Proof.
  intros H.
  apply process_success in H
    as (text & reply & course & evs & rows & _ & _ & _ & Hr & -> & _).
  cbn [resp_events].
  apply rows_of_events_fields in Hr.
  eapply Forall_impl; [| exact Hr].
  intros r (_ & _ & _ & _ & Ht & Hd).
  split; [exact Ht |]. split; [| exact Hd].
  intros E. rewrite E in Ht. discriminate.
Qed.

(** **** [delete_class] after [process_syllabus] *)

Lemma str_eqb_refl s : str_eqb s s = true.
Proof.
  induction s as [| c s IH]; simpl; [reflexivity |].
  rewrite char_eqb_refl. exact IH.
Qed.

Lemma filter_all {A : Type} (f : A -> bool) (l : list A) :
  Forall (fun r => f r = true) l -> filter (fun r => negb (f r)) l = [].
Proof.
  induction 1 as [| r t Hr _ IH]; simpl; [reflexivity |].
  rewrite Hr. exact IH.
Qed.

Lemma delete_events_runs user course s :
  client_available w s = true ->
  delete_execute w (calls_before_delete w s) user course = None ->
  exists s',
    delete_events w user course s = (inr tt, s')
    /\ table s'
       = filter (fun r => negb (row_matches user course r)) (table s)
    /\ exists c, _supabase s' = Some c.
Proof.
  intros Ha He. unfold calls_before_delete in He.
  unfold delete_events, bind, ret, raise, record_call, read_state, set_table.
  destruct (get_supabase_available w _ Ha) as (c & cs & Hg & _).
  rewrite Hg in He |- *. simpl in He. simpl. rewrite He. simpl. eexists. split; [reflexivity |].
  split; [reflexivity |]. exists c. reflexivity.
Qed.

(** Property X24. [delete_class] undoes [process_syllabus]: after a successful
    request made for a user, deleting the course of the response for that
    user (as stored, trimmed), when the store executes that delete without
    raising, removes every row the request added and no other, so that a
    table which held no row of that user and course before is back to what it
    was. *)
Theorem delete_class_undoes_process_syllabus body s resp s1 u :
  process_syllabus w body s = (inr resp, s1) ->
  stored_user body = Some u ->
  Forall (fun r => row_matches u (resp_course_name resp) r = false)
    (table s) ->
  client_available w s1 = true ->
  delete_execute w (calls_before_delete w s1) u (resp_course_name resp)
  = None ->
  exists s2,
    delete_class w (MkDeleteClassRequest u (resp_course_name resp)) s1
    = (inr status_ok, s2)
    /\ table s2 = table s.
Proof.
  intros H Hu Hold Ha He.
  apply process_success in H
    as (text & reply & course & evs & rows & _ & _ & _ & Hr & -> & Ht & _).
  cbn [resp_course_name] in *.
  destruct (delete_events_runs u _ s1 Ha He) as (s2 & Hdel & Htab & _).
  exists s2. unfold delete_class, try_except, bind, ret.
  cbn [del_user_id del_course_name]. rewrite Hdel.
  split; [reflexivity |].
  rewrite Htab, Ht, filter_app, (filter_none _ _ Hold), filter_all.
  - apply app_nil_r.
  - apply rows_of_events_fields in Hr.
    eapply Forall_impl; [| exact Hr].
    intros r (Hru & _ & _ & Hc & _).
    unfold row_matches. rewrite Hru, Hu, Hc, !str_eqb_refl. reflexivity.
Qed.

(** Property X25. The rows of a request made without a user (no [user_id], or an
    empty one) are stored without one, and no request to [delete_class],
    whatever its user and course, removes such a row. *)
Theorem rows_without_user_are_never_deleted body s resp s1 :
  process_syllabus w body s = (inr resp, s1) ->
  user_id body = None \/ user_id body = Some [] ->
  Forall (fun r => row_user_id r = None) (resp_events resp)
  /\ forall r del s2 res s3,
       In r (resp_events resp) ->
       In r (table s2) ->
       delete_class w del s2 = (res, s3) ->
       In r (table s3).
Proof.
  intros H Hu.
  apply process_success in H
    as (text & reply & course & evs & rows & _ & _ & _ & Hr & -> & _).
  cbn [resp_events].
  assert (Hnone : Forall (fun r => row_user_id r = None) rows).
  { apply rows_of_events_fields in Hr.
    eapply Forall_impl; [| exact Hr].
    intros r (Hru & _). rewrite Hru. unfold stored_user.
    destruct Hu as [-> | ->]; reflexivity. }
  split; [exact Hnone |].
  intros r del s2 res s3 Hin Hin2.
  rewrite Forall_forall in Hnone. specialize (Hnone r Hin).
  unfold delete_class, delete_events, try_except, bind, ret, raise,
    record_call, read_state, set_table.
  destruct (get_supabase w s2) as [[e | c] s2'] eqn:Hg;
    apply get_supabase_table in Hg.
  - destruct (is_Exception e); intros E; injection E as _ <-; rewrite Hg;
      exact Hin2.
  - simpl. destruct (delete_execute w _ _ _) as [e |].
    + destruct (is_Exception e); intros E; injection E as _ <-; simpl;
        rewrite Hg; exact Hin2.
    + intros E; injection E as _ <-. simpl. rewrite Hg.
      apply filter_In. split; [exact Hin2 |].
      unfold row_matches. rewrite Hnone. reflexivity.
Qed.

(** Property X26. After [delete_class] has answered ok, the table holds
    no row of that user and course.  The same request made again is a new
    call to the store, whose outcome is its own: whatever it is, the table
    is left as it was; the request answers ok when the store executes the
    delete, and fails with status 500 when the store raises an
    [Exception]. *)
Theorem delete_class_twice body s s1 :
  delete_class w body s = (inr status_ok, s1) ->
  Forall (fun r =>
            row_matches (del_user_id body) (del_course_name body) r = false)
    (table s1)
  /\ (forall r s2, delete_class w body s1 = (r, s2) -> table s2 = table s1)
  /\ (delete_execute w (calls_before_delete w s1) (del_user_id body)
        (del_course_name body) = None ->
      exists s2, delete_class w body s1 = (inr status_ok, s2))
  /\ (forall e,
        delete_execute w (calls_before_delete w s1) (del_user_id body)
          (del_course_name body) = Some e ->
        is_Exception e = true ->
        exists s2,
          delete_class w body s1
          = (inl (HTTPException 500
                    (py "Could not delete class events: " ++ exc_str e)),
             s2)).
Proof.
  unfold delete_class at 1, delete_events, try_except, bind, ret, raise,
    record_call, read_state, set_table.
  destruct (get_supabase w s) as [[e | c] s'] eqn:Hg;
    [destruct (is_Exception e); discriminate |].
  apply get_supabase_holds in Hg. simpl.
  destruct (delete_execute w _ _ _) as [e |];
    [destruct (is_Exception e); discriminate |].
  intros E; injection E as <-. cbn [table].
  assert (Hnone : Forall (fun r =>
                            row_matches (del_user_id body)
                              (del_course_name body) r = false)
                    (filter (fun r =>
                               negb (row_matches (del_user_id body)
                                       (del_course_name body) r))
                       (table s'))).
  { apply Forall_forall. intros r Hr. apply filter_In in Hr as [_ Hr].
    apply negb_true_iff. exact Hr. }
  split; [exact Hnone |].
  match goal with |- context [delete_class w body ?st] => set (s1 := st) end.
  assert (Ha : client_available w s1 = true).
  { unfold client_available, s1. cbn [_supabase]. rewrite Hg. reflexivity. }
  destruct (get_supabase_available w s1 Ha) as (c1 & cs & Hg1 & _).
  unfold calls_before_delete. rewrite Hg1. cbn [snd].
  unfold delete_class, delete_events, try_except, bind, ret, raise,
    record_call, read_state, set_table.
  rewrite Hg1. simpl.
  split; [| split].
  - intros r s2.
    destruct (delete_execute w _ _ _) as [e |].
    + destruct (is_Exception e); intros E; injection E as _ <-; reflexivity.
    + intros E; injection E as _ <-. simpl. apply filter_none. exact Hnone.
  - intros ->. eexists. reflexivity.
  - intros e -> ->. eexists. reflexivity.
Qed.

End MoreRequests.

(** *** The further properties on concrete requests *)

Lemma client_is_created_once_witness :
  get_supabase (quiet_world None) initial_state
  = (inr (MkClient (py "https://example.supabase.co") (py "service-key")),
     MkState
       (Some (MkClient (py "https://example.supabase.co") (py "service-key")))
       []
       [CallCreateClient (py "https://example.supabase.co")
          (py "service-key")])
  /\ forall s2,
       _supabase s2
       = Some (MkClient (py "https://example.supabase.co") (py "service-key")) ->
       get_supabase (quiet_world None) s2
       = (inr (MkClient (py "https://example.supabase.co") (py "service-key")),
          s2).
Proof.
  assert (H : get_supabase (quiet_world None) initial_state
              = (inr (MkClient (py "https://example.supabase.co")
                        (py "service-key")),
                 MkState
                   (Some (MkClient (py "https://example.supabase.co")
                            (py "service-key")))
                   []
                   [CallCreateClient (py "https://example.supabase.co")
                      (py "service-key")]))
    by reflexivity.
  split; [exact H |].
  exact (proj2 (proj2 (proj2
           (client_is_created_once (quiet_world None) _ _ _ H)))).
Defined.

Lemma missing_settings_are_reported_witness :
  _supabase initial_state = None
  /\ blank (str_or (env_SUPABASE_URL unconfigured_world) []) = true
  /\ delete_class unconfigured_world sample_delete initial_state
     = (inl (HTTPException 500
               (py "Could not delete class events: " ++ msg_missing_config)),
        initial_state).
Proof.
  assert (Hs : _supabase initial_state = None) by reflexivity.
  assert (Hb : blank (str_or (env_SUPABASE_URL unconfigured_world) []) = true)
    by reflexivity.
  split; [exact Hs |]. split; [exact Hb |].
  exact (proj2 (missing_settings_are_reported unconfigured_world initial_state
                  Hs (or_introl Hb))
           sample_delete).
Defined.

Lemma extracted_text_is_trimmed_witness :
  extract_text_from_pdf_bytes (quiet_world None) [37%N] initial_state
  = (inr (py "syllabus"), initial_state)
  /\ strip (py "syllabus") = py "syllabus".
Proof.
  assert (H : extract_text_from_pdf_bytes (quiet_world None) [37%N]
                initial_state
              = (inr (py "syllabus"), initial_state)) by reflexivity.
  split; [exact H |].
  exact (proj1 (proj2 (extracted_text_is_trimmed (quiet_world None) _ _ _ _ H))).
Defined.

Lemma scanner_text_is_not_trimmed_witness :
  extract_text_from_pdf (fun _ => inr [py "syllabus"]) (py "test.pdf")
  = inr (py "syllabus" ++ nl)
  /\ extract_text_from_pdf_bytes (quiet_world None) [37%N] initial_state
     = (inr (strip (py "syllabus" ++ nl)), initial_state).
Proof.
  destruct (scanner_text_is_not_trimmed (quiet_world None)
              (fun _ => inr [py "syllabus"]) (py "test.pdf") [37%N]
              [py "syllabus"] initial_state eq_refl eq_refl)
    as (H1 & H2 & _).
  split; [exact H1 | exact H2].
Defined.

Lemma blank_reply_is_rejected_witness :
  document_text (quiet_world (Some (py "  "))) sample_request
  = Some (py "syllabus")
  /\ blank (str_or (Some (py "  ")) []) = true
  /\ process_syllabus (quiet_world (Some (py "  "))) sample_request
       initial_state
     = (inl (HTTPException 502
               (py "Gemini did not return valid JSON: "
                ++ py "Expecting value: line 1 column 1 (char 0)" ++ nl
                ++ py "Raw: ")),
        with_calls initial_state
          (fetch_and_model sample_request (py "syllabus"))).
Proof.
  split; [reflexivity |]. split; [reflexivity |].
  apply (blank_reply_is_rejected (quiet_world (Some (py "  "))) sample_request
           initial_state (py "syllabus") (Some (py "  ")));
    reflexivity.
Defined.

Lemma reply_whitespace_is_ignored_witness :
  blank (py "  ") = true
  /\ blank nl = true
  /\ parse_reply (Some (py "  " ++ py "[]" ++ nl)) = parse_reply (Some (py "[]")).
Proof.
  split; [reflexivity |]. split; [reflexivity |].
  apply (reply_whitespace_is_ignored (py "  ") (py "[]") nl); reflexivity.
Defined.

Lemma course_is_trimmed_or_absent_witness :
  parse_reply (Some reply_padded_course) = inr (Some (py "CS 161"), [])
  /\ py "CS 161" <> []
  /\ strip (py "CS 161") = py "CS 161".
Proof.
  assert (H : parse_reply (Some reply_padded_course)
              = inr (Some (py "CS 161"), []))
    by (vm_compute; reflexivity).
  split; [exact H |].
  exact (course_is_trimmed_or_absent _ _ _ H).
Defined.

Lemma non_string_course_is_a_server_error_witness :
  process_syllabus (quiet_world (Some reply_numeric_course)) sample_request
    initial_state
  = (inl (HTTPException 500
            (py "Server error: AttributeError: 'int' object has no attribute 'strip'")),
     with_calls initial_state (fetch_and_model sample_request (py "syllabus"))).
Proof.
  refine (proj2 (non_string_course_is_a_server_error
                   (quiet_world (Some reply_numeric_course)) sample_request
                   initial_state (py "syllabus") (Some reply_numeric_course)
                   _ (VInt 161) eq_refl eq_refl _ _ eq_refl _)).
  - vm_compute. reflexivity.
  - reflexivity.
  - discriminate.
Defined.

Lemma failed_fetch_is_reported_witness :
  process_syllabus
    (sample_world (inl connection_error) (inr []) (inr None) None None
       None None None)
    sample_request initial_state
  = (inl (HTTPException 400 (py "Could not download PDF: connection refused")),
     with_calls initial_state [CallGet sample_url]).
Proof.
  apply (failed_fetch_is_reported
           (sample_world (inl connection_error) (inr []) (inr None) None None
              None None None)
           sample_request initial_state connection_error).
  reflexivity.
Defined.

Lemma unreadable_pdf_is_rejected_witness :
  process_syllabus
    (sample_world (inr [37%N]) (inl pdf_read_error) (inr None) None None
       None None None)
    sample_request initial_state
  = (inl (HTTPException 400 (py "Could not read PDF: EOF marker not found")),
     with_calls initial_state [CallGet sample_url]).
Proof.
  apply (unreadable_pdf_is_rejected
           (sample_world (inr [37%N]) (inl pdf_read_error) (inr None) None
              None None None None)
           sample_request initial_state 37%N [] pdf_read_error);
    reflexivity.
Defined.

Lemma blank_document_is_rejected_witness :
  forallb blank [py " "; []] = true
  /\ process_syllabus
       (sample_world (inr [37%N]) (inr [py " "; []]) (inr None) None None
          None None None)
       sample_request initial_state
     = (inl (HTTPException 400 (py "No text could be extracted from the PDF")),
        with_calls initial_state [CallGet sample_url]).
Proof.
  split; [reflexivity |].
  apply (blank_document_is_rejected
           (sample_world (inr [37%N]) (inr [py " "; []]) (inr None) None None
              None None None)
           sample_request initial_state 37%N [] [py " "; []]);
    reflexivity.
Defined.

Lemma failed_model_call_is_reported_witness :
  process_syllabus
    (sample_world (inr [37%N]) (inr [py "syllabus"]) (inl runtime_error)
       None None None None None)
    sample_request initial_state
  = (inl (HTTPException 500
            (py "Server error: RuntimeError: service unavailable")),
     with_calls initial_state (fetch_and_model sample_request (py "syllabus"))).
Proof.
  apply (failed_model_call_is_reported
           (sample_world (inr [37%N]) (inr [py "syllabus"])
              (inl runtime_error) None None None None None)
           sample_request initial_state (py "syllabus") runtime_error);
    reflexivity.
Defined.

Lemma bad_event_aborts_the_request_witness :
  parse_reply (Some reply_bad_event)
  = inr (None, [VDict [(py "title", VStr (py "HW1"))]]
               ++ VStr (py "Quiz 2") :: [])
  /\ process_syllabus (quiet_world (Some reply_bad_event)) sample_request
       initial_state
     = (inl (HTTPException 500
               (py "Server error: AttributeError: 'str' object has no attribute 'get'")),
        with_calls initial_state
          (fetch_and_model sample_request (py "syllabus"))).
Proof.
  assert (Hp : parse_reply (Some reply_bad_event)
               = inr (None, [VDict [(py "title", VStr (py "HW1"))]]
                            ++ VStr (py "Quiz 2") :: []))
    by (vm_compute; reflexivity).
  split; [exact Hp |].
  apply (bad_event_aborts_the_request (quiet_world (Some reply_bad_event))
           sample_request initial_state (py "syllabus")
           (Some reply_bad_event) None
           [VDict [(py "title", VStr (py "HW1"))]] (VStr (py "Quiz 2")) []);
    first [exact Hp | reflexivity].
Defined.

Lemma failed_insert_is_reported_witness :
  exists s',
    process_syllabus failing_store_world sample_request initial_state
    = (inl (HTTPException 500
              (py "Could not save events to database: service unavailable")),
       s')
    /\ table s' = table initial_state.
Proof.
  assert (Hp : exists evs,
             parse_reply (Some reply_scenario_a) = inr (Some (py "CS 161"), evs)
             /\ evs <> [] /\ forallb is_dict evs = true).
  { eexists. split; [vm_compute; reflexivity |].
    split; [discriminate | reflexivity]. }
  destruct Hp as (evs & Hp & Hne & Hdict).
  apply (failed_insert_is_reported failing_store_world sample_request
           initial_state (py "syllabus") (Some reply_scenario_a)
           (Some (py "CS 161")) evs runtime_error);
    first [assumption | reflexivity].
Defined.


Lemma failures_are_http_errors_witness :
  (exists e s',
     process_syllabus silent_model_world sample_request initial_state
     = (inl e, s')
     /\ e = HTTPException 500
              (py "Server error: RuntimeError: service unavailable")
     /\ ((exists detail,
            e = HTTPException 400 detail \/ e = HTTPException 500 detail
            \/ e = HTTPException 502 detail)
         \/ exists x, e = PyExc x /\ is_Exception x = false))
  /\ (exists e s',
        process_syllabus interrupted_world sample_request initial_state
        = (inl e, s')
        /\ e = PyExc keyboard_interrupt
        /\ ((exists detail,
               e = HTTPException 400 detail \/ e = HTTPException 500 detail
               \/ e = HTTPException 502 detail)
            \/ exists x, e = PyExc x /\ is_Exception x = false)).
Proof.
  split.
  - destruct (process_syllabus silent_model_world sample_request
                initial_state) as [[e | resp] s'] eqn:H;
      [| vm_compute in H; discriminate].
    exists e, s'. split; [reflexivity |]. split.
    + pose proof H as H'. vm_compute in H'. injection H' as E _.
      rewrite <- E. reflexivity.
    + exact (failures_are_http_errors silent_model_world _ _ _ _ H).
  - destruct (process_syllabus interrupted_world sample_request
                initial_state) as [[e | resp] s'] eqn:H;
      [| vm_compute in H; discriminate].
    exists e, s'. split; [reflexivity |]. split.
    + pose proof H as H'. vm_compute in H'. injection H' as E _.
      rewrite <- E. reflexivity.
    + exact (failures_are_http_errors interrupted_world _ _ _ _ H).
Defined.

Lemma calls_are_made_in_order_witness :
  exists r s' cs,
    process_syllabus (quiet_world (Some reply_scenario_a)) sample_request
      initial_state = (r, s')
    /\ trace s' = trace initial_state ++ cs
    /\ calls_in_order cs = true.
Proof.
  destruct (process_syllabus (quiet_world (Some reply_scenario_a))
              sample_request initial_state) as [r s'] eqn:H.
  destruct (calls_are_made_in_order _ _ _ _ _ H) as (cs & Ht & Ho).
  exists r, s', cs. auto.
Defined.

Lemma rows_carry_the_trimmed_request_witness :
  exists resp s',
    process_syllabus (quiet_world (Some reply_scenario_a)) override_request
      initial_state = (inr resp, s')
    /\ resp_course_name resp = py "BIO 101"
    /\ resp_count resp = List.length (resp_events resp)
    /\ trimmed (resp_course_name resp).
Proof.
  destruct (process_syllabus (quiet_world (Some reply_scenario_a))
              override_request initial_state) as [[e | resp] s'] eqn:H;
    [vm_compute in H; discriminate |].
  exists resp, s'. split; [reflexivity |].
  destruct (rows_carry_the_trimmed_request _ _ _ _ _ H) as (Hc & Ht & _).
  split; [| split; [exact Hc | exact Ht]].
  vm_compute in H. injection H as <- _. reflexivity.
Defined.

Lemma rows_have_titles_witness :
  exists resp s',
    process_syllabus (quiet_world (Some reply_undated)) sample_request
      initial_state = (inr resp, s')
    /\ Forall (fun r => truthy (event_title r) = true) (resp_events resp).
Proof.
  destruct (process_syllabus (quiet_world (Some reply_undated)) sample_request
              initial_state) as [[e | resp] s'] eqn:H;
    [vm_compute in H; discriminate |].
  exists resp, s'. split; [reflexivity |].
  eapply Forall_impl; [| exact (rows_have_titles _ _ _ _ _ H)].
  intros r (Ht & _). exact Ht.
Defined.

Lemma delete_class_undoes_process_syllabus_witness :
  exists resp s1 s2,
    process_syllabus (quiet_world (Some reply_scenario_a)) sample_request
      stocked_state = (inr resp, s1)
    /\ List.length (table s1) = 2
    /\ delete_class (quiet_world (Some reply_scenario_a))
         (MkDeleteClassRequest (py "user-1") (resp_course_name resp)) s1
       = (inr status_ok, s2)
    /\ table s2 = table stocked_state.
Proof.
  destruct (process_syllabus (quiet_world (Some reply_scenario_a))
              sample_request stocked_state) as [[e | resp] s1] eqn:H;
    [vm_compute in H; discriminate |].
  assert (Hn : resp_course_name resp = py "CS 161"
               /\ List.length (table s1) = 2
               /\ client_available (quiet_world (Some reply_scenario_a)) s1
                  = true).
  { vm_compute in H. injection H as <- <-. repeat split. }
  destruct Hn as (Hn & Hl & Ha).
  assert (Hold : Forall (fun r => row_matches (py "user-1")
                                    (resp_course_name resp) r = false)
                   (table stocked_state)).
  { rewrite Hn. constructor; [reflexivity | constructor]. }
  destruct (delete_class_undoes_process_syllabus
              (quiet_world (Some reply_scenario_a)) sample_request
              stocked_state resp s1 (py "user-1") H eq_refl Hold Ha eq_refl)
    as (s2 & Hd & Ht).
  exists resp, s1, s2. auto.
Defined.

Lemma rows_without_user_are_never_deleted_witness :
  exists resp s1,
    process_syllabus (quiet_world (Some reply_scenario_a)) anonymous_request
      initial_state = (inr resp, s1)
    /\ Forall (fun r => row_user_id r = None) (resp_events resp).
Proof.
  destruct (process_syllabus (quiet_world (Some reply_scenario_a))
              anonymous_request initial_state) as [[e | resp] s1] eqn:H;
    [vm_compute in H; discriminate |].
  exists resp, s1. split; [reflexivity |].
  exact (proj1 (rows_without_user_are_never_deleted _ _ _ _ _ H
                  (or_introl eq_refl))).
Defined.

Lemma delete_class_twice_witness :
  exists s1 s2,
    delete_class flaky_delete_world sample_delete stocked_state
    = (inr status_ok, s1)
    /\ delete_class flaky_delete_world sample_delete s1
       = (inl (HTTPException 500
                 (py "Could not delete class events: service unavailable")),
          s2)
    /\ table s2 = table s1.
Proof.
  destruct (delete_class flaky_delete_world sample_delete stocked_state)
    as [[e | ok] s1] eqn:H; [vm_compute in H; discriminate |].
  pose proof H as H'. vm_compute in H'. injection H' as Eok Es.
  assert (Hok : ok = status_ok) by (rewrite <- Eok; reflexivity).
  subst ok.
  destruct (delete_class_twice flaky_delete_world _ _ _ H)
    as (_ & Ht & _ & Herr).
  destruct (Herr runtime_error) as (s2 & Hd).
  - rewrite <- Es. reflexivity.
  - reflexivity.
  - exists s1, s2. split; [reflexivity |].
    split; [exact Hd | exact (Ht _ _ Hd)].
Defined.

Lemma foreign_tag_is_rejected_witness :
  json_loads (py "[]") = inr (VList [])
  /\ exists e raw,
       raw_of_reply (Some (fenced (py "JSON") (py "[]"))) = chr "J" :: raw
       /\ json_loads (chr "J" :: raw) = inl e
       /\ process_syllabus (quiet_world (Some (fenced (py "JSON") (py "[]"))))
            sample_request initial_state
          = (inl (HTTPException 502
                    (exc_str (invalid_json e (chr "J" :: raw)))),
             with_calls initial_state
               (fetch_and_model sample_request (py "syllabus"))).
Proof.
  split; [reflexivity |].
  apply (foreign_tag_is_rejected
           (quiet_world (Some (fenced (py "JSON") (py "[]")))) sample_request
           initial_state (py "syllabus") (chr "J") (py "SON") (py "[]"));
    first [reflexivity | discriminate].
Defined.
